(** * Event-store transfer tool: the stream transfer pipeline

    A shallow embedding of [access-stream.py] and [export-stream.py]:
    the paginated reader, the event materializer, the archive codec, the
    replay writer and stream discovery, with the properties the
    specification states about them.

    The scripts talk to three things outside themselves, and the model
    makes each of them explicit in a [world]:
    - the event store, an arbitrary state machine [serve] answering one
      HTTP request at a time; every request the scripts send is logged;
    - the file system: files by path, and the one scoped temporary
      directory a [with tempfile.TemporaryDirectory()] block owns;
    - standard output, the list of printed lines.

    Python's [json.dumps] and [json.loads] are library code; they are
    section variables, and a theorem that needs a fact about them says so
    in a hypothesis. *)

From Stdlib Require Import String Ascii List Bool Arith ZArith QArith Lia.
From Stdlib Require Import DecimalString DecimalNat.
Import ListNotations.

#[local] Set Warnings "-register-all".
Local Open Scope nat_scope.
Local Open Scope string_scope.
Local Open Scope list_scope.

(** ** JSON values, as Python sees them after [json.loads] *)

(** A [dict] keeps insertion order and has no duplicate key; it is an
    association list searched from the front.  Numbers are rationals
    (the non-standard [NaN] and [Infinity] are left out). *)
Inductive json : Type :=
| JNull
| JBool (b : bool)
| JNum (q : Q)
| JStr (s : string)
| JArr (items : list json)
| JObj (fields : list (string * json)).

(** The exceptions the scripts can meet.  [exit()] raises [SystemExit]. *)
Inductive exn : Type :=
| KeyError (key : string)
| IndexError
| TypeError
| AttributeError
| JSONDecodeError (msg : string)
| FileNotFoundError
| IsADirectoryError
| UnicodeDecodeError
| BadArchive
| InvalidURL
| SystemExit.

(** How a call ends: with a value, with an exception, or not at all
    (a loop that used up the steps it was given). *)
Inductive outcome (A : Type) : Type :=
| Ret (a : A)
| Raise (e : exn)
| Diverge.
Arguments Ret {A} a.
Arguments Raise {A} e.
Arguments Diverge {A}.

(** ** Strings *)

Definition LF : ascii := "010"%char.
Definition CR : ascii := "013"%char.
Definition nl : string := String LF "".
Definition dquote : string := String (ascii_of_nat 34) "".

(** [str(n)] for the integers the scripts print. *)
Definition str_Z (z : Z) : string := NilZero.string_of_int (Z.to_int z).
Definition str_nat (n : nat) : string := NilEmpty.string_of_uint (Nat.to_uint n).

(** [s.endswith(suffix)] *)
Fixpoint endswith (s suffix : string) : bool :=
  String.eqb s suffix ||
  match s with
  | EmptyString => false
  | String _ s' => endswith s' suffix
  end.

(** [s.startswith(p)] together with the rest: [Some r] when [s = p ++ r]. *)
Fixpoint strip_prefix (p s : string) : option string :=
  match p with
  | EmptyString => Some s
  | String a p' =>
      match s with
      | EmptyString => None
      | String b s' => if Ascii.eqb a b then strip_prefix p' s' else None
      end
  end.

(** [s.replace(old, new, 1)]: the leftmost occurrence of [old], wherever
    it is, becomes [new]; a string without [old] comes back unchanged. *)
Fixpoint replace_first (old new s : string) : string :=
  match strip_prefix old s with
  | Some rest => (new ++ rest)%string
  | None =>
      match s with
      | EmptyString => EmptyString
      | String c s' => String c (replace_first old new s')
      end
  end.

(** [''.join(parts)] *)
Definition join (parts : list string) : string :=
  fold_right append "" parts.

(** [s.split(sep)] for a one-character separator. *)
Fixpoint split_on (sep : ascii) (cur s : string) : list string :=
  match s with
  | EmptyString => [cur]
  | String c s' =>
      if Ascii.eqb c sep then cur :: split_on sep "" s'
      else split_on sep (cur ++ String c "")%string s'
  end.

(** [s.lstrip('.')] *)
Fixpoint lstrip_dots (s : string) : string :=
  match s with
  | String "." s' => lstrip_dots s'
  | _ => s
  end.

(** ** Paths *)

(** [Path(p).name]: the last component of the path; [pathlib] drops
    empty components and [.] components when it parses the path. *)
Definition path_name (p : string) : string :=
  last (filter (fun c => negb (String.eqb c "" || String.eqb c "."))
               (split_on "/" "" p)) "".

(** [Path(p).suffixes], as [pathlib] computes it: nothing for a name
    that ends with a dot; otherwise the name without its leading dots is
    split at the dots and every piece but the first is a suffix. *)
Definition suffixes (p : string) : list string :=
  let name := path_name p in
  if endswith name "." then []
  else map (fun suffix => ("." ++ suffix)%string) (tl (split_on "." "" (lstrip_dots name))).

(** [''.join(Path(file_name).suffixes)], the value both dispatchers
    branch on. *)
Definition extension (file_name : string) : string := join (suffixes file_name).

(** The test [validate_file] accepts a file name with, once the name
    has a suffix: [file_name.endswith(('.json', '.tar.xz', '.zip'))]. *)
Definition supported_name (file_name : string) : bool :=
  endswith file_name ".json" || endswith file_name ".tar.xz"
  || endswith file_name ".zip".

(** A place a file can be opened at: a path the caller supplied, or a
    path below the live temporary directory, kept as its components.
    [tempfile] hands out a directory no other path names, so the two
    kinds never meet. *)
Inductive path : Type :=
| Abs (p : string)
| InTmp (rel : list string).

(** ** The file system *)

(** What a temporary directory, or an archive once extracted, holds. *)
Inductive node : Type :=
| File (content : string)
| Dir (children : list (string * node)).

Definition tree : Type := list (string * node).

(** What sits at a caller-supplied path: a text file or an archive.  An
    archive is described by the tree it extracts to. *)
Inductive fobj : Type :=
| Text (content : string)
| Zip (members : tree)
| TarXz (members : tree).

Fixpoint assoc {A : Type} (k : string) (l : list (string * A)) : option A :=
  match l with
  | [] => None
  | (k', v) :: l' => if String.eqb k' k then Some v else assoc k l'
  end.

(** Replace the binding of [k], or add one at the end. *)
Fixpoint assoc_set {A : Type} (k : string) (v : A) (l : list (string * A))
  : list (string * A) :=
  match l with
  | [] => [(k, v)]
  | (k', v') :: l' =>
      if String.eqb k' k then (k, v) :: l' else (k', v') :: assoc_set k v l'
  end.

Fixpoint tree_get (rel : list string) (n : node) : option node :=
  match rel with
  | [] => Some n
  | c :: rel' =>
      match n with
      | File _ => None
      | Dir children =>
          match assoc c children with
          | Some n' => tree_get rel' n'
          | None => None
          end
      end
  end.

(** Put [new] at [rel]; every directory on the way has to exist. *)
Fixpoint tree_put (rel : list string) (new : node) (n : node) : option node :=
  match rel with
  | [] => Some new
  | c :: rel' =>
      match n with
      | File _ => None
      | Dir children =>
          match rel' with
          | [] => Some (Dir (assoc_set c new children))
          | _ :: _ =>
              match assoc c children with
              | Some n' =>
                  match tree_put rel' new n' with
                  | Some m => Some (Dir (assoc_set c m children))
                  | None => None
                  end
              | None => None
              end
          end
      end
  end.

(** [os.listdir(d)]: the names in a directory, files and directories
    alike. *)
Definition listdir (t : tree) : list string := map fst t.

Definition is_dir (n : node) : bool :=
  match n with Dir _ => true | File _ => false end.

(** [os.walk(top)], top-down: one triple [(root, dirs, files)] for the
    directory itself, then the walks of its sub-directories in order. *)
Fixpoint walk_node (root : list string) (n : node)
  : list (list string * list string * list string) :=
  match n with
  | File _ => []
  | Dir children =>
      (root,
       map fst (filter (fun kv => is_dir (snd kv)) children),
       map fst (filter (fun kv => negb (is_dir (snd kv))) children))
      :: (fix walk_children (l : tree) :=
            match l with
            | [] => []
            | (name, child) :: l' =>
                walk_node (root ++ [name]) child ++ walk_children l'
            end) children
  end.

Definition os_walk (t : tree) := walk_node [] (Dir t).

(** The lines a text file yields to [for line in file].  The file is open
    in text mode with universal newlines: a line ends at LF, at CR or at
    CR LF, and ends with LF once read; a last line without a line ending
    is yielded as it is. *)
Fixpoint file_lines_from (cur s : string) : list string :=
  match s with
  | EmptyString => match cur with EmptyString => [] | _ => [cur] end
  | String c s' =>
      if Ascii.eqb c LF then (cur ++ nl)%string :: file_lines_from "" s'
      else if Ascii.eqb c CR then
        match s' with
        | String c' s'' =>
            if Ascii.eqb c' LF then (cur ++ nl)%string :: file_lines_from "" s''
            else (cur ++ nl)%string :: file_lines_from "" s'
        | EmptyString => (cur ++ nl)%string :: file_lines_from "" s'
        end
      else file_lines_from (cur ++ String c "")%string s'
  end.

Definition file_lines (content : string) : list string :=
  file_lines_from "" content.


(** ** HTTP *)

Definition headers : Type := list (string * string).

(** A request as [requests.get] and [requests.post] send it. *)
Inductive request : Type :=
| GET (url : string) (hdrs : headers)
| POST (url : string) (hdrs : headers) (data : option string).

(** What the scripts read off a response: [status_code], [text], and
    the value of [.json()], [None] when the body does not decode. *)
Record response : Type := mkResponse {
  status_code : Z;
  text : string;
  body_json : option json
}.

(** ** Python's view of a JSON value *)

(** [bool(v)], as [if v:] and [while v:] test it. *)
Definition truthy (v : json) : bool :=
  match v with
  | JNull => false
  | JBool b => b
  | JNum q => negb (Qeq_bool q 0)
  | JStr s => negb (String.eqb s "")
  | JArr items => match items with [] => false | _ => true end
  | JObj fields => match fields with [] => false | _ => true end
  end.

Fixpoint chars (s : string) : list string :=
  match s with
  | EmptyString => []
  | String c s' => String c "" :: chars s'
  end.

(** [v[key]] for a string key. *)
Definition subscript (v : json) (key : string) : outcome json :=
  match v with
  | JObj fields =>
      match assoc key fields with
      | Some x => Ret x
      | None => Raise (KeyError key)
      end
  | _ => Raise TypeError
  end.

(** [v[0]] *)
Definition subscript0 (v : json) : outcome json :=
  match v with
  | JArr (x :: _) => Ret x
  | JArr [] => Raise IndexError
  | JStr (String c _) => Ret (JStr (String c ""))
  | JStr EmptyString => Raise IndexError
  | JObj fields => Raise (KeyError "0")
  | _ => Raise TypeError
  end.

(** The elements [for x in v] runs over: the items of a list, the keys
    of a dict, the characters of a string. *)
Definition iterate (v : json) : outcome (list json) :=
  match v with
  | JArr items => Ret items
  | JObj fields => Ret (map (fun kv => JStr (fst kv)) fields)
  | JStr s => Ret (map JStr (chars s))
  | _ => Raise TypeError
  end.

(** [v.get(key, default)] *)
Definition dict_get (v : json) (key : string) (default : json) : outcome json :=
  match v with
  | JObj fields =>
      match assoc key fields with
      | Some x => Ret x
      | None => Ret default
      end
  | _ => Raise AttributeError
  end.

(** [v >= 100.0]; a [bool] compares as 0 or 1. *)
Definition ge_100 (v : json) : outcome bool :=
  match v with
  | JNum q => Ret (Qle_bool 100 q)
  | JBool _ => Ret false
  | _ => Raise TypeError
  end.

(** [title.replace('0@', '', 1)] *)
Definition title_replace (title : json) : outcome string :=
  match title with
  | JStr s => Ret (replace_first "0@" "" s)
  | _ => Raise AttributeError
  end.

(** ** Stores and a codec to run the model with *)

Definition request_url (r : request) : string :=
  match r with
  | GET url _ => url
  | POST url _ _ => url
  end.

Definition not_found : response := mkResponse 404 "Not Found" None.

(** A store without state that answers by URL from a table, and 404 for
    a URL the table does not have. *)
Definition routes (table : list (string * response)) (s : unit) (r : request)
  : unit * response :=
  match assoc (request_url r) table with
  | Some resp => (s, resp)
  | None => (s, not_found)
  end.

(** A store that answers from a script, one response per request in the
    order they come, and 404 once the script is used up. *)
Definition scripted (s : list response) (r : request)
  : list response * response :=
  match s with
  | resp :: s' => (s', resp)
  | [] => ([], not_found)
  end.

(** An encoder in the format of [json.dumps]: [", "] between items and
    [": "] after a key, on one line.  It is here to run examples: it
    writes a number that is not an integer as a fraction, and it leaves
    the characters of a string as they are. *)
Fixpoint demo_dumps (v : json) : string :=
  match v with
  | JNull => "null"
  | JBool true => "true"
  | JBool false => "false"
  | JNum q =>
      match Qden q with
      | xH => str_Z (Qnum q)
      | d => str_Z (Qnum q) ++ "/" ++ str_Z (Zpos d)
      end
  | JStr s => dquote ++ s ++ dquote
  | JArr items =>
      "[" ++ (fix dumps_items (l : list json) : string :=
                match l with
                | [] => ""
                | [x] => demo_dumps x
                | x :: l' => demo_dumps x ++ ", " ++ dumps_items l'
                end) items ++ "]"
  | JObj fields =>
      "{" ++ (fix dumps_fields (l : list (string * json)) : string :=
                match l with
                | [] => ""
                | [(k, x)] => dquote ++ k ++ dquote ++ ": " ++ demo_dumps x
                | (k, x) :: l' =>
                    dquote ++ k ++ dquote ++ ": " ++ demo_dumps x
                    ++ ", " ++ dumps_fields l'
                end) fields ++ "}"
  end%string.

(** [s.strip()] of the line ending [json.loads] ignores. *)
Fixpoint chomp (s : string) : string :=
  match s with
  | EmptyString => EmptyString
  | String c s' =>
      match chomp s' with
      | EmptyString => if Ascii.eqb c LF || Ascii.eqb c CR then EmptyString
                       else String c EmptyString
      | rest => String c rest
      end
  end.

(** A decoder for a known, finite set of documents: a line decodes to
    the document [demo_dumps] writes as that line. *)
Fixpoint demo_loads (known : list json) (line : string) : string + json :=
  match known with
  | [] => inl "Expecting value: line 1 column 1 (char 0)"
  | v :: known' =>
      if String.eqb (demo_dumps v) (chomp line) then inr v
      else demo_loads known' line
  end.

(** *** A small stream *)

(** The document of an event as the store serves it. *)
Definition demo_event (eventId eventType : string) : json :=
  JObj [("title", JStr ("0@" ++ eventType));
        ("content", JObj [("eventId", JStr eventId);
                          ("eventType", JStr eventType);
                          ("data", JObj [])])].

(** An entry of a page: a title and the self-link, first of its
    links. *)
Definition demo_entry (title uri : string) : json :=
  JObj [("title", JStr title);
        ("links", JArr [JObj [("uri", JStr uri); ("relation", JStr "edit")];
                        JObj [("uri", JStr uri); ("relation", JStr "alternate")]])].

(** A page: its entries, its own link and, when there is a further
    page, the [next] link. *)
Definition demo_page (entries : list json) (next : option string) : json :=
  JObj [("entries", JArr entries);
        ("links",
         JArr (JObj [("uri", JStr "/streams/s"); ("relation", JStr "self")]
               :: match next with
                  | Some uri => [JObj [("uri", JStr uri); ("relation", JStr "next")]]
                  | None => []
                  end))].

Definition ok_json (v : json) : response := mkResponse 200 "" (Some v).

Definition event_a : json := demo_event "a" "T1".
Definition event_b : json := demo_event "b" "T2".
Definition entry_a : json := demo_entry "0@s" "/streams/s/0".
Definition entry_b : json := demo_entry "1@s" "/streams/s/1".

(** The stream of the two events [a] and [b], in two pages, newest
    first; appending to [/streams/t] answers 201. *)
Definition demo_table : list (string * response) :=
  [("/streams/s", ok_json (demo_page [entry_b] (Some "/streams/s/page2")));
   ("/streams/s/page2", ok_json (demo_page [entry_a] None));
   ("/streams/s/0", ok_json event_a);
   ("/streams/s/1", ok_json event_b);
   ("/streams/t", mkResponse 201 "" None)].

(** The same stream behind a store that loses the second page and the
    event [b]. *)
Definition lossy_table : list (string * response) :=
  [("/streams/s", ok_json (demo_page [entry_b] (Some "/streams/s/page2")));
   ("/streams/s/page2", mkResponse 503 "Service Unavailable" None);
   ("/streams/s/0", ok_json event_a);
   ("/streams/s/1", mkResponse 410 "Gone" None)].

(** A store that answers a page with 203, as a transforming proxy
    does. *)
Definition proxy_table : list (string * response) :=
  [("/streams/s", mkResponse 203 "" (Some (demo_page [entry_a] None)))].

Definition demo_codec : string -> string + json :=
  demo_loads [event_a; event_b; JObj []].

(** A projection that is at 50 percent, then at 100, and an index of
    streams. *)
Definition progress (percent : Z) : response :=
  ok_json (JObj [("progress", JNum (inject_Z percent))]).

Definition index_script (titles : list string) : list response :=
  [mkResponse 200 "" None; progress 50; progress 100; mkResponse 200 "" None;
   ok_json (JObj [("entries",
                   JArr (map (fun t => demo_entry t "/streams/x") titles))])].

(** [c in s] for a character [c] *)
Fixpoint has_char (c : ascii) (s : string) : bool :=
  match s with
  | EmptyString => false
  | String d s' => Ascii.eqb d c || has_char c s'
  end.

(** *** A small console *)

(** [str.lower], [str.strip] and [int] for the letters, the blanks and
    the digits of ASCII.  They are here to run examples. *)
Definition lower_char (c : ascii) : ascii :=
  let n := nat_of_ascii c in
  if Nat.leb 65 n && Nat.leb n 90 then ascii_of_nat (n + 32) else c.

Fixpoint demo_lower (s : string) : string :=
  match s with
  | EmptyString => EmptyString
  | String c s' => String (lower_char c) (demo_lower s')
  end.

Fixpoint lstrip_blanks (s : string) : string :=
  match s with
  | String " " s' => lstrip_blanks s'
  | _ => s
  end.

Fixpoint rstrip_blanks (s : string) : string :=
  match s with
  | EmptyString => EmptyString
  | String c s' =>
      match rstrip_blanks s' with
      | EmptyString => if Ascii.eqb c " " then EmptyString
                       else String c EmptyString
      | rest => String c rest
      end
  end.

Definition demo_strip (s : string) : string := rstrip_blanks (lstrip_blanks s).

Definition demo_int (s : string) : option Z :=
  match s with
  | EmptyString => None
  | _ =>
      match NilEmpty.uint_of_string s with
      | Some d => Some (Z.of_nat (Nat.of_uint d))
      | None => None
      end
  end.

(** ** The world and the monad the scripts run in *)

Section Pipeline.

(** The event store: a state and one transition per request.  The
    store is taken to be reachable: every request gets a response. *)
Variable S : Type.
Variable serve : S -> request -> S * response.

(** [json.dumps] and [json.loads]; [inl msg] is a [JSONDecodeError]. *)
Variable json_dumps : json -> string.
Variable json_loads : string -> string + json.

Record world : Type := mkWorld {
  w_srv : S;                          (* the store's state *)
  w_sent : list request;              (* requests sent, oldest first *)
  w_files : list (string * fobj);     (* files by path *)
  w_tmp : option tree;                (* the live temporary directory *)
  w_out : list string                 (* lines printed, oldest first *)
}.

Definition M (A : Type) : Type := world -> outcome A * world.

Definition ret {A : Type} (a : A) : M A := fun w => (Ret a, w).

Definition bind {A B : Type} (c : M A) (k : A -> M B) : M B :=
  fun w =>
    match c w with
    | (Ret a, w') => k a w'
    | (Raise e, w') => (Raise e, w')
    | (Diverge, w') => (Diverge, w')
    end.

Definition raise {A : Type} (e : exn) : M A := fun w => (Raise e, w).
Definition diverge {A : Type} : M A := fun w => (Diverge, w).
Definition lift {A : Type} (o : outcome A) : M A := fun w => (o, w).

Notation "x <- c ;; k" := (bind c (fun x => k))
  (at level 61, c at next level, right associativity).
Notation "c ;; k" := (bind c (fun _ => k))
  (at level 61, right associativity).

(** [try: body / except ...: handler]; [handler e] is [None] for an
    exception the clause does not name. *)
Definition try_except {A : Type} (body : M A) (handler : exn -> option (M A))
  : M A :=
  fun w =>
    match body w with
    | (Raise e, w') =>
        match handler e with
        | Some h => h w'
        | None => (Raise e, w')
        end
    | r => r
    end.

(** [for x in l: body x] *)
Fixpoint for_each {A : Type} (l : list A) (body : A -> M unit) : M unit :=
  match l with
  | [] => ret tt
  | x :: l' => body x ;; for_each l' body
  end.

Definition print (line : string) : M unit :=
  fun w => (Ret tt, mkWorld (w_srv w) (w_sent w) (w_files w) (w_tmp w)
                            (w_out w ++ [line])).

(** [exit()] *)
Definition exit {A : Type} : M A := raise SystemExit.

(** *** requests *)

Definition send (r : request) : M response :=
  fun w =>
    let (s', resp) := serve (w_srv w) r in
    (Ret resp, mkWorld s' (w_sent w ++ [r]) (w_files w) (w_tmp w) (w_out w)).

(** [requests.get(url, headers=hdrs)]; the URL the reader follows comes
    out of a JSON document, and only a string can be fetched. *)
Definition requests_get (url : json) (hdrs : headers) : M response :=
  match url with
  | JStr u => send (GET u hdrs)
  | _ => raise InvalidURL
  end.

(** [requests.post(url, headers=hdrs, data=data)] *)
Definition requests_post (url : string) (hdrs : headers) (data : option string)
  : M response :=
  send (POST url hdrs data).

(** [response.json()] *)
Definition response_json (r : response) : M json :=
  match body_json r with
  | Some v => ret v
  | None => raise (JSONDecodeError "response body")
  end.

(** *** files *)

Definition set_files (fs : list (string * fobj)) (w : world) : world :=
  mkWorld (w_srv w) (w_sent w) fs (w_tmp w) (w_out w).

Definition set_tmp (t : option tree) (w : world) : world :=
  mkWorld (w_srv w) (w_sent w) (w_files w) t (w_out w).

(** The text at a path, as [open(p, 'r')] finds it. *)
Definition content_at (p : path) (w : world) : outcome string :=
  match p with
  | Abs q =>
      match assoc q (w_files w) with
      | Some (Text c) => Ret c
      | Some _ => Raise UnicodeDecodeError
      | None => Raise FileNotFoundError
      end
  | InTmp rel =>
      match w_tmp w with
      | Some t =>
          match tree_get rel (Dir t) with
          | Some (File c) => Ret c
          | Some (Dir _) => Raise IsADirectoryError
          | None => Raise FileNotFoundError
          end
      | None => Raise FileNotFoundError
      end
  end.

(** The world with text [c] at [p]; [None] when a directory on the way
    is missing. *)
Definition set_content (p : path) (c : string) (w : world) : option world :=
  match p with
  | Abs q => Some (set_files (assoc_set q (Text c) (w_files w)) w)
  | InTmp rel =>
      match w_tmp w with
      | Some t =>
          match tree_put rel (File c) (Dir t) with
          | Some (Dir t') => Some (set_tmp (Some t') w)
          | _ => None
          end
      | None => None
      end
  end.

(** [open(p, 'w')]: the file is created, or emptied. *)
Definition open_write (p : path) : M unit :=
  fun w =>
    match content_at p w with
    | Raise IsADirectoryError => (Raise IsADirectoryError, w)
    | _ =>
        match set_content p "" w with
        | Some w' => (Ret tt, w')
        | None => (Raise FileNotFoundError, w)
        end
    end.

(** [file.write(s)] on the file opened at [p]. *)
Definition file_write (p : path) (s : string) : M unit :=
  fun w =>
    match content_at p w with
    | Ret c =>
        match set_content p (c ++ s) w with
        | Some w' => (Ret tt, w')
        | None => (Raise FileNotFoundError, w)
        end
    | Raise e => (Raise e, w)
    | Diverge => (Diverge, w)
    end.

(** [open(p, 'r')] and the lines the loop over the file sees. *)
Definition read_lines (p : path) : M (list string) :=
  fun w =>
    match content_at p w with
    | Ret c => (Ret (file_lines c), w)
    | Raise e => (Raise e, w)
    | Diverge => (Diverge, w)
    end.

(** [with tempfile.TemporaryDirectory() as temp_dir: body]: a fresh,
    empty directory for the body, removed however the body ends. *)
Definition with_temporary_directory {A : Type} (body : M A) : M A :=
  fun w =>
    let (o, w') := body (set_tmp (Some []) w) in
    (o, set_tmp None w').

Inductive archive_kind : Type := KZip | KTarXz.

Definition archive (k : archive_kind) (members : tree) : fobj :=
  match k with KZip => Zip members | KTarXz => TarXz members end.

(** [zipf.write(src, arcname=src.name)] into a new archive at
    [file_path], and [tar.add] likewise: the archive holds one member,
    named after the last component of [src].  The archive is created
    before [src] is read, so it stays empty when [src] cannot be. *)
Definition compress (k : archive_kind) (file_path : string) (src : path) : M unit :=
  fun w =>
    match content_at src w with
    | Ret c =>
        let arcname :=
          match src with
          | Abs q => path_name q
          | InTmp rel => last rel ""
          end in
        (Ret tt,
         set_files (assoc_set file_path (archive k [(arcname, File c)])
                              (w_files w)) w)
    | Raise e =>
        (Raise e, set_files (assoc_set file_path (archive k []) (w_files w)) w)
    | Diverge => (Diverge, w)
    end.

(** [z.extractall(path=temp_dir)] and [tar.extractall(path=temp_dir)]
    into the directory the enclosing [with] block has just made. *)
Definition extractall (k : archive_kind) (filename : string) : M unit :=
  fun w =>
    match assoc filename (w_files w), k with
    | Some (Zip members), KZip => (Ret tt, set_tmp (Some members) w)
    | Some (TarXz members), KTarXz => (Ret tt, set_tmp (Some members) w)
    | Some _, _ => (Raise BadArchive, w)
    | None, _ => (Raise FileNotFoundError, w)
    end.

(** [os.listdir(temp_dir)] *)
Definition listdir_tmp : M (list string) :=
  fun w =>
    match w_tmp w with
    | Some t => (Ret (listdir t), w)
    | None => (Raise FileNotFoundError, w)
    end.

(** [os.walk(temp_dir)]; nothing changes the directory while the loop
    runs, so the walk is taken when the loop starts. *)
Definition walk_tmp : M (list (list string * list string * list string)) :=
  fun w =>
    match w_tmp w with
    | Some t => (Ret (os_walk t), w)
    | None => (Ret [], w)
    end.

(** ** access-stream.py *)

(** [next((link for link in links if link['relation'] == 'next'), None)]:
    the generator evaluates [link['relation']] link by link and stops at
    the first match. *)
Fixpoint next_link (links : list json) : outcome (option json) :=
  match links with
  | [] => Ret None
  | link :: links' =>
      match subscript link "relation" with
      | Ret (JStr "next") => Ret (Some link)
      | Ret _ => next_link links'
      | Raise e => Raise e
      | Diverge => Diverge
      end
  end.

(** [get_stream_events(stream_url, headers)].  The [while] loop has no
    bound of its own; [fuel] is the number of iterations allowed, and
    running out of it is [Diverge]. *)
Fixpoint get_stream_events_loop (fuel : nat) (stream_url : json)
  (hdrs : headers) (events : list json) : M (list json) :=
  match fuel with
  | O => diverge
  | Datatypes.S fuel' =>
      if truthy stream_url then
        response <- requests_get stream_url hdrs ;;
        if negb (status_code response =? 200)%Z then
          print ("Failed to fetch stream page. Status code: "
                 ++ str_Z (status_code response)) ;;
          ret events
        else
          data <- response_json response ;;
          entries <- lift (subscript data "entries") ;;
          new_events <- lift (iterate entries) ;;
          let events := events ++ new_events in
          links <- lift (subscript data "links") ;;
          link_list <- lift (iterate links) ;;
          prev_link <- lift (next_link link_list) ;;
          match prev_link with
          | Some link =>
              if truthy link then
                stream_url <- lift (subscript link "uri") ;;
                get_stream_events_loop fuel' stream_url hdrs events
              else ret events
          | None => ret events
          end
      else ret events
  end.

Definition get_stream_events (fuel : nat) (stream_url : json) (hdrs : headers)
  : M (list json) :=
  get_stream_events_loop fuel stream_url hdrs [].

(** [entry['links'][0]['uri']] *)
Definition self_link (entry : json) : outcome json :=
  match subscript entry "links" with
  | Ret links =>
      match subscript0 links with
      | Ret link => subscript link "uri"
      | Raise e => Raise e
      | Diverge => Diverge
      end
  | Raise e => Raise e
  | Diverge => Diverge
  end.

(** The body of the loop of [export_events_to_file]. *)
Definition export_entry (event_file_path : path) (hdrs : headers) (entry : json)
  : M unit :=
  event_url <- lift (self_link entry) ;;
  event_response <- requests_get event_url hdrs ;;
  if (status_code event_response =? 200)%Z then
    event_data <- response_json event_response ;;
    file_write event_file_path (json_dumps event_data ++ nl)
  else ret tt.

(** [export_events_to_file(event_file_path, events, headers)] *)
Definition export_events_to_file (event_file_path : path) (events : list json)
  (hdrs : headers) : M unit :=
  open_write event_file_path ;;
  for_each (rev events) (export_entry event_file_path hdrs).

(** [export_events(events, file_name, headers)] *)
Definition export_events (events : list json) (file_name : string)
  (hdrs : headers) : M unit :=
  let extension := extension file_name in
  if String.eqb extension ".json" || String.eqb extension "" then
    export_events_to_file (Abs file_name) events hdrs
  else if String.eqb extension ".zip" || String.eqb extension ".tar.xz" then
    with_temporary_directory (
      let temp_file_path := InTmp ["events.json"] in
      export_events_to_file temp_file_path events hdrs ;;
      print ("Compressing data to " ++ file_name
             ++ ". This may take a few minutes for larger files.") ;;
      (if String.eqb extension ".zip" then
         compress KZip file_name temp_file_path
       else if String.eqb extension ".tar.xz" then
         compress KTarXz file_name temp_file_path
       else ret tt) ;;
      print ("Compressed data to " ++ file_name ++ "."))
  else
    print ("Unsupported file type: " ++ extension).

(** The one-element list [import_event] posts. *)
Definition event_payload (eventId eventType data : json) : json :=
  JArr [JObj [("eventId", eventId); ("eventType", eventType); ("data", data)]].

(** [event['content'][field]] *)
Definition content_field (event : json) (field : string) : outcome json :=
  match subscript event "content" with
  | Ret content => subscript content field
  | Raise e => Raise e
  | Diverge => Diverge
  end.

(** [import_event(stream_url, event, headers)] *)
Definition import_event (stream_url : string) (event : json) (hdrs : headers)
  : M bool :=
  eventId <- lift (content_field event "eventId") ;;
  eventType <- lift (content_field event "eventType") ;;
  data <- lift (content_field event "data") ;;
  let event_payload := event_payload eventId eventType data in
  response <- requests_post stream_url hdrs (Some (json_dumps event_payload)) ;;
  if negb ((status_code response =? 200)%Z || (status_code response =? 201)%Z)
  then
    print ("Failed to upload event. Status code: "
           ++ str_Z (status_code response) ++ ", Reason: " ++ text response) ;;
    ret false
  else ret true.

(** [json.loads(line)] *)
Definition loads (line : string) : M json :=
  match json_loads line with
  | inr v => ret v
  | inl msg => raise (JSONDecodeError msg)
  end.

(** The body of the loop of [import_events] over the lines of the file,
    with the two counters as its state. *)
Fixpoint import_lines (lines : list string) (stream_url : string)
  (hdrs : headers) (counts : nat * nat) : M (nat * nat) :=
  match lines with
  | [] => ret counts
  | line :: lines' =>
      counts' <-
        try_except
          (event <- loads line ;;
           ok <- import_event stream_url event hdrs ;;
           ret (if ok : bool then (Datatypes.S (fst counts), snd counts)
                else (fst counts, Datatypes.S (snd counts))))
          (fun e =>
             match e with
             | JSONDecodeError msg =>
                 Some (print ("Error decoding JSON: " ++ msg) ;; ret counts)
             | _ => None
             end) ;;
      import_lines lines' stream_url hdrs counts'
  end.

(** The line [import_events] prints last. *)
Definition report (success_count failure_count : nat) : string :=
  if Nat.ltb 0 failure_count then
    str_nat success_count ++ " events successfully uploaded to EventDB, "
    ++ str_nat failure_count ++ " events failed to upload."
  else
    str_nat success_count ++ " events successfully uploaded to EventDB".

(** [import_events(filename, stream_url, headers)] *)
Definition import_events (filename : path) (stream_url : string) (hdrs : headers)
  : M unit :=
  lines <- read_lines filename ;;
  counts <- import_lines lines stream_url hdrs (0, 0) ;;
  print (report (fst counts) (snd counts)).

(** The body of the [for root, dirs, files in os.walk(temp_dir)] loop of
    [process_import_file]. *)
Definition process_import_dir (root : list string) (stream_url : string)
  (hdrs : headers) : M unit :=
  names <- listdir_tmp ;;
  let json_files := filter (fun f => endswith f ".json") names in
  (if Nat.ltb 1 (length json_files) then
     print "Error: Multiple JSON files in zipped file. System is currently limited to a single file." ;;
     exit
   else ret tt) ;;
  (if Nat.eqb (length json_files) 0 then
     print "Error: No json files in provided file." ;;
     exit
   else ret tt) ;;
  for_each json_files (fun json_file =>
    import_events (InTmp (root ++ [json_file])) stream_url hdrs).

(** [process_import_file(filename, stream_url, headers)] *)
Definition process_import_file (filename : string) (stream_url : string)
  (hdrs : headers) : M unit :=
  let extension := extension filename in
  if String.eqb extension ".json" || String.eqb extension "" then
    import_events (Abs filename) stream_url hdrs
  else if String.eqb extension ".zip" || String.eqb extension ".tar.xz" then
    with_temporary_directory (
      print ("Extracting data from " ++ filename
             ++ ". This may take a few minutes for large files.") ;;
      (if String.eqb extension ".zip" then extractall KZip filename
       else if String.eqb extension ".tar.xz" then extractall KTarXz filename
       else ret tt) ;;
      print ("Extracted data from " ++ filename ++ ".") ;;
      dirs <- walk_tmp ;;
      for_each dirs (fun rdf =>
        process_import_dir (fst (fst rdf)) stream_url hdrs))
  else
    print ("Unsupported file type: " ++ extension).

(** [run_projection(base_url, projection_name)]: the polling loop, with
    [fuel] for its iterations; [time.sleep] changes nothing here. *)
Fixpoint poll_projection (fuel : nat) (status_url : string)
  (status_headers : headers) : M unit :=
  match fuel with
  | O => diverge
  | Datatypes.S fuel' =>
      response <- requests_get (JStr status_url) status_headers ;;
      if (status_code response =? 200)%Z then
        data <- response_json response ;;
        progress <- lift (dict_get data "progress" (JNum 0)) ;;
        done <- lift (ge_100 progress) ;;
        if done : bool then ret tt
        else poll_projection fuel' status_url status_headers
      else
        print ("Failed to fetch projection status. Status code: "
               ++ str_Z (status_code response))
  end.

Definition run_projection (fuel : nat) (base_url projection_name : string)
  : M unit :=
  let enable_url :=
    (base_url ++ "/projection/" ++ projection_name ++ "/command/enable")%string in
  let disable_url :=
    (base_url ++ "/projection/" ++ projection_name ++ "/command/disable")%string in
  let status_url := (base_url ++ "/projection/" ++ projection_name)%string in
  let command_headers := [("Content-Length", "0")] in
  let status_headers := [("Accept", "application/json")] in
  response <- requests_post enable_url command_headers None ;;
  (if negb (status_code response =? 200)%Z then
     print ("Failed to start projection. Status code: "
            ++ str_Z (status_code response)) ;;
     exit
   else ret tt) ;;
  poll_projection fuel status_url status_headers ;;
  response <- requests_post disable_url command_headers None ;;
  if negb (status_code response =? 200)%Z then
    print ("Failed to stop projection. Status code: "
           ++ str_Z (status_code response))
  else ret tt.

(** The list comprehension of [get_available_streams]. *)
Fixpoint stream_names (entries : list json) : outcome (list string) :=
  match entries with
  | [] => Ret []
  | entry :: entries' =>
      match subscript entry "title" with
      | Ret title =>
          match title_replace title with
          | Ret name =>
              match stream_names entries' with
              | Ret names => Ret (name :: names)
              | Raise e => Raise e
              | Diverge => Diverge
              end
          | Raise e => Raise e
          | Diverge => Diverge
          end
      | Raise e => Raise e
      | Diverge => Diverge
      end
  end.

(** [get_available_streams(base_url, headers)]; [None] is Python's
    [None]. *)
Definition get_available_streams (fuel : nat) (base_url : string)
  (hdrs : headers) : M (option (list string)) :=
  run_projection fuel base_url "$streams" ;;
  let streams_url := (base_url ++ "/streams/$streams")%string in
  response <- requests_get (JStr streams_url) hdrs ;;
  if (status_code response =? 200)%Z then
    data <- response_json response ;;
    entries <- lift (subscript data "entries") ;;
    entry_list <- lift (iterate entries) ;;
    streams <- lift (stream_names entry_list) ;;
    ret (Some streams)
  else
    print ("Failed to list streams. Status code: "
           ++ str_Z (status_code response)) ;;
    ret None.

(** [enumerate(l, start=index)] *)
Fixpoint enumerate {A : Type} (index : nat) (l : list A) : list (nat * A) :=
  match l with
  | [] => []
  | x :: l' => (index, x) :: enumerate (Datatypes.S index) l'
  end.

(** [list_available_streams(base_url, headers)]: the function returns
    from inside the first branch, and every other way through it ends
    at the [exit()] of its last line. *)
Definition list_available_streams (fuel : nat) (base_url : string)
  (hdrs : headers) : M (list string) :=
  streams <- get_available_streams fuel base_url hdrs ;;
  match streams with
  | Some streams =>
      if Nat.ltb 0 (length streams) then
        print "Available streams:" ;;
        for_each (enumerate 1 streams) (fun index_stream =>
          print (str_nat (fst index_stream) ++ ". " ++ snd index_stream)) ;;
        ret streams
      else
        print "Error: No streams are available. Please create one before trying to export." ;;
        exit
  | None =>
      print "Error: No streams are available. Please create one before trying to export." ;;
      exit
  end.

(** The last statement of the script, [if mode == "export": ... elif
    mode == "import": ...], with the stream URL, the file path and the
    headers the lines before it have settled. *)
Definition main_transfer (fuel : nat) (mode stream_url file_path : string)
  (hdrs : headers) : M unit :=
  if String.eqb mode "export" then
    events <- get_stream_events fuel (JStr stream_url) hdrs ;;
    match events with
    | _ :: _ =>
        export_events events file_path hdrs ;;
        print ("Export completed successfully. Total events exported: "
               ++ str_nat (length events))
    | [] => print "No events were exported."
    end
  else if String.eqb mode "import" then
    process_import_file file_path stream_url hdrs ;;
    print "Import process completed."
  else ret tt.

(** *** The console *)

(** [str.strip()], [str.lower()] and [int(s)] of a string; [None] is the
    [ValueError] of [int]. *)
Variable py_strip : string -> string.
Variable py_lower : string -> string.
Variable py_int : string -> option Z.

(** How a function that talks to the user ends: like one that does
    not, or with the [EOFError] of [input] at the end of the input, or
    with a [ValueError]. *)
Inductive console_outcome (A : Type) : Type :=
| Returned (a : A)
| Raised (e : exn)
| EOFError
| ValueError
| Unbounded.

Arguments Returned {A} a.
Arguments Raised {A} e.
Arguments EOFError {A}.
Arguments ValueError {A}.
Arguments Unbounded {A}.

(** Such a function runs on the lines the user is going to type and on
    the world, and leaves the lines it has not read. *)
Definition K (A : Type) : Type :=
  list string -> world -> console_outcome A * list string * world.

Definition kret {A : Type} (a : A) : K A := fun lines w => (Returned a, lines, w).

Definition kbind {A B : Type} (c : K A) (k : A -> K B) : K B :=
  fun lines w =>
    match c lines w with
    | (Returned a, lines', w') => k a lines' w'
    | (Raised e, lines', w') => (Raised e, lines', w')
    | (EOFError, lines', w') => (EOFError, lines', w')
    | (ValueError, lines', w') => (ValueError, lines', w')
    | (Unbounded, lines', w') => (Unbounded, lines', w')
    end.

Definition kraise {A : Type} (e : exn) : K A := fun lines w => (Raised e, lines, w).
Definition value_error {A : Type} : K A := fun lines w => (ValueError, lines, w).
Definition unbounded {A : Type} : K A := fun lines w => (Unbounded, lines, w).

(** A function of the pipeline, called from the console. *)
Definition run {A : Type} (c : M A) : K A :=
  fun lines w =>
    match c w with
    | (Ret a, w') => (Returned a, lines, w')
    | (Raise e, w') => (Raised e, lines, w')
    | (Diverge, w') => (Unbounded, lines, w')
    end.

Declare Scope console_scope.
Delimit Scope console_scope with K.
Notation "x <- c ;; k" := (kbind c (fun x => k))
  (at level 61, c at next level, right associativity) : console_scope.
Notation "c ;; k" := (kbind c (fun _ => k))
  (at level 61, right associativity) : console_scope.

(** [input(prompt)]: the prompt goes to the standard output, as a
    printed line does but without the line end, and the next line the
    user types is returned without its line end. *)
Definition input (prompt : string) : K string :=
  fun lines w =>
    let w' := mkWorld (w_srv w) (w_sent w) (w_files w) (w_tmp w)
                      (w_out w ++ [prompt]) in
    match lines with
    | [] => (EOFError, [], w')
    | line :: lines' => (Returned line, lines', w')
    end.

(** [Path(file_name).exists()]: the files of the model are kept by the
    name they are opened with, and a name that has no file does not
    exist. *)
Definition path_exists (file_name : string) : K bool :=
  fun lines w =>
    (Returned (match assoc file_name (w_files w) with
               | Some _ => true
               | None => false
               end), lines, w).

(** [specify_stream()]; [fuel] bounds the rounds of the loop. *)
Fixpoint specify_stream_loop (fuel : nat) (stream : string) : K string :=
  match fuel with
  | O => unbounded
  | Datatypes.S fuel' =>
      if String.eqb stream "" then
        (stream <- input "Error: No stream specified. Enter the name of the stream to import to: " ;;
         specify_stream_loop fuel' stream)%K
      else if has_char "/" stream then
        (stream <- input "Error: '/' is a forbidden character. Enter a valid stream name to import to: " ;;
         specify_stream_loop fuel' stream)%K
      else kret stream
  end.

Definition specify_stream (fuel : nat) : K string :=
  (stream <- input "Enter the name of the stream to import to: " ;;
   specify_stream_loop fuel stream)%K.

(** [specify_file()] *)
Definition specify_file : K string := input "Please enter the file name: ".

(** [select_mode()] *)
Fixpoint select_mode_loop (fuel : nat) (choice : string) : K string :=
  match fuel with
  | O => unbounded
  | Datatypes.S fuel' =>
      if String.eqb choice "i" || String.eqb choice "import" then kret "import"
      else if String.eqb choice "e" || String.eqb choice "export" then
        kret "export"
      else
        (line <- input "Error: Unknown response. Please enter either 'I' for import or 'E' for export: " ;;
         select_mode_loop fuel' (py_lower (py_strip line)))%K
  end.

Definition select_mode (fuel : nat) : K string :=
  (line <- input "Please select either import (i/import) or export (e/export) mode: " ;;
   select_mode_loop fuel (py_lower (py_strip line)))%K.

(** [select_stream(base_url, headers)].  [int(choice) - 1] raises the
    [ValueError] the loop catches, and so does a number out of range. *)
Fixpoint select_stream_loop (fuel : nat) (streams : list string)
  (choice : string) : K string :=
  match fuel with
  | O => unbounded
  | Datatypes.S fuel' =>
      let again :=
        (choice <- input ("Enter the number of the stream to select. You must provide an integer between 1 and "
                          ++ str_nat (length streams) ++ ": ") ;;
         select_stream_loop fuel' streams choice)%K in
      match py_int choice with
      | Some number =>
          let choice := (number - 1)%Z in
          if (0 <=? choice)%Z && (choice <? Z.of_nat (length streams))%Z then
            match nth_error streams (Z.to_nat choice) with
            | Some stream => kret stream
            | None => kraise IndexError
            end
          else again
      | None => again
      end
  end.

Definition select_stream (fuel : nat) (base_url : string) (hdrs : headers)
  : K string :=
  (streams <- run (list_available_streams fuel base_url hdrs) ;;
   choice <- input "Enter the number of the stream to select: " ;;
   select_stream_loop fuel streams choice)%K.

(** The lines [validate_file] prints and asks with. *)
Definition no_extension_warning (file_name : string) : string :=
  "Warning: Provided file name " ++ dquote ++ file_name ++ dquote
  ++ " does not specify an extension. Continue anyway as a .json file? (Y/n): ".

Definition unknown_response : string :=
  "Error: Unknown response. Please enter 'Y' for yes or 'N' for no.".

Definition type_not_supported (extension : string) : string :=
  "Error: Provided file type " ++ dquote ++ extension ++ dquote
  ++ " is not supported. Valid file types are '.json', '.zip', and '.tar.xz'. Please provide a valid file.".

Definition overwrite_warning (file_name : string) : string :=
  "Warning: " ++ file_name ++ " already exists. Overwrite? (Y/n): ".

(** [validate_file(file_name, mode)].  The [Path] the function returns
    is given by the name it was made from.  [checks] is the loop body
    from [if file_name == ""] on, which the two tests on the extension
    fall through to. *)
Fixpoint validate_file_loop (fuel : nat) (file_name mode : string) : K string :=
  match fuel with
  | O => unbounded
  | Datatypes.S fuel' =>
      let extension := extension file_name in
      let checks :=
        if String.eqb file_name "" then
          (run (print "Error: Provided file name is blank.") ;;
           file_name <- specify_file ;;
           validate_file_loop fuel' file_name mode)%K
        else if String.eqb mode "import" then
          (found <- path_exists file_name ;;
           if negb found then
             run (print ("Error: " ++ file_name ++ " does not exist.")) ;;
             file_name <- specify_file ;;
             validate_file_loop fuel' file_name mode
           else kret file_name)%K
        else if String.eqb mode "export" then
          (found <- path_exists file_name ;;
           if found : bool then
             line <- input (overwrite_warning file_name) ;;
             let choice := py_lower (py_strip line) in
             if String.eqb choice "y" || String.eqb choice "" then
               kret file_name
             else if String.eqb choice "n" then
               file_name <- specify_file ;;
               validate_file_loop fuel' file_name mode
             else
               run (print unknown_response) ;;
               validate_file_loop fuel' file_name mode
           else kret file_name)%K
        else value_error in
      if String.eqb extension "" then
        (line <- input (no_extension_warning file_name) ;;
         let choice := py_lower (py_strip line) in
         if String.eqb choice "n" then
           file_name <- specify_file ;;
           validate_file_loop fuel' file_name mode
         else if negb (String.eqb choice "y" || String.eqb choice "") then
           run (print unknown_response) ;;
           checks
         else checks)%K
      else if negb (supported_name file_name) then
        (run (print (type_not_supported extension)) ;;
         file_name <- specify_file ;;
         validate_file_loop fuel' file_name mode)%K
      else checks
  end.

(** [file_name] is [None] when the command line gave none. *)
Definition validate_file (fuel : nat) (file_name : option string)
  (mode : string) : K string :=
  (file_name <- match file_name with
                | Some name =>
                    if String.eqb name "" then specify_file else kret name
                | None => specify_file
                end ;;
   validate_file_loop fuel file_name mode)%K.

(** [validate_stream(stream, base_url, stream_url, headers)]; [stream
    in streams] is a [TypeError] when [get_available_streams] returned
    [None]. *)
Fixpoint validate_stream_loop (fuel : nat) (streams : option (list string))
  (stream : string) : K string :=
  match fuel with
  | O => unbounded
  | Datatypes.S fuel' =>
      match streams with
      | None => kraise TypeError
      | Some names =>
          if existsb (String.eqb stream) names then
            (line <- input "Warning: Stream already exists. Append to it? (y/N): " ;;
             let choice := py_lower (py_strip line) in
             if String.eqb choice "n" || String.eqb choice "" then
               stream <- specify_stream fuel' ;;
               validate_stream_loop fuel' streams stream
             else if String.eqb choice "y" then kret stream
             else
               run (print unknown_response) ;;
               validate_stream_loop fuel' streams stream)%K
          else kret stream
      end
  end.

Definition validate_stream (fuel : nat) (stream base_url stream_url : string)
  (hdrs : headers) : K string :=
  (streams <- run (get_available_streams fuel base_url hdrs) ;;
   validate_stream_loop fuel streams stream)%K.

(** [os.path.expanduser(path)] *)
Variable expanduser : string -> string.

(** What [parser.parse_args()] returns; [None] for an option the
    command line does not give. *)
Record arguments : Type := mkArguments {
  arg_mode : option string;
  arg_stream_name : option string;
  arg_address : string;
  arg_filename : option string
}.

(** [bool(v)] and [str(v)] for a string that may be [None] *)
Definition given (v : option string) : bool :=
  match v with
  | Some s => negb (String.eqb s "")
  | None => false
  end.

Definition str_optional (v : option string) : string :=
  match v with
  | Some s => s
  | None => "None"
  end.

(** The two values of [headers]. *)
Definition export_headers : headers :=
  [("Accept", "application/vnd.eventstore.atom+json")].

Definition import_headers : headers :=
  [("Content-Type", "application/vnd.eventstore.events+json");
   ("Accept", "application/json")].

(** The script, from the parsed arguments on.  [headers] is bound in
    export and in import mode only, and only there it is read. *)
Definition main (fuel : nat) (args : arguments) : K unit :=
  (let base_url := arg_address args in
   let stream_url := (arg_address args ++ "/streams/")%string in
   let stream_name := arg_stream_name args in
   mode <- (if negb (given (arg_mode args)) then select_mode fuel
            else kret (str_optional (arg_mode args))) ;;
   let hdrs :=
     if String.eqb mode "export" then export_headers
     else if String.eqb mode "import" then import_headers
     else [] in
   stream_name <-
     (if negb (given stream_name) then
        if String.eqb mode "export" then
          stream_name <- select_stream fuel base_url hdrs ;;
          if negb (String.eqb stream_name "") then
            run (print ("Selected stream: " ++ stream_name)) ;;
            kret (Some stream_name)
          else
            run (print "Error: No stream specified") ;;
            run exit
        else if String.eqb mode "import" then
          stream_name <- specify_stream fuel ;;
          stream_name <- validate_stream fuel stream_name base_url stream_url
                           hdrs ;;
          kret (Some stream_name)
        else kret stream_name
      else kret stream_name) ;;
   let stream_url := (stream_url ++ str_optional stream_name)%string in
   file_path <- validate_file fuel (arg_filename args) mode ;;
   let file_path := expanduser file_path in
   run (main_transfer fuel mode stream_url file_path hdrs))%K.

(** ** export-stream.py *)

(** The module-level [headers] of the script. *)
Definition standalone_headers : headers :=
  [("Accept", "application/vnd.eventstore.atom+json")].

(** [get_stream_events(stream_url)] of [export-stream.py] *)
Fixpoint standalone_get_stream_events_loop (fuel : nat) (stream_url : json)
  (events : list json) : M (list json) :=
  match fuel with
  | O => diverge
  | Datatypes.S fuel' =>
      if truthy stream_url then
        response <- requests_get stream_url standalone_headers ;;
        if negb (status_code response =? 200)%Z then
          print ("Failed to fetch stream page. Status code: "
                 ++ str_Z (status_code response)) ;;
          ret events
        else
          data <- response_json response ;;
          entries <- lift (subscript data "entries") ;;
          new_events <- lift (iterate entries) ;;
          let events := events ++ new_events in
          links <- lift (subscript data "links") ;;
          link_list <- lift (iterate links) ;;
          prev_link <- lift (next_link link_list) ;;
          match prev_link with
          | Some link =>
              if truthy link then
                stream_url <- lift (subscript link "uri") ;;
                standalone_get_stream_events_loop fuel' stream_url events
              else ret events
          | None => ret events
          end
      else ret events
  end.

Definition standalone_get_stream_events (fuel : nat) (stream_url : json)
  : M (list json) :=
  standalone_get_stream_events_loop fuel stream_url [].

(** The body of the loop of [export_events] of [export-stream.py]. *)
Definition standalone_export_entry (filename : string) (entry : json) : M unit :=
  event_url <- lift (self_link entry) ;;
  event_response <- requests_get event_url standalone_headers ;;
  if (status_code event_response =? 200)%Z then
    event_data <- response_json event_response ;;
    file_write (Abs filename) (json_dumps event_data ++ nl)
  else ret tt.

(** [export_events(events, filename)] of [export-stream.py] *)
Definition standalone_export_events (events : list json) (filename : string)
  : M unit :=
  open_write (Abs filename) ;;
  for_each (rev events) (standalone_export_entry filename).

(** The module-level [base_url] and [stream_name] of the script. *)
Definition standalone_base_url : string := "http://localhost:2113/streams/".
Definition standalone_stream_name : string :=
  "2024-02-13-1416502e3aa672-ae57-47e9-b2d4-409b5aab0058".

(** The script itself, [if __name__ == "__main__":]. *)
Definition standalone_main (fuel : nat) : M unit :=
  let stream_url := (standalone_base_url ++ standalone_stream_name)%string in
  events <- standalone_get_stream_events fuel (JStr stream_url) ;;
  match events with
  | _ :: _ =>
      standalone_export_events events "exported_stream.json" ;;
      print ("Export completed successfully. Total events exported: "
             ++ str_nat (length events))
  | [] => print "No events were exported."
  end.

(** ** What the properties are stated with *)

(** The world after the store went to state [s'] answering [reqs] and
    the lines [out] were printed. *)
Definition advance (s' : S) (reqs : list request) (out : list string)
  (w : world) : world :=
  mkWorld s' (w_sent w ++ reqs) (w_files w) (w_tmp w) (w_out w ++ out).

(** The store's state after, and its answers to, a sequence of
    requests. *)
Fixpoint state_after (s : S) (reqs : list request) : S :=
  match reqs with
  | [] => s
  | r :: reqs' => state_after (fst (serve s r)) reqs'
  end.

Fixpoint responses (s : S) (reqs : list request) : list response :=
  match reqs with
  | [] => []
  | r :: reqs' => snd (serve s r) :: responses (fst (serve s r)) reqs'
  end.

(** *** Pages *)

(** What the reader takes from the document of a page: the entries, and
    the URL to go on with, [None] when the loop is to stop. *)
Definition page_entries (data : json) : outcome (list json) :=
  match subscript data "entries" with
  | Ret entries => iterate entries
  | Raise e => Raise e
  | Diverge => Diverge
  end.

Definition page_next (data : json) : outcome (option json) :=
  match subscript data "links" with
  | Ret links =>
      match iterate links with
      | Ret link_list =>
          match next_link link_list with
          | Ret (Some link) =>
              if truthy link then
                match subscript link "uri" with
                | Ret uri => Ret (Some uri)
                | Raise e => Raise e
                | Diverge => Diverge
                end
              else Ret None
          | Ret None => Ret None
          | Raise e => Raise e
          | Diverge => Diverge
          end
      | Raise e => Raise e
      | Diverge => Diverge
      end
  | Raise e => Raise e
  | Diverge => Diverge
  end.

(** A page as the reader meets it: the URL it is fetched at, its
    entries, and the URL of its [next] link. *)
Record page : Type := mkPage {
  pg_url : string;
  pg_entries : list json;
  pg_next : option json
}.

Definition page_requests (hdrs : headers) (pages : list page) : list request :=
  map (fun p => GET (pg_url p) hdrs) pages.

(** Fetched one after the other from state [s] on, every page of
    [pages] comes with a status in [good] and a document with the
    page's entries and [next] link.  The URL of a page is not empty:
    [while stream_url] takes an empty one for the end. *)
Fixpoint served (good : Z -> bool) (hdrs : headers) (s : S) (pages : list page)
  : Prop :=
  match pages with
  | [] => True
  | p :: pages' =>
      pg_url p <> "" /\
      good (status_code (snd (serve s (GET (pg_url p) hdrs)))) = true /\
      match body_json (snd (serve s (GET (pg_url p) hdrs))) with
      | Some data =>
          page_entries data = Ret (pg_entries p) /\
          page_next data = Ret (pg_next p)
      | None => False
      end /\
      served good hdrs (fst (serve s (GET (pg_url p) hdrs))) pages'
  end.

Definition is_200 (status : Z) : bool := (status =? 200)%Z.
Definition is_2xx (status : Z) : bool := (200 <=? status)%Z && (status <? 300)%Z.

(** The pages form a chain from [start]: the first is at [start], and
    the [next] link of each is the URL of the one after it. *)
Fixpoint linked_from (start : json) (pages : list page) : Prop :=
  match pages with
  | [] => True
  | p :: pages' =>
      start = JStr (pg_url p) /\
      match pages' with
      | [] => True
      | _ :: _ =>
          match pg_next p with
          | Some next => linked_from next pages'
          | None => False
          end
      end
  end.

(** Where the reader would go after the pages: the [next] link of the
    last one, or [start] when there is no page. *)
Definition pending (start : json) (pages : list page) : option json :=
  match pages with
  | [] => Some start
  | p :: pages' => pg_next (last pages' p)
  end.

(** *** Entries and the materializer *)

(** The URL of an entry's self-link, when it has one and it is a
    string. *)
Definition entry_url (entry : json) : option string :=
  match self_link entry with
  | Ret (JStr u) => Some u
  | _ => None
  end.

Definition entry_requests (hdrs : headers) (urls : list string) : list request :=
  map (fun u => GET u hdrs) urls.

(** The line the materializer writes for an event body. *)
Definition line_of (event_data : json) : string := json_dumps event_data ++ nl.

(** What a run of the loop of [export_events_to_file] over [entries]
    comes to, from store state [s]: how it ends, the requests it sends
    and the text it writes. *)
Fixpoint materialize (hdrs : headers) (s : S) (entries : list json)
  : outcome unit * list request * string :=
  match entries with
  | [] => (Ret tt, [], "")
  | entry :: entries' =>
      match self_link entry with
      | Ret (JStr u) =>
          let rq := GET u hdrs in
          let r := snd (serve s rq) in
          if (status_code r =? 200)%Z then
            match body_json r with
            | Some event_data =>
                let '(o, reqs, c) := materialize hdrs (fst (serve s rq)) entries' in
                (o, rq :: reqs, (line_of event_data ++ c)%string)
            | None => (Raise (JSONDecodeError "response body"), [rq], "")
            end
          else
            let '(o, reqs, c) := materialize hdrs (fst (serve s rq)) entries' in
            (o, rq :: reqs, c)
      | Ret _ => (Raise InvalidURL, [], "")
      | Raise e => (Raise e, [], "")
      | Diverge => (Diverge, [], "")
      end
  end.

(** The body a single-entry fetch delivers: none when the status is not
    200. *)
Definition fetched (r : response) : option json :=
  if (status_code r =? 200)%Z then body_json r else None.

(** A response with status 200 has a body that decodes. *)
Definition decodes (r : response) : Prop :=
  status_code r = 200%Z -> body_json r <> None.

(** The lines for the bodies that were delivered, in order. *)
Fixpoint lines_of_fetched (rs : list response) : list string :=
  match rs with
  | [] => []
  | r :: rs' =>
      match fetched r with
      | Some event_data => line_of event_data :: lines_of_fetched rs'
      | None => lines_of_fetched rs'
      end
  end.

(** The world with text [c] at [p]. *)
Definition put_text (p : path) (c : string) (w : world) : world :=
  match set_content p c w with
  | Some w' => w'
  | None => w
  end.

(** A path [open(p, 'w')] succeeds at and whose file does not move
    while it is written: any caller-supplied path, and a name directly
    below the temporary directory that is not a directory's. *)
Definition ready (p : path) (w : world) : Prop :=
  match p with
  | Abs _ => True
  | InTmp [name] =>
      match w_tmp w with
      | Some t =>
          match assoc name t with
          | Some (Dir _) => False
          | _ => True
          end
      | None => False
      end
  | InTmp _ => False
  end.

(** A string with no line ending in it. *)
Fixpoint one_line (s : string) : bool :=
  match s with
  | EmptyString => true
  | String c s' => negb (Ascii.eqb c LF) && negb (Ascii.eqb c CR) && one_line s'
  end.

(** *** Records and the replay writer *)

(** The three fields [import_event] reads, in the order it reads
    them. *)
Definition record_triple (event : json) : outcome (json * json * json) :=
  match content_field event "eventId" with
  | Ret eventId =>
      match content_field event "eventType" with
      | Ret eventType =>
          match content_field event "data" with
          | Ret data => Ret (eventId, eventType, data)
          | Raise e => Raise e
          | Diverge => Diverge
          end
      | Raise e => Raise e
      | Diverge => Diverge
      end
  | Raise e => Raise e
  | Diverge => Diverge
  end.

(** The append request for a triple. *)
Definition append_request (stream_url : string) (hdrs : headers)
  (triple : json * json * json) : request :=
  let '(eventId, eventType, data) := triple in
  POST stream_url hdrs (Some (json_dumps (event_payload eventId eventType data))).

(** The statuses [import_event] takes for a success. *)
Definition accepted (r : response) : bool :=
  (status_code r =? 200)%Z || (status_code r =? 201)%Z.

(** What the replay writer does with one line: it skips a line that
    does not decode, and posts a record. *)
Inductive line_result : Type :=
| Skipped (msg : string)
| Posted (rq : request) (r : response).

(** What a run of the loop of [import_events] over [lines] comes to,
    from store state [s]: how it ends, and what it did line by line up
    to there. *)
Fixpoint replay (stream_url : string) (hdrs : headers) (s : S)
  (lines : list string) : outcome unit * list line_result :=
  match lines with
  | [] => (Ret tt, [])
  | line :: lines' =>
      match json_loads line with
      | inl msg =>
          let (o, results) := replay stream_url hdrs s lines' in
          (o, Skipped msg :: results)
      | inr event =>
          match record_triple event with
          | Ret triple =>
              let rq := append_request stream_url hdrs triple in
              let (o, results) :=
                replay stream_url hdrs (fst (serve s rq)) lines' in
              (o, Posted rq (snd (serve s rq)) :: results)
          | Raise e => (Raise e, [])
          | Diverge => (Diverge, [])
          end
      end
  end.

Fixpoint posted (results : list line_result) : list request :=
  match results with
  | [] => []
  | Skipped _ :: results' => posted results'
  | Posted rq _ :: results' => rq :: posted results'
  end.

Fixpoint answers (results : list line_result) : list response :=
  match results with
  | [] => []
  | Skipped _ :: results' => answers results'
  | Posted _ r :: results' => r :: answers results'
  end.

(** The lines the loop prints. *)
Definition upload_failure (r : response) : string :=
  "Failed to upload event. Status code: "
  ++ str_Z (status_code r) ++ ", Reason: " ++ text r.

Definition decode_failure (msg : string) : string :=
  "Error decoding JSON: " ++ msg.

Fixpoint messages (results : list line_result) : list string :=
  match results with
  | [] => []
  | Skipped msg :: results' => decode_failure msg :: messages results'
  | Posted _ r :: results' =>
      if accepted r then messages results'
      else upload_failure r :: messages results'
  end.

Definition successes (results : list line_result) : nat :=
  length (filter accepted (answers results)).

Definition failures (results : list line_result) : nat :=
  length (filter (fun r => negb (accepted r)) (answers results)).


(** A line of a record stream: if it decodes at all, it decodes to a
    record, a document with [content.eventId], [content.eventType] and
    [content.data]. *)
Definition is_record (event : json) : bool :=
  match record_triple event with
  | Ret _ => true
  | _ => false
  end.

Definition record_line (line : string) : Prop :=
  match json_loads line with
  | inr event => is_record event = true
  | inl _ => True
  end.

Definition decodable (line : string) : bool :=
  match json_loads line with
  | inr _ => true
  | inl _ => false
  end.

(** The records of the lines that decode to one, in order. *)
Fixpoint records_of (lines : list string) : list (json * json * json) :=
  match lines with
  | [] => []
  | line :: lines' =>
      match json_loads line with
      | inr event =>
          match record_triple event with
          | Ret triple => triple :: records_of lines'
          | _ => records_of lines'
          end
      | inl _ => records_of lines'
      end
  end.


(** [import_events] once the file is read. *)
Definition import_text (content : string) (stream_url : string) (hdrs : headers)
  : M unit :=
  counts <- import_lines (file_lines content) stream_url hdrs (0, 0) ;;
  print (report (fst counts) (snd counts)).

(** *** Stream names *)

(** A string without the character [0]. *)
Fixpoint no_zero (s : string) : bool :=
  match s with
  | EmptyString => true
  | String c s' => negb (Ascii.eqb c "0") && no_zero s'
  end.

(** The token [0@] occurs somewhere in the string. *)
Fixpoint has_token (s : string) : bool :=
  match strip_prefix "0@" s with
  | Some _ => true
  | None =>
      match s with
      | EmptyString => false
      | String _ s' => has_token s'
      end
  end.

(** The URL of the index of all streams. *)
Definition streams_url (base_url : string) : string :=
  base_url ++ "/streams/$streams".

(** *** Archives *)

(** The names directly in a directory that end in [.json]. *)
Definition json_files (t : tree) : list string :=
  filter (fun f => endswith f ".json") (listdir t).



(** What [process_import_file] prints around the extraction, and when
    it gives up. *)
Definition extracting (filename : string) : string :=
  "Extracting data from " ++ filename
  ++ ". This may take a few minutes for large files.".

Definition extracted (filename : string) : string :=
  "Extracted data from " ++ filename ++ ".".


Definition compressing (file_name : string) : string :=
  "Compressing data to " ++ file_name
  ++ ". This may take a few minutes for larger files.".

Definition compressed (file_name : string) : string :=
  "Compressed data to " ++ file_name ++ ".".

Definition unsupported (ext : string) : string :=
  "Unsupported file type: " ++ ext.

Definition archive_of_extension (ext : string) : option archive_kind :=
  if String.eqb ext ".zip" then Some KZip
  else if String.eqb ext ".tar.xz" then Some KTarXz
  else None.

(** *** What a run leaves alone *)

(** A request that reads: a [GET] with the headers [hdrs]. *)
Definition is_get (hdrs : headers) (r : request) : Prop :=
  exists u, r = GET u hdrs.




(** *** Projections *)

(** The three requests of [run_projection]. *)
Definition enable_request (base_url projection_name : string) : request :=
  POST (base_url ++ "/projection/" ++ projection_name ++ "/command/enable")%string
       [("Content-Length", "0")] None.

Definition disable_request (base_url projection_name : string) : request :=
  POST (base_url ++ "/projection/" ++ projection_name ++ "/command/disable")%string
       [("Content-Length", "0")] None.

Definition status_request (base_url projection_name : string) : request :=
  GET (base_url ++ "/projection/" ++ projection_name)%string
      [("Accept", "application/json")].

(** What one round of the polling loop makes of the answer to the
    status request: [Ret true] when the loop ends, [Ret false] when it
    goes round again. *)
Definition poll_step (r : response) : outcome bool :=
  if (status_code r =? 200)%Z then
    match body_json r with
    | Some data =>
        match dict_get data "progress" (JNum 0) with
        | Ret progress => ge_100 progress
        | Raise e => Raise e
        | Diverge => Diverge
        end
    | None => Raise (JSONDecodeError "response body")
    end
  else Ret true.

(** The lines printed for a failing status. *)
Definition status_failure (r : response) : list string :=
  if (status_code r =? 200)%Z then []
  else [("Failed to fetch projection status. Status code: "
         ++ str_Z (status_code r))%string].

Definition stop_failure (r : response) : list string :=
  if (status_code r =? 200)%Z then []
  else [("Failed to stop projection. Status code: "
         ++ str_Z (status_code r))%string].

(** From state [s] on, the store answers [n] status requests in a row
    so that the loop goes round again. *)
Fixpoint still_running (rq : request) (s : S) (n : nat) : Prop :=
  match n with
  | O => True
  | Datatypes.S n' =>
      poll_step (snd (serve s rq)) = Ret false
      /\ still_running rq (fst (serve s rq)) n'
  end.

(** *** The end of the scripts *)

(** The lines the scripts print last. *)
Definition export_completed (total : nat) : string :=
  "Export completed successfully. Total events exported: " ++ str_nat total.

Definition nothing_exported : string := "No events were exported.".

Definition page_failure (r : response) : string :=
  "Failed to fetch stream page. Status code: " ++ str_Z (status_code r).

(** The lines [list_available_streams] prints for the names. *)
Fixpoint numbered (index : nat) (streams : list string) : list string :=
  match streams with
  | [] => []
  | stream :: streams' =>
      (str_nat index ++ ". " ++ stream)%string
      :: numbered (Datatypes.S index) streams'
  end.

Definition no_streams_error : string :=
  "Error: No streams are available. Please create one before trying to export.".

(** *** The console *)

(** An answer to [select_mode], stripped and in lower case, and the
    mode it stands for. *)
Definition mode_of (choice : string) : option string :=
  if String.eqb choice "i" || String.eqb choice "import" then Some "import"
  else if String.eqb choice "e" || String.eqb choice "export" then Some "export"
  else None.

Definition mode_prompt : string :=
  "Please select either import (i/import) or export (e/export) mode: ".

Definition mode_retry : string :=
  "Error: Unknown response. Please enter either 'I' for import or 'E' for export: ".

(** What [specify_stream] asks with after a name it does not take;
    [None] for a name it takes. *)
Definition rejection (stream : string) : option string :=
  if String.eqb stream "" then
    Some "Error: No stream specified. Enter the name of the stream to import to: "
  else if has_char "/" stream then
    Some "Error: '/' is a forbidden character. Enter a valid stream name to import to: "
  else None.

Fixpoint rejections (lines : list string) : list string :=
  match lines with
  | [] => []
  | line :: lines' =>
      match rejection line with
      | Some prompt => prompt :: rejections lines'
      | None => rejections lines'
      end
  end.

Definition stream_prompt : string :=
  "Enter the name of the stream to import to: ".

(** An answer to [select_stream] that is not the number of a stream:
    not a number at all, or one below 1 or above the number of
    streams. *)
Definition not_a_position (count : nat) (line : string) : Prop :=
  match py_int line with
  | Some number => (number < 1)%Z \/ (Z.of_nat count < number)%Z
  | None => True
  end.

Definition select_prompt : string := "Enter the number of the stream to select: ".

Definition select_retry (count : nat) : string :=
  "Enter the number of the stream to select. You must provide an integer between 1 and "
  ++ str_nat count ++ ": ".

(** The loop body of [validate_file] from [if file_name == ""] on,
    with the next round of the loop as [again]. *)
Definition file_checks (again : string -> K string) (file_name mode : string)
  : K string :=
  if String.eqb file_name "" then
    (run (print "Error: Provided file name is blank.") ;;
     file_name <- specify_file ;;
     again file_name)%K
  else if String.eqb mode "import" then
    (found <- path_exists file_name ;;
     if negb found then
       run (print ("Error: " ++ file_name ++ " does not exist.")) ;;
       file_name <- specify_file ;;
       again file_name
     else kret file_name)%K
  else if String.eqb mode "export" then
    (found <- path_exists file_name ;;
     if found : bool then
       line <- input (overwrite_warning file_name) ;;
       let choice := py_lower (py_strip line) in
       if String.eqb choice "y" || String.eqb choice "" then
         kret file_name
       else if String.eqb choice "n" then
         file_name <- specify_file ;;
         again file_name
       else
         run (print unknown_response) ;;
         again file_name
     else kret file_name)%K
  else value_error.

(** What holds of a name [validate_file] returns, started in [w] and
    ended in [w']: it is not empty; it has no extension or ends in a
    supported one; in import mode it names a file; and nothing but the
    output has changed. *)
Definition checked (mode : string) (w : world) (name : string) (w' : world)
  : Prop :=
  name <> ""
  /\ (extension name = "" \/ supported_name name = true)
  /\ ((mode = "import" /\ assoc name (w_files w) <> None) \/ mode = "export")
  /\ w_files w' = w_files w /\ w_sent w' = w_sent w /\ w_srv w' = w_srv w.

Definition append_warning : string :=
  "Warning: Stream already exists. Append to it? (y/N): ".

Definition list_failure (r : response) : string :=
  "Failed to list streams. Status code: " ++ str_Z (status_code r).

(** ** Proofs *)

(** *** The world *)

Lemma advance_nil : forall w, advance (w_srv w) [] [] w = w.
Proof.
  intros [s sent fs tmp out]; unfold advance; simpl.
  now rewrite !app_nil_r.
Qed.

Lemma advance_advance : forall s1 r1 o1 s2 r2 o2 w,
  advance s2 r2 o2 (advance s1 r1 o1 w) = advance s2 (r1 ++ r2) (o1 ++ o2) w.
Proof.
  intros; unfold advance; simpl. now rewrite !app_assoc.
Qed.

Lemma bind_unfold : forall (A B : Type) (c : M A) (k : A -> M B) w,
  bind c k w =
  match c w with
  | (Ret a, w') => k a w'
  | (Raise e, w') => (Raise e, w')
  | (Diverge, w') => (Diverge, w')
  end.
Proof. reflexivity. Qed.

Lemma send_eq : forall r w,
  send r w = (Ret (snd (serve (w_srv w) r)),
              advance (fst (serve (w_srv w) r)) [r] [] w).
Proof.
  intros r w; unfold send, advance.
  destruct (serve (w_srv w) r) as [s' resp]; simpl.
  now rewrite app_nil_r.
Qed.

Lemma print_eq : forall line w,
  print line w = (Ret tt, advance (w_srv w) [] [line] w).
Proof.
  intros line w; unfold print, advance. now rewrite app_nil_r.
Qed.

(** *** The paginated reader *)

Lemma last_cons : forall (A : Type) (l : list A) (a d : A),
  last (a :: l) d = last l a.
Proof.
  intros A l; induction l as [|b l IH]; intros a d; [reflexivity|].
  change (last (a :: b :: l) d) with (last (b :: l) d).
  now rewrite !IH.
Qed.

Lemma pending_cons : forall start p q pages,
  pending start (p :: q :: pages)
  = pending (JStr (pg_url q)) (q :: pages).
Proof. intros; unfold pending. now rewrite last_cons. Qed.

Lemma loop_pages : forall hdrs pages fuel start events w,
  served is_200 hdrs (w_srv w) pages ->
  linked_from start pages ->
  length pages <= fuel ->
  get_stream_events_loop fuel start hdrs events w =
  let w' := advance (state_after (w_srv w) (page_requests hdrs pages))
                    (page_requests hdrs pages) [] w in
  let events' := events ++ concat (map pg_entries pages) in
  match pending start pages with
  | Some next =>
      get_stream_events_loop (fuel - length pages) next hdrs events' w'
  | None => (Ret events', w')
  end.
Proof.
  intros hdrs pages; induction pages as [|p pages IH];
    intros fuel start events w Hserved Hlinked Hfuel.
  - simpl. rewrite Nat.sub_0_r, app_nil_r, advance_nil. reflexivity.
  - destruct fuel as [|fuel]; [simpl in Hfuel; lia|].
    simpl in Hserved.
    destruct Hserved as (Hurl & Hstatus & Hbody & Hrest).
    destruct Hlinked as [-> Hlinked].
    cbn [get_stream_events_loop truthy].
    destruct (String.eqb_spec (pg_url p) "") as [E|_]; [contradiction|].
    cbn [negb requests_get]. unfold bind at 1. rewrite send_eq.
    set (r := snd (serve (w_srv w) (GET (pg_url p) hdrs))) in *.
    set (s1 := fst (serve (w_srv w) (GET (pg_url p) hdrs))) in *.
    unfold is_200 in Hstatus. rewrite Hstatus. cbn [negb].
    destruct (body_json r) as [data|] eqn:Hdata; [|contradiction].
    destruct Hbody as [Hentries Hnext].
    unfold page_entries in Hentries. unfold page_next in Hnext.
    unfold response_json; rewrite Hdata.
    unfold bind, ret, lift.
    destruct (subscript data "entries") as [entries| |]; try discriminate.
    rewrite Hentries.
    destruct (subscript data "links") as [links| |]; try discriminate.
    destruct (iterate links) as [link_list| |]; try discriminate.
    assert (Hw : forall reqs,
      advance (state_after s1 reqs) (GET (pg_url p) hdrs :: reqs) [] w
      = advance (state_after s1 reqs) reqs [] (advance s1 [GET (pg_url p) hdrs] [] w)).
    { intros; now rewrite advance_advance. }
    destruct pages as [|q pages].
    + (* the last page *)
      cbn [pending last length map concat page_requests state_after].
      fold s1. rewrite app_nil_r.
      destruct (next_link link_list) as [[link|]| |]; try discriminate.
      * destruct (truthy link).
        -- destruct (subscript link "uri") as [uri| |]; try discriminate.
           injection Hnext as <-.
           change (Datatypes.S fuel - 1) with (fuel - 0).
           now rewrite Nat.sub_0_r.
        -- injection Hnext as <-. reflexivity.
      * injection Hnext as <-. reflexivity.
    + (* a page with a successor *)
      destruct (pg_next p) as [next|] eqn:Hpn; [|contradiction].
      destruct (next_link link_list) as [[link|]| |]; try discriminate.
      destruct (truthy link); [|discriminate].
      destruct (subscript link "uri") as [uri| |]; try discriminate.
      injection Hnext as ->.
      rewrite (IH fuel next (events ++ pg_entries p)
                  (advance s1 [GET (pg_url p) hdrs] [] w) Hrest Hlinked)
        by (simpl in Hfuel |- *; lia).
      destruct Hlinked as [-> _].
      rewrite pending_cons.
      cbn [page_requests map state_after concat w_srv advance].
      fold s1. fold (page_requests hdrs pages).
      rewrite <- app_assoc.
      change (Datatypes.S fuel - length (p :: q :: pages))
        with (fuel - length (q :: pages)).
      unfold advance; cbn [w_srv w_sent w_files w_tmp w_out].
      rewrite <- !app_assoc. reflexivity.
Qed.

(** The reader of [export-stream.py] is the reader of [access-stream.py]
    at the script's own headers. *)
Lemma standalone_reader_same : forall fuel stream_url events w,
  standalone_get_stream_events_loop fuel stream_url events w
  = get_stream_events_loop fuel stream_url standalone_headers events w.
Proof.
  induction fuel as [|fuel IH]; intros stream_url events w; [reflexivity|].
  cbn [standalone_get_stream_events_loop get_stream_events_loop].
  destruct (truthy stream_url); [|reflexivity].
  unfold bind.
  destruct (requests_get stream_url standalone_headers w) as [[response| |] w1];
    try reflexivity.
  destruct (negb (status_code response =? 200)%Z); [reflexivity|].
  destruct (response_json response w1) as [[data| |] w2]; try reflexivity.
  destruct (lift (subscript data "entries") w2) as [[entries| |] w3];
    try reflexivity.
  destruct (lift (iterate entries) w3) as [[new_events| |] w4]; try reflexivity.
  destruct (lift (subscript data "links") w4) as [[links| |] w5];
    try reflexivity.
  destruct (lift (iterate links) w5) as [[link_list| |] w6]; try reflexivity.
  destruct (lift (next_link link_list) w6) as [[[link|]| |] w7];
    try reflexivity.
  destruct (truthy link); [|reflexivity].
  destruct (lift (subscript link "uri") w7) as [[uri| |] w8]; try reflexivity.
  apply IH.
Qed.

(** C2 (as amended: a page counts as fetched on status 200 only).  Let
    [pages] be pages linked into a chain from [start], each served with
    status 200.  If the last of them has no [next] link, the reader
    returns the concatenation of their entries, having sent one request
    per page, provided it is allowed as many iterations as there are
    pages.  If instead the last of them links to a URL [u] whose fetch
    answers with another status, the reader returns the concatenation of
    the entries of the pages before that one, prints a line and raises
    nothing.  The reader of [export-stream.py] does the same at its own
    headers. *)
Theorem pagination_returns_the_pages :
  forall hdrs fuel start pages w,
    served is_200 hdrs (w_srv w) pages ->
    linked_from start pages ->
    let reqs := page_requests hdrs pages in
    let s_end := state_after (w_srv w) reqs in
    let all := concat (map pg_entries pages) in
    (pending start pages = None ->
     length pages <= fuel ->
     get_stream_events fuel start hdrs w = (Ret all, advance s_end reqs [] w))
    /\
    (forall u,
       pending start pages = Some (JStr u) ->
       u <> "" ->
       status_code (snd (serve s_end (GET u hdrs))) <> 200%Z ->
       length pages < fuel ->
       get_stream_events fuel start hdrs w
       = (Ret all,
          advance (fst (serve s_end (GET u hdrs))) (reqs ++ [GET u hdrs])
            [("Failed to fetch stream page. Status code: "
              ++ str_Z (status_code (snd (serve s_end (GET u hdrs)))))%string]
            w))
    /\
    (hdrs = standalone_headers ->
     standalone_get_stream_events fuel start w
     = get_stream_events fuel start hdrs w).
Proof.
  intros hdrs fuel start pages w Hserved Hlinked reqs s_end all.
  repeat split.
  - intros Hpending Hfuel. unfold get_stream_events.
    rewrite (loop_pages hdrs pages fuel start [] w Hserved Hlinked Hfuel).
    cbv zeta. rewrite Hpending. reflexivity.
  - intros u Hpending Hu Hstatus Hfuel. unfold get_stream_events.
    rewrite (loop_pages hdrs pages fuel start [] w Hserved Hlinked)
      by lia.
    cbv zeta. rewrite Hpending. fold reqs. fold s_end.
    destruct (fuel - length pages) as [|fuel'] eqn:E; [lia|].
    cbn [get_stream_events_loop truthy].
    destruct (String.eqb_spec u "") as [|_]; [contradiction|].
    cbn [negb requests_get app]. unfold bind at 1. rewrite send_eq.
    cbn [w_srv advance].
    destruct (Z.eqb_spec (status_code (snd (serve s_end (GET u hdrs)))) 200)
      as [|_]; [contradiction|].
    cbn [negb]. unfold bind, ret. rewrite print_eq.
    rewrite !advance_advance. reflexivity.
  - intros ->. unfold standalone_get_stream_events, get_stream_events.
    apply standalone_reader_same.
Qed.

(** *** Files *)

Lemma assoc_set_same : forall (A : Type) k (v : A) l,
  assoc k (assoc_set k v l) = Some v.
Proof.
  intros A k v l; induction l as [|[k' v'] l IH]; simpl.
  - now rewrite String.eqb_refl.
  - destruct (String.eqb_spec k' k) as [->|Hne]; simpl.
    + now rewrite String.eqb_refl.
    + destruct (String.eqb_spec k' k); [contradiction|exact IH].
Qed.

Lemma assoc_set_twice : forall (A : Type) k (v1 v2 : A) l,
  assoc_set k v2 (assoc_set k v1 l) = assoc_set k v2 l.
Proof.
  intros A k v1 v2 l; induction l as [|[k' v'] l IH]; simpl.
  - now rewrite String.eqb_refl.
  - destruct (String.eqb_spec k' k) as [->|Hne]; simpl.
    + now rewrite String.eqb_refl.
    + destruct (String.eqb_spec k' k); [contradiction|now rewrite IH].
Qed.

Lemma assoc_set_known : forall (A : Type) k (v : A) l,
  assoc k l = Some v -> assoc_set k v l = l.
Proof.
  intros A k v l; induction l as [|[k' v'] l IH]; simpl; [discriminate|].
  destruct (String.eqb_spec k' k) as [->|Hne].
  - now intros [= ->].
  - intros H. now rewrite IH.
Qed.

Lemma content_at_put : forall p c w,
  ready p w -> content_at p (put_text p c w) = Ret c.
Proof.
  intros [q|rel] c w Hready; unfold put_text; simpl.
  - now rewrite assoc_set_same.
  - destruct rel as [|name [|]]; try contradiction. simpl in Hready |- *.
    destruct (w_tmp w) as [t|]; [|contradiction]. simpl.
    now rewrite assoc_set_same.
Qed.

Lemma ready_put : forall p c w, ready p w -> ready p (put_text p c w).
Proof.
  intros [q|rel] c w Hready; unfold put_text; simpl; [exact I|].
  destruct rel as [|name [|]]; try contradiction. simpl in Hready |- *.
  destruct (w_tmp w) as [t|]; [|contradiction]. simpl.
  now rewrite assoc_set_same.
Qed.

Lemma put_put : forall p c1 c2 w,
  ready p w -> put_text p c2 (put_text p c1 w) = put_text p c2 w.
Proof.
  intros [q|rel] c1 c2 w Hready; unfold put_text, set_files, set_tmp; simpl.
  - now rewrite assoc_set_twice.
  - destruct rel as [|name [|]]; try contradiction. simpl in Hready |- *.
    destruct (w_tmp w) as [t|]; [|contradiction]. simpl.
    now rewrite assoc_set_twice.
Qed.

Lemma put_known : forall p c w,
  ready p w -> content_at p w = Ret c -> put_text p c w = w.
Proof.
  intros [q|rel] c w Hready Hc; unfold put_text, set_files, set_tmp;
    destruct w as [s sent fs tmp out]; simpl in *.
  - destruct (assoc q fs) as [[c'| |]|] eqn:E; try discriminate.
    injection Hc as ->. now rewrite (assoc_set_known _ _ _ _ E).
  - destruct rel as [|name [|]]; try contradiction.
    destruct tmp as [t|]; [|contradiction]. simpl in *.
    destruct (assoc name t) as [[c'|ch]|] eqn:E; try discriminate.
    injection Hc as ->. now rewrite (assoc_set_known _ _ _ _ E).
Qed.

Lemma put_advance : forall p c s r o w,
  put_text p c (advance s r o w) = advance s r o (put_text p c w).
Proof.
  intros [q|rel] c s r o [s0 sent fs tmp out]; unfold put_text, advance;
    simpl; [reflexivity|].
  destruct tmp as [t|]; [|reflexivity].
  destruct (tree_put rel (File c) (Dir t)) as [[|t']|]; reflexivity.
Qed.

Lemma ready_advance : forall p s r o w, ready p (advance s r o w) <-> ready p w.
Proof. intros [q|rel] s r o w; simpl; split; intros H; exact H. Qed.

Lemma content_at_advance : forall p s r o w,
  content_at p (advance s r o w) = content_at p w.
Proof. intros [q|rel] s r o w; reflexivity. Qed.

Lemma srv_put : forall p c w, w_srv (put_text p c w) = w_srv w.
Proof.
  intros [q|rel] c w; unfold put_text; simpl; [reflexivity|].
  destruct (w_tmp w) as [t|]; [|reflexivity].
  destruct (tree_put rel (File c) (Dir t)) as [[|t']|]; reflexivity.
Qed.

Lemma open_write_ready : forall p w,
  ready p w -> open_write p w = (Ret tt, put_text p "" w).
Proof.
  intros [q|rel] w Hready; unfold open_write, put_text; simpl.
  - destruct (assoc q (w_files w)) as [[| |]|]; reflexivity.
  - destruct rel as [|name [|]]; try contradiction. simpl in Hready |- *.
    destruct (w_tmp w) as [t|]; [|contradiction]. simpl.
    destruct (assoc name t) as [[|]|]; try contradiction; reflexivity.
Qed.

Lemma file_write_ready : forall p c line w,
  ready p w -> content_at p w = Ret c ->
  file_write p line w = (Ret tt, put_text p (c ++ line) w).
Proof.
  intros p c line w Hready Hc. unfold file_write. rewrite Hc.
  unfold put_text.
  destruct p as [q|rel]; simpl; [reflexivity|].
  destruct rel as [|name [|]]; try contradiction. simpl in Hready |- *.
  destruct (w_tmp w) as [t|]; [|contradiction]. reflexivity.
Qed.

(** *** The materializer *)

Lemma string_app_nil_r : forall s : string, (s ++ "")%string = s.
Proof. induction s as [|c s IH]; simpl; [reflexivity|now rewrite IH]. Qed.

Lemma string_app_assoc : forall a b c : string,
  ((a ++ b) ++ c)%string = (a ++ b ++ c)%string.
Proof.
  induction a as [|x a IH]; intros b c; simpl; [reflexivity|now rewrite IH].
Qed.

(** The loop of [export_events_to_file], run on a file that holds [c]
    already. *)
Lemma export_loop_run : forall p hdrs entries c w,
  ready p w -> content_at p w = Ret c ->
  for_each entries (export_entry p hdrs) w
  = let '(o, reqs, c') := materialize hdrs (w_srv w) entries in
    (o, put_text p (c ++ c')
          (advance (state_after (w_srv w) reqs) reqs [] w)).
Proof.
  intros p hdrs entries; induction entries as [|entry entries IH];
    intros c w Hready Hc.
  - simpl. rewrite string_app_nil_r, advance_nil.
    now rewrite (put_known p c w Hready Hc).
  - cbn [for_each materialize]. rewrite bind_unfold.
    unfold export_entry at 1. rewrite bind_unfold. unfold lift at 1.
    assert (Hstop : put_text p (c ++ "") (advance (w_srv w) [] [] w) = w).
    { rewrite string_app_nil_r, advance_nil. now apply put_known. }
    destruct (self_link entry) as [[| | | u | |]| |];
      cbn [requests_get raise state_after]; try now rewrite Hstop.
    rewrite bind_unfold, send_eq.
    set (rq := GET u hdrs).
    set (r := snd (serve (w_srv w) rq)). set (s1 := fst (serve (w_srv w) rq)).
    set (w1 := advance s1 [rq] [] w).
    assert (Hready1 : ready p w1) by now apply ready_advance.
    assert (Hc1 : content_at p w1 = Ret c)
      by (unfold w1; now rewrite content_at_advance).
    destruct (status_code r =? 200)%Z.
    + rewrite bind_unfold. unfold response_json.
      destruct (body_json r) as [event_data|].
      * unfold ret at 1.
        rewrite (file_write_ready p c _ w1 Hready1 Hc1).
        rewrite (IH (c ++ (json_dumps event_data ++ nl))%string
                    (put_text p (c ++ (json_dumps event_data ++ nl)) w1)).
        -- rewrite srv_put. cbn [w_srv w1 advance].
           destruct (materialize hdrs s1 entries) as [[o reqs] c'].
           cbn [state_after]. fold rq. fold s1.
           rewrite put_advance, put_put by exact Hready1.
           unfold w1. rewrite <- put_advance, advance_advance.
           unfold line_of. now rewrite !string_app_assoc.
        -- now apply ready_put.
        -- now apply content_at_put.
      * unfold raise. cbn [state_after]. fold rq. fold s1. fold w1.
        rewrite string_app_nil_r. now rewrite (put_known p c w1 Hready1 Hc1).
    + unfold ret at 1.
      rewrite (IH c w1 Hready1 Hc1). cbn [w_srv w1 advance].
      destruct (materialize hdrs s1 entries) as [[o reqs] c'].
      cbn [state_after]. fold rq. fold s1.
      unfold w1. now rewrite advance_advance.
Qed.

(** [export_events_to_file] sends and writes what [materialize] says,
    entries taken last to first. *)
Lemma export_events_to_file_run : forall p events hdrs w,
  ready p w ->
  export_events_to_file p events hdrs w
  = let '(o, reqs, c) := materialize hdrs (w_srv w) (rev events) in
    (o, put_text p c (advance (state_after (w_srv w) reqs) reqs [] w)).
Proof.
  intros p events hdrs w Hready. unfold export_events_to_file.
  rewrite bind_unfold, (open_write_ready p w Hready).
  rewrite (export_loop_run p hdrs (rev events) "" (put_text p "" w)).
  - rewrite srv_put.
    destruct (materialize hdrs (w_srv w) (rev events)) as [[o reqs] c].
    cbn [append]. rewrite !put_advance, put_put by exact Hready. reflexivity.
  - now apply ready_put.
  - now apply content_at_put.
Qed.

Lemma standalone_export_same : forall events filename w,
  standalone_export_events events filename w
  = export_events_to_file (Abs filename) events standalone_headers w.
Proof. reflexivity. Qed.

(** When every entry has a self-link and every answer with status 200
    decodes, the loop runs to its end: it asks for every entry, and
    writes the bodies that were delivered. *)
Lemma materialize_fetches : forall hdrs urls entries s,
  map entry_url entries = map Some urls ->
  Forall decodes (responses s (entry_requests hdrs urls)) ->
  materialize hdrs s entries
  = (Ret tt, entry_requests hdrs urls,
     join (lines_of_fetched (responses s (entry_requests hdrs urls)))).
Proof.
  intros hdrs urls; induction urls as [|u urls IH]; intros entries s Hurls Hdec.
  - destruct entries; [reflexivity|discriminate].
  - destruct entries as [|entry entries]; [discriminate|].
    injection Hurls as Hu Hurls.
    cbn [entry_requests map responses] in Hdec |- *.
    inversion Hdec as [|r rs Hr Hrs]; subst.
    cbn [materialize]. unfold entry_url in Hu.
    destruct (self_link entry) as [[| | | u' | |]| |]; try discriminate.
    injection Hu as ->.
    specialize (IH entries (fst (serve s (GET u hdrs))) Hurls Hrs).
    fold (entry_requests hdrs urls) in *.
    cbn [lines_of_fetched]. unfold fetched.
    destruct (Z.eqb_spec (status_code (snd (serve s (GET u hdrs)))) 200)
      as [E|_].
    + destruct (body_json (snd (serve s (GET u hdrs)))) as [event_data|] eqn:Hb.
      * rewrite IH. reflexivity.
      * exfalso. now apply (Hr E).
    + rewrite IH. reflexivity.
Qed.

Lemma fetched_all_decode : forall rs bodies,
  map fetched rs = map Some bodies ->
  Forall decodes rs /\ lines_of_fetched rs = map line_of bodies.
Proof.
  induction rs as [|r rs IH]; intros bodies H.
  - destruct bodies; [|discriminate]. split; [constructor|reflexivity].
  - destruct bodies as [|b bodies]; [discriminate|].
    injection H as Hr Hrs. destruct (IH bodies Hrs) as [Hdec Hlines].
    split.
    + constructor; [|exact Hdec]. intros E. unfold fetched in Hr.
      rewrite E in Hr. simpl in Hr. now rewrite Hr.
    + cbn [lines_of_fetched map]. now rewrite Hr, Hlines.
Qed.

(** *** Lines *)

Lemma file_lines_from_line : forall l cur rest,
  one_line l = true ->
  file_lines_from cur (l ++ nl ++ rest)
  = (cur ++ l ++ nl)%string :: file_lines_from "" rest.
Proof.
  induction l as [|c l IH]; intros cur rest Hl.
  - reflexivity.
  - cbn [one_line] in Hl.
    apply andb_prop in Hl as [Hc Hl]. apply andb_prop in Hc as [Hlf Hcr].
    cbn [append file_lines_from].
    destruct (Ascii.eqb c LF); [discriminate|].
    destruct (Ascii.eqb c CR); [discriminate|].
    rewrite (IH _ _ Hl). now rewrite string_app_assoc.
Qed.

Lemma file_lines_join : forall ls,
  Forall (fun l => one_line l = true) ls ->
  file_lines (join (map (fun l => l ++ nl)%string ls))
  = map (fun l => l ++ nl)%string ls.
Proof.
  unfold file_lines.
  induction ls as [|l ls IH]; intros H; [reflexivity|].
  inversion H as [|? ? Hl Hls]; subst.
  cbn [map join fold_right]. rewrite string_app_assoc.
  rewrite (file_lines_from_line l "" _ Hl). cbn [append].
  f_equal. exact (IH Hls).
Qed.

(** *** The event materializer *)

Lemma export_with_self_links : forall p events urls hdrs w,
  ready p w ->
  map entry_url events = map Some urls ->
  Forall decodes (responses (w_srv w) (entry_requests hdrs (rev urls))) ->
  export_events_to_file p events hdrs w
  = (Ret tt,
     put_text p
       (join (lines_of_fetched
                (responses (w_srv w) (entry_requests hdrs (rev urls)))))
       (advance (state_after (w_srv w) (entry_requests hdrs (rev urls)))
                (entry_requests hdrs (rev urls)) [] w)).
Proof.
  intros p events urls hdrs w Hready Hurls Hdec.
  rewrite (export_events_to_file_run p events hdrs w Hready).
  rewrite (materialize_fetches hdrs (rev urls) (rev events) (w_srv w)).
  - reflexivity.
  - now rewrite !map_rev, Hurls.
  - exact Hdec.
Qed.

(** C7.  Let every entry have a self-link ([urls], entry by entry), and
    let every answer with status 200 decode.  Then the export asks for
    every entry at its self-link, oldest entry first; it writes one line
    per body delivered with status 200, in that order, and nothing for
    an entry whose fetch has another status; and it returns normally.
    So does [export_events] of [export-stream.py]. *)
Theorem export_drops_failed_fetches :
  forall p events urls hdrs w,
    ready p w ->
    map entry_url events = map Some urls ->
    let reqs := entry_requests hdrs (rev urls) in
    let rs := responses (w_srv w) reqs in
    let w' := advance (state_after (w_srv w) reqs) reqs [] w in
    Forall decodes rs ->
    export_events_to_file p events hdrs w
    = (Ret tt, put_text p (join (lines_of_fetched rs)) w')
    /\ (forall filename,
          p = Abs filename -> hdrs = standalone_headers ->
          standalone_export_events events filename w
          = (Ret tt, put_text p (join (lines_of_fetched rs)) w'))
    /\ (forall r, In r rs -> status_code r <> 200%Z -> fetched r = None).
Proof.
  intros p events urls hdrs w Hready Hurls reqs rs w' Hdec.
  assert (Hrun : export_events_to_file p events hdrs w
                 = (Ret tt, put_text p (join (lines_of_fetched rs)) w'))
    by exact (export_with_self_links p events urls hdrs w Hready Hurls Hdec).
  repeat split.
  - exact Hrun.
  - intros filename -> ->. rewrite standalone_export_same. exact Hrun.
  - intros r _ Hr. unfold fetched.
    destruct (Z.eqb_spec (status_code r) 200); [contradiction|reflexivity].
Qed.

(** C3.  Let [events] be the entries, newest first, with self-links
    [urls] and bodies [bodies], entry by entry, and let every
    single-entry fetch deliver its body with status 200.  Then the file
    holds the lines of the bodies oldest first, that is in the reverse
    of the order of the entries.  When no encoded body has a line
    ending inside, these are the lines read back from the file; when
    moreover every line decodes to the body it encodes, the records read
    back are the bodies in the reverse of the order of the entries. *)
Theorem export_writes_oldest_first :
  forall p events urls bodies hdrs w,
    ready p w ->
    map entry_url events = map Some urls ->
    let reqs := entry_requests hdrs (rev urls) in
    let w' := advance (state_after (w_srv w) reqs) reqs [] w in
    map fetched (responses (w_srv w) reqs) = map Some (rev bodies) ->
    let content := join (map line_of (rev bodies)) in
    export_events_to_file p events hdrs w = (Ret tt, put_text p content w')
    /\ content_at p (put_text p content w') = Ret content
    /\ (Forall (fun b => one_line (json_dumps b) = true) bodies ->
        file_lines content = map line_of (rev bodies)
        /\ (Forall (fun b => json_loads (line_of b) = inr b) bodies ->
            map json_loads (file_lines content) = map inr (rev bodies))).
Proof.
  intros p events urls bodies hdrs w Hready Hurls reqs w' Hfetched content.
  destruct (fetched_all_decode _ _ Hfetched) as [Hdec Hlines].
  pose proof (export_with_self_links p events urls hdrs w Hready Hurls Hdec)
    as Hrun.
  split; [|split].
  - rewrite Hrun. fold reqs. now rewrite Hlines.
  - apply content_at_put. now apply ready_advance.
  - intros Hone.
    assert (Hread : file_lines content = map line_of (rev bodies)).
    { unfold content.
      replace (map line_of (rev bodies))
        with (map (fun l => l ++ nl)%string (map json_dumps (rev bodies)))
        by (rewrite map_map; reflexivity).
      apply file_lines_join. apply Forall_map, Forall_rev. exact Hone. }
    split; [exact Hread|].
    intros Hcodec. rewrite Hread, map_map.
    apply map_ext_in. intros b Hb. apply in_rev in Hb.
    rewrite Forall_forall in Hcodec. now apply Hcodec.
Qed.

(** *** The replay writer *)

Lemma subscript_raises : forall v key e,
  subscript v key = Raise e -> e = KeyError key \/ e = TypeError.
Proof.
  intros v key e H. unfold subscript in H.
  destruct v; try (injection H as <-; now right).
  destruct (assoc key fields); [discriminate|].
  injection H as <-. now left.
Qed.

Lemma content_field_raises : forall event field e,
  content_field event field = Raise e ->
  forall msg, e <> JSONDecodeError msg.
Proof.
  intros event field e H msg. unfold content_field in H.
  destruct (subscript event "content") as [content| e'|] eqn:E.
  - apply subscript_raises in H. destruct H as [-> | ->]; discriminate.
  - injection H as <-. apply subscript_raises in E.
    destruct E as [-> | ->]; discriminate.
  - discriminate.
Qed.

Lemma record_triple_raises : forall event e,
  record_triple event = Raise e -> forall msg, e <> JSONDecodeError msg.
Proof.
  intros event e H msg. unfold record_triple in H.
  destruct (content_field event "eventId") as [a|e1|] eqn:E1.
  - destruct (content_field event "eventType") as [b|e2|] eqn:E2.
    + destruct (content_field event "data") as [c|e3|] eqn:E3;
        try discriminate.
      injection H as <-. exact (content_field_raises _ _ _ E3 msg).
    + injection H as <-. exact (content_field_raises _ _ _ E2 msg).
    + discriminate.
  - injection H as <-. exact (content_field_raises _ _ _ E1 msg).
  - discriminate.
Qed.

Lemma record_triple_never_diverges : forall event,
  record_triple event <> Diverge.
Proof.
  intros event. unfold record_triple, content_field, subscript.
  destruct event as [| | | | |fields]; try discriminate.
  destruct (assoc "content" fields) as [content|]; [|discriminate].
  destruct content as [| | | | |cf]; try discriminate.
  destruct (assoc "eventId" cf); [|discriminate].
  destruct (assoc "eventType" cf); [|discriminate].
  destruct (assoc "data" cf); discriminate.
Qed.

(** [import_event] posts the triple of a record and takes 200 and 201
    for a success; it raises what reading the triple raises. *)
Lemma import_event_run : forall stream_url event hdrs w,
  import_event stream_url event hdrs w =
  match record_triple event with
  | Ret triple =>
      let rq := append_request stream_url hdrs triple in
      let r := snd (serve (w_srv w) rq) in
      (Ret (accepted r),
       advance (fst (serve (w_srv w) rq)) [rq]
         (if accepted r then [] else [upload_failure r]) w)
  | Raise e => (Raise e, w)
  | Diverge => (Diverge, w)
  end.
Proof.
  intros stream_url event hdrs w. unfold import_event, record_triple.
  rewrite bind_unfold. unfold lift at 1.
  destruct (content_field event "eventId") as [a| |]; try reflexivity.
  rewrite bind_unfold. unfold lift at 1.
  destruct (content_field event "eventType") as [b| |]; try reflexivity.
  rewrite bind_unfold. unfold lift at 1.
  destruct (content_field event "data") as [c| |]; try reflexivity.
  rewrite bind_unfold. unfold requests_post. rewrite send_eq.
  cbn [append_request]. cbv zeta.
  set (rq := POST stream_url hdrs (Some (json_dumps (event_payload a b c)))).
  unfold accepted, upload_failure.
  destruct ((status_code (snd (serve (w_srv w) rq)) =? 200)%Z
            || (status_code (snd (serve (w_srv w) rq)) =? 201)%Z); cbn [negb].
  - unfold ret. reflexivity.
  - rewrite bind_unfold, print_eq. unfold ret.
    now rewrite advance_advance.
Qed.

Definition count_up (counts : nat * nat) (results : list line_result)
  : nat * nat :=
  (fst counts + successes results, snd counts + failures results).

(** The loop of [import_events] does what [replay] says: it sends the
    requests [replay] posts, prints its messages, and counts the answers
    it got. *)
Lemma import_lines_run : forall stream_url hdrs lines counts w,
  import_lines lines stream_url hdrs counts w =
  let (o, results) := replay stream_url hdrs (w_srv w) lines in
  (match o with
   | Ret _ => Ret (count_up counts results)
   | Raise e => Raise e
   | Diverge => Diverge
   end,
   advance (state_after (w_srv w) (posted results)) (posted results)
           (messages results) w).
Proof.
  intros stream_url hdrs lines; induction lines as [|line lines IH];
    intros counts w.
  - cbn [import_lines replay posted messages state_after]. unfold ret, count_up.
    cbn. rewrite !Nat.add_0_r, advance_nil. now destruct counts.
  - cbn [import_lines replay]. rewrite bind_unfold.
    unfold try_except. rewrite bind_unfold. unfold loads.
    destruct (json_loads line) as [msg|event].
    + (* the line does not decode *)
      unfold raise at 1. rewrite bind_unfold, print_eq. unfold ret at 1.
      rewrite IH. cbn [w_srv advance].
      destruct (replay stream_url hdrs (w_srv w) lines) as [o results].
      cbn [posted messages]. rewrite advance_advance. cbn [app].
      reflexivity.
    + unfold ret at 1. rewrite bind_unfold, import_event_run.
      destruct (record_triple event) as [triple|e|] eqn:Ht.
      * cbv zeta. set (rq := append_request stream_url hdrs triple).
        set (r := snd (serve (w_srv w) rq)).
        set (s1 := fst (serve (w_srv w) rq)).
        unfold ret at 1. rewrite IH. cbn [w_srv advance].
        destruct (replay stream_url hdrs s1 lines) as [o results].
        cbn [posted messages state_after]. fold s1.
        rewrite advance_advance. fold (upload_failure r).
        f_equal.
        -- destruct o; try reflexivity. f_equal.
           unfold count_up, successes, failures. cbn [answers filter].
           destruct (accepted r); cbn [negb length fst snd]; f_equal; lia.
        -- destruct (accepted r); reflexivity.
      * assert (Hne := record_triple_raises event e Ht).
        cbn [posted messages state_after]. rewrite advance_nil.
        destruct e; try reflexivity. exfalso. now apply (Hne msg).
      * cbn [posted messages state_after]. now rewrite advance_nil.
Qed.

Lemma import_events_reads : forall p stream_url hdrs c w,
  content_at p w = Ret c ->
  import_events p stream_url hdrs w = import_text c stream_url hdrs w.
Proof.
  intros p stream_url hdrs c w Hc. unfold import_events, import_text.
  rewrite bind_unfold. unfold read_lines. now rewrite Hc.
Qed.

Lemma import_text_run : forall c stream_url hdrs w,
  import_text c stream_url hdrs w =
  let (o, results) := replay stream_url hdrs (w_srv w) (file_lines c) in
  let s' := state_after (w_srv w) (posted results) in
  match o with
  | Ret _ =>
      (Ret tt,
       advance s' (posted results)
         (messages results ++ [report (successes results) (failures results)])
         w)
  | Raise e => (Raise e, advance s' (posted results) (messages results) w)
  | Diverge => (Diverge, advance s' (posted results) (messages results) w)
  end.
Proof.
  intros c stream_url hdrs w. unfold import_text.
  rewrite bind_unfold, import_lines_run.
  destruct (replay stream_url hdrs (w_srv w) (file_lines c)) as [o results].
  destruct o as [[]| |]; try reflexivity.
  rewrite print_eq, advance_advance. cbn [w_srv advance count_up fst snd].
  now rewrite app_nil_r.
Qed.

(** On the lines of a record stream the loop runs to its end, and posts
    the records of the lines in order, one request each. *)
Lemma replay_record_lines : forall stream_url hdrs lines s,
  Forall record_line lines ->
  fst (replay stream_url hdrs s lines) = Ret tt
  /\ posted (snd (replay stream_url hdrs s lines))
     = map (append_request stream_url hdrs) (records_of lines)
  /\ length (posted (snd (replay stream_url hdrs s lines)))
     = length (filter decodable lines).
Proof.
  intros stream_url hdrs lines; induction lines as [|line lines IH];
    intros s H.
  - repeat split.
  - inversion H as [|? ? Hline Hlines]; subst.
    cbn [replay records_of filter]. unfold record_line, is_record in Hline.
    unfold decodable at 1.
    destruct (json_loads line) as [msg|event].
    + destruct (IH s Hlines) as (Ho & Hp & Hn).
      destruct (replay stream_url hdrs s lines) as [o results].
      cbn [fst snd posted] in *. auto.
    + destruct (record_triple event) as [triple| |]; try discriminate.
      cbv zeta.
      destruct (IH (fst (serve s (append_request stream_url hdrs triple)))
                   Hlines) as (Ho & Hp & Hn).
      destruct (replay stream_url hdrs
                  (fst (serve s (append_request stream_url hdrs triple))) lines)
        as [o results].
      cbn [fst snd posted map length] in *.
      repeat split; [exact Ho|now rewrite Hp|now rewrite Hn].
Qed.






Lemma import_record_stream : forall p stream_url hdrs c w,
  content_at p w = Ret c ->
  Forall record_line (file_lines c) ->
  let results := snd (replay stream_url hdrs (w_srv w) (file_lines c)) in
  import_events p stream_url hdrs w
  = (Ret tt,
     advance (state_after (w_srv w) (posted results)) (posted results)
       (messages results ++ [report (successes results) (failures results)])
       w).
Proof.
  intros p stream_url hdrs c w Hc Hlines results.
  rewrite (import_events_reads p stream_url hdrs c w Hc), import_text_run.
  destruct (replay_record_lines stream_url hdrs _ (w_srv w) Hlines)
    as (Ho & _). subst results.
  destruct (replay stream_url hdrs (w_srv w) (file_lines c)) as [o res].
  cbn [fst snd] in *. now rewrite Ho.
Qed.












(** *** The archive codec *)

Lemma archive_extension : forall ext k,
  archive_of_extension ext = Some k ->
  (k = KZip /\ ext = ".zip") \/ (k = KTarXz /\ ext = ".tar.xz").
Proof.
  intros ext k H. unfold archive_of_extension in H.
  destruct (String.eqb_spec ext ".zip") as [->|_].
  - injection H as <-. now left.
  - destruct (String.eqb_spec ext ".tar.xz") as [->|_]; [|discriminate].
    injection H as <-. now right.
Qed.


(** The archive branch of [process_import_file]. *)
Lemma process_import_archive : forall filename stream_url hdrs k w,
  archive_of_extension (extension filename) = Some k ->
  process_import_file filename stream_url hdrs w
  = with_temporary_directory (
      print (extracting filename) ;;
      extractall k filename ;;
      print (extracted filename) ;;
      dirs <- walk_tmp ;;
      for_each dirs (fun rdf =>
        process_import_dir (fst (fst rdf)) stream_url hdrs)) w.
Proof.
  intros filename stream_url hdrs k w Hk. unfold process_import_file.
  destruct (archive_extension _ _ Hk) as [[-> ->] | [-> ->]]; reflexivity.
Qed.


(** An archive with a single member, a file whose name ends in [.json]:
    the records are read from the member in the temporary directory. *)
Lemma import_single_member : forall filename stream_url hdrs k name c w,
  archive_of_extension (extension filename) = Some k ->
  assoc filename (w_files w) = Some (archive k [(name, File c)]) ->
  endswith name ".json" = true ->
  process_import_file filename stream_url hdrs w
  = let (o, w') :=
      import_text c stream_url hdrs
        (set_tmp (Some [(name, File c)])
           (advance (w_srv w) [] [extracting filename; extracted filename] w))
    in (o, set_tmp None w').
Proof.
  intros filename stream_url hdrs k name c w Hk Hfile Hname.
  rewrite (process_import_archive filename stream_url hdrs k w Hk).
  unfold with_temporary_directory.
  rewrite bind_unfold, print_eq, bind_unfold.
  unfold extractall at 1. cbn [w_files advance set_tmp]. rewrite Hfile.
  assert (Hbody : forall w1,
    w_tmp w1 = Some [(name, File c)] ->
    (dirs0 <- walk_tmp ;;
     for_each dirs0 (fun rdf =>
       process_import_dir (fst (fst rdf)) stream_url hdrs)) w1
    = import_text c stream_url hdrs w1).
  { intros w1 Htmp. rewrite bind_unfold. unfold walk_tmp. rewrite Htmp.
    cbn [os_walk walk_node is_dir filter map fst snd negb app for_each].
    rewrite bind_unfold.
    unfold process_import_dir. rewrite bind_unfold.
    unfold listdir_tmp. rewrite Htmp.
    cbn [listdir map fst filter]. rewrite Hname.
    cbn [length Nat.ltb Nat.leb Nat.eqb].
    unfold ret at 1. rewrite bind_unfold. unfold ret at 1.
    cbn [for_each app]. rewrite !bind_unfold.
    rewrite (import_events_reads (InTmp [name]) stream_url hdrs c w1).
    - destruct (import_text c stream_url hdrs w1) as [[[]| |] w2]; reflexivity.
    - cbn [content_at]. rewrite Htmp. cbn [tree_get assoc].
      now rewrite String.eqb_refl. }
  destruct k; cbn [archive]; rewrite bind_unfold, print_eq;
    rewrite Hbody by reflexivity;
    (replace (advance (w_srv w) [] [extracting filename; extracted filename] w)
      with (advance (w_srv w) [] [extracted filename]
              (advance (w_srv w) [] [extracting filename] w))
      by (now rewrite advance_advance));
    reflexivity.
Qed.

(** The archive branch of [export_events]: the record stream is written
    to [events.json] in a temporary directory, and the target gets an
    archive with that one member; the directory is gone afterwards. *)
Lemma export_archive : forall events file_name hdrs k w,
  archive_of_extension (extension file_name) = Some k ->
  export_events events file_name hdrs w
  = let '(o, reqs, c) := materialize hdrs (w_srv w) (rev events) in
    let s' := state_after (w_srv w) reqs in
    match o with
    | Ret _ =>
        (Ret tt,
         set_tmp None
           (set_files
              (assoc_set file_name (archive k [("events.json", File c)])
                         (w_files w))
              (advance s' reqs [compressing file_name; compressed file_name] w)))
    | Raise e => (Raise e, set_tmp None (advance s' reqs [] w))
    | Diverge => (Diverge, set_tmp None (advance s' reqs [] w))
    end.
Proof.
  intros events file_name hdrs k w Hk.
  assert (Hbody : export_events events file_name hdrs w
    = with_temporary_directory (
        export_events_to_file (InTmp ["events.json"]) events hdrs ;;
        print (compressing file_name) ;;
        compress k file_name (InTmp ["events.json"]) ;;
        print (compressed file_name)) w).
  { unfold export_events.
    destruct (archive_extension _ _ Hk) as [[-> ->] | [-> ->]]; reflexivity. }
  rewrite Hbody. unfold with_temporary_directory.
  rewrite bind_unfold.
  rewrite (export_events_to_file_run (InTmp ["events.json"]) events hdrs
             (set_tmp (Some []) w)) by exact I.
  cbn [w_srv set_tmp].
  destruct (materialize hdrs (w_srv w) (rev events)) as [[o reqs] c].
  cbv zeta.
  destruct o as [[]| |];
    [|destruct w as [s sent fs tmp out]; reflexivity
     |destruct w as [s sent fs tmp out]; reflexivity].
  rewrite bind_unfold, print_eq, bind_unfold.
  generalize (compressing file_name) (compressed file_name). intros m1 m2.
  unfold compress.
  destruct w as [s sent fs tmp out].
  unfold put_text, advance, set_content, set_tmp, set_files.
  cbn [w_srv w_sent w_files w_tmp w_out tree_put assoc_set].
  unfold set_tmp.
  cbn [w_srv w_sent w_files w_tmp w_out content_at tree_get assoc last].
  rewrite String.eqb_refl, print_eq.
  unfold advance, set_tmp, set_files.
  cbn [w_srv w_sent w_files w_tmp w_out].
  rewrite !app_nil_r, <- !app_assoc. reflexivity.
Qed.

Lemma export_unsupported : forall events file_name hdrs w,
  extension file_name <> ".json" -> extension file_name <> "" ->
  archive_of_extension (extension file_name) = None ->
  export_events events file_name hdrs w
  = (Ret tt, advance (w_srv w) [] [unsupported (extension file_name)] w).
Proof.
  intros events file_name hdrs w Hj He Ha. unfold export_events.
  unfold archive_of_extension in Ha.
  destruct (String.eqb_spec (extension file_name) ".json"); [contradiction|].
  destruct (String.eqb_spec (extension file_name) ""); [contradiction|].
  destruct (String.eqb (extension file_name) ".zip"); [discriminate|].
  destruct (String.eqb (extension file_name) ".tar.xz"); [discriminate|].
  cbn [orb]. now rewrite print_eq.
Qed.

Lemma import_unsupported : forall filename stream_url hdrs w,
  extension filename <> ".json" -> extension filename <> "" ->
  archive_of_extension (extension filename) = None ->
  process_import_file filename stream_url hdrs w
  = (Ret tt, advance (w_srv w) [] [unsupported (extension filename)] w).
Proof.
  intros filename stream_url hdrs w Hj He Ha. unfold process_import_file.
  unfold archive_of_extension in Ha.
  destruct (String.eqb_spec (extension filename) ".json"); [contradiction|].
  destruct (String.eqb_spec (extension filename) ""); [contradiction|].
  destruct (String.eqb (extension filename) ".zip"); [discriminate|].
  destruct (String.eqb (extension filename) ".tar.xz"); [discriminate|].
  cbn [orb]. now rewrite print_eq.
Qed.

Lemma direct_extension : forall ext,
  ext = ".json" \/ ext = "" ->
  String.eqb ext ".json" || String.eqb ext "" = true.
Proof. intros ext [-> | ->]; reflexivity. Qed.

(** X1.  The dispatch of both [export_events] and
    [process_import_file], in terms of the joined suffixes of the path.
    - [.json] or none: the export writes the record stream at the path
      itself, and the import reads it from there.
    - [.zip] or [.tar.xz]: the export writes the same record stream to a
      file in a temporary directory and leaves at the path an archive
      with that file as its one member; the import of such an archive
      extracts it to a temporary directory and replays the member; the
      temporary directory is gone afterwards in both.
    - anything else: both print that the type is unsupported and do
      nothing more; no file changes and no request is sent. *)
Theorem dispatch_on_joined_suffixes :
  forall file_name events stream_url hdrs w,
    let ext := extension file_name in
    ((ext = ".json" \/ ext = "") ->
     export_events events file_name hdrs w
     = export_events_to_file (Abs file_name) events hdrs w
     /\ export_events events file_name hdrs w
        = (let '(o, reqs, c) := materialize hdrs (w_srv w) (rev events) in
           (o, put_text (Abs file_name) c
                 (advance (state_after (w_srv w) reqs) reqs [] w)))
     /\ process_import_file file_name stream_url hdrs w
        = import_events (Abs file_name) stream_url hdrs w)
    /\
    (forall k,
       (ext = ".zip" /\ k = KZip) \/ (ext = ".tar.xz" /\ k = KTarXz) ->
       export_events events file_name hdrs w
       = (let '(o, reqs, c) := materialize hdrs (w_srv w) (rev events) in
          let s' := state_after (w_srv w) reqs in
          match o with
          | Ret _ =>
              (Ret tt,
               set_tmp None
                 (set_files
                    (assoc_set file_name
                       (archive k [("events.json", File c)]) (w_files w))
                    (advance s' reqs
                       [compressing file_name; compressed file_name] w)))
          | Raise e => (Raise e, set_tmp None (advance s' reqs [] w))
          | Diverge => (Diverge, set_tmp None (advance s' reqs [] w))
          end)
       /\ (forall name c,
             assoc file_name (w_files w) = Some (archive k [(name, File c)]) ->
             endswith name ".json" = true ->
             process_import_file file_name stream_url hdrs w
             = (let (o, w') :=
                  import_text c stream_url hdrs
                    (set_tmp (Some [(name, File c)])
                       (advance (w_srv w) []
                          [extracting file_name; extracted file_name] w))
                in (o, set_tmp None w'))))
    /\
    (ext <> ".json" -> ext <> "" -> ext <> ".zip" -> ext <> ".tar.xz" ->
     export_events events file_name hdrs w
     = (Ret tt, advance (w_srv w) [] [unsupported ext] w)
     /\ process_import_file file_name stream_url hdrs w
        = (Ret tt, advance (w_srv w) [] [unsupported ext] w)).
Proof.
  intros file_name events stream_url hdrs w ext.
  split; [|split].
  - intros Hdirect.
    assert (Hexp : export_events events file_name hdrs w
                   = export_events_to_file (Abs file_name) events hdrs w).
    { unfold export_events. fold ext. now rewrite (direct_extension ext). }
    split; [exact Hexp|split].
    + rewrite Hexp. now apply export_events_to_file_run.
    + unfold process_import_file. fold ext.
      now rewrite (direct_extension ext).
  - intros k Hext.
    assert (Hk : archive_of_extension (extension file_name) = Some k).
    { fold ext. destruct Hext as [[-> ->] | [-> ->]]; reflexivity. }
    split.
    + now apply export_archive.
    + intros name c Hfile Hname. now apply import_single_member with (k := k).
  - intros Hj He Hz Ht.
    assert (Ha : archive_of_extension ext = None).
    { unfold archive_of_extension.
      destruct (String.eqb_spec ext ".zip"); [contradiction|].
      destruct (String.eqb_spec ext ".tar.xz"); [contradiction|reflexivity]. }
    split; [now apply export_unsupported|now apply import_unsupported].
Qed.

(** C8, at a name the code takes otherwise than the claim.  The name
    [export.v2.json] ends in [.json], and [validate_file] lets it
    through as a [.json] file; its suffixes are [.v2] and [.json], and
    both dispatchers compare the two joined.  So the export prints that
    the type [.v2.json] is unsupported and writes nothing, and the
    import does the same and sends nothing, whatever the events, the
    files and the store are. *)
Theorem dotted_json_name_is_rejected :
  forall events stream_url hdrs w,
    supported_name "export.v2.json" = true
    /\ suffixes "export.v2.json" = [".v2"; ".json"]
    /\ extension "export.v2.json" = ".v2.json"
    /\ export_events events "export.v2.json" hdrs w
       = (Ret tt, advance (w_srv w) [] ["Unsupported file type: .v2.json"] w)
    /\ process_import_file "export.v2.json" stream_url hdrs w
       = (Ret tt, advance (w_srv w) [] ["Unsupported file type: .v2.json"] w).
Proof.
  intros events stream_url hdrs w.
  split; [reflexivity|split; [reflexivity|split; [reflexivity|split]]].
  - now rewrite export_unsupported.
  - now rewrite import_unsupported.
Qed.

(** *** Round trip *)




(** *** Stream discovery *)

Lemma stream_names_titles : forall entries titles,
  map (fun e => subscript e "title") entries
  = map (fun t => Ret (JStr t)) titles ->
  stream_names entries = Ret (map (replace_first "0@" "") titles).
Proof.
  induction entries as [|entry entries IH]; intros titles H.
  - destruct titles; [reflexivity|discriminate].
  - destruct titles as [|t titles]; [discriminate|].
    injection H as Ht H. cbn [stream_names map].
    rewrite Ht. cbn [title_replace]. now rewrite (IH titles H).
Qed.

Lemma replace_first_prefix : forall rest,
  replace_first "0@" "" ("0@" ++ rest) = rest.
Proof. reflexivity. Qed.

Lemma replace_first_leftmost : forall a b,
  no_zero a = true ->
  replace_first "0@" "" (a ++ "0@" ++ b) = (a ++ b)%string.
Proof.
  induction a as [|c a IH]; intros b Ha.
  - apply replace_first_prefix.
  - cbn [no_zero] in Ha. apply andb_prop in Ha as [Hc Ha].
    cbn [append replace_first strip_prefix].
    rewrite Ascii.eqb_sym.
    destruct (Ascii.eqb c "0"); [discriminate|].
    f_equal. exact (IH b Ha).
Qed.

Lemma replace_first_absent : forall t,
  has_token t = false -> replace_first "0@" "" t = t.
Proof.
  induction t as [|c t IH]; intros H; [reflexivity|].
  cbn [has_token] in H. cbn [replace_first].
  destruct (strip_prefix "0@" (String c t)); [discriminate|].
  now rewrite (IH H).
Qed.

(** C9 (as amended: the token is removed where it first occurs).  Let
    the projection run to its end, the index stream be fetched with
    status 200, and every entry have a string for a title.  Then the
    names returned are the titles, in order, each with the leftmost
    occurrence of the token [0@] removed: [a ++ b] for a title
    [a ++ 0@ ++ b] with no [0] in [a].  For a title that begins with
    the token, that is the title without this prefix; a title without
    the token is kept as it is. *)
Theorem stream_names_drop_the_token :
  forall fuel base_url hdrs data entries titles w w1,
    run_projection fuel base_url "$streams" w = (Ret tt, w1) ->
    let rq := GET (streams_url base_url) hdrs in
    let r := snd (serve (w_srv w1) rq) in
    status_code r = 200%Z ->
    body_json r = Some data ->
    page_entries data = Ret entries ->
    map (fun e => subscript e "title") entries
    = map (fun t => Ret (JStr t)) titles ->
    get_available_streams fuel base_url hdrs w
    = (Ret (Some (map (replace_first "0@" "") titles)),
       advance (fst (serve (w_srv w1) rq)) [rq] [] w1)
    /\ (forall rest, replace_first "0@" "" ("0@" ++ rest) = rest)
    /\ (forall a b,
          no_zero a = true ->
          replace_first "0@" "" (a ++ "0@" ++ b) = (a ++ b)%string)
    /\ (forall t, has_token t = false -> replace_first "0@" "" t = t).
Proof.
  intros fuel base_url hdrs data entries titles w w1 Hrun rq r
         Hstatus Hbody Hentries Htitles.
  split; [|split; [exact replace_first_prefix
                  |split; [exact replace_first_leftmost
                          |exact replace_first_absent]]].
  unfold get_available_streams. rewrite bind_unfold, Hrun.
  rewrite bind_unfold. cbn [requests_get]. rewrite send_eq.
  fold (streams_url base_url). fold rq. fold r. rewrite Hstatus.
  cbn [Z.eqb Pos.eqb]. rewrite bind_unfold. unfold response_json.
  rewrite Hbody. unfold ret at 1. unfold page_entries in Hentries.
  rewrite bind_unfold. unfold lift at 1.
  destruct (subscript data "entries") as [es| |]; try discriminate.
  rewrite bind_unfold. unfold lift at 1. rewrite Hentries.
  rewrite bind_unfold. unfold lift at 1.
  rewrite (stream_names_titles entries titles Htitles). reflexivity.
Qed.

(** *** More on the paginated reader *)

Lemma loop_on_a_cycle : forall hdrs u data entries fuel events w,
  u <> "" ->
  (forall s,
     status_code (snd (serve s (GET u hdrs))) = 200%Z
     /\ body_json (snd (serve s (GET u hdrs))) = Some data) ->
  page_entries data = Ret entries ->
  page_next data = Ret (Some (JStr u)) ->
  fst (get_stream_events_loop fuel (JStr u) hdrs events w) = Diverge.
Proof.
  intros hdrs u data entries fuel; induction fuel as [|fuel IH];
    intros events w Hu Hserve Hentries Hnext; [reflexivity|].
  assert (Hserved : served is_200 hdrs (w_srv w)
                      [mkPage u entries (Some (JStr u))]).
  { cbn [served pg_url pg_entries pg_next].
    destruct (Hserve (w_srv w)) as [Hs Hb]. rewrite Hb. unfold is_200.
    rewrite Hs. repeat split; auto. }
  assert (Hlinked : linked_from (JStr u) [mkPage u entries (Some (JStr u))])
    by (cbn; auto).
  rewrite (loop_pages hdrs _ (Datatypes.S fuel) (JStr u) events w
             Hserved Hlinked) by (cbn; lia).
  cbv zeta. cbn [pending last pg_next length].
  change (Datatypes.S fuel - 1) with (fuel - 0). rewrite Nat.sub_0_r.
  now apply IH.
Qed.

(** X2.  The reader has no bound on the pages it follows and does not
    notice a page it has seen: where a page links to itself and the store
    keeps serving it, the loop never ends, whatever number of iterations
    it is given.  The same holds for the reader of [export-stream.py]. *)
Theorem reader_never_leaves_a_cycle :
  forall hdrs u data entries fuel w,
    u <> "" ->
    (forall s,
       status_code (snd (serve s (GET u hdrs))) = 200%Z
       /\ body_json (snd (serve s (GET u hdrs))) = Some data) ->
    page_entries data = Ret entries ->
    page_next data = Ret (Some (JStr u)) ->
    fst (get_stream_events fuel (JStr u) hdrs w) = Diverge
    /\ (hdrs = standalone_headers ->
        fst (standalone_get_stream_events fuel (JStr u) w) = Diverge).
Proof.
  intros hdrs u data entries fuel w Hu Hserve Hentries Hnext.
  assert (H : fst (get_stream_events fuel (JStr u) hdrs w) = Diverge)
    by (unfold get_stream_events; eapply loop_on_a_cycle; eauto).
  split; [exact H|].
  intros ->. unfold standalone_get_stream_events.
  rewrite standalone_reader_same. exact H.
Qed.

(** X3.  A [next] link whose [uri] is empty, or is any other value
    Python takes for false, ends the pagination as a missing link does:
    the reader returns the entries of the pages read so far, sends no
    further request and prints nothing. *)
Theorem reader_stops_at_an_empty_uri :
  forall hdrs fuel start pages uri w,
    served is_200 hdrs (w_srv w) pages ->
    linked_from start pages ->
    pending start pages = Some uri ->
    truthy uri = false ->
    length pages < fuel ->
    get_stream_events fuel start hdrs w
    = (Ret (concat (map pg_entries pages)),
       advance (state_after (w_srv w) (page_requests hdrs pages))
               (page_requests hdrs pages) [] w).
Proof.
  intros hdrs fuel start pages uri w Hserved Hlinked Hpending Huri Hfuel.
  unfold get_stream_events.
  rewrite (loop_pages hdrs pages fuel start [] w Hserved Hlinked) by lia.
  cbv zeta. rewrite Hpending.
  destruct (fuel - length pages) as [|fuel'] eqn:E; [lia|].
  cbn [get_stream_events_loop]. rewrite Huri. reflexivity.
Qed.

(** X4.  A page that is served with status 200 but whose document does
    not give the entries or the links (a key is missing, or the value is
    not one the loop can run over) makes the reader raise: unlike a page
    with a failing status, it does not return the entries of the pages
    before.  The request for the page has been sent. *)
Theorem reader_raises_on_a_malformed_page :
  forall hdrs fuel start pages u data e w,
    served is_200 hdrs (w_srv w) pages ->
    linked_from start pages ->
    pending start pages = Some (JStr u) ->
    u <> "" ->
    let reqs := page_requests hdrs pages in
    let s_end := state_after (w_srv w) reqs in
    status_code (snd (serve s_end (GET u hdrs))) = 200%Z ->
    body_json (snd (serve s_end (GET u hdrs))) = Some data ->
    page_entries data = Raise e
    \/ (exists entries, page_entries data = Ret entries)
       /\ page_next data = Raise e ->
    length pages < fuel ->
    get_stream_events fuel start hdrs w
    = (Raise e,
       advance (fst (serve s_end (GET u hdrs))) (reqs ++ [GET u hdrs]) [] w).
Proof.
  intros hdrs fuel start pages u data e w Hserved Hlinked Hpending Hu
         reqs s_end Hstatus Hbody Hbad Hfuel.
  unfold get_stream_events.
  rewrite (loop_pages hdrs pages fuel start [] w Hserved Hlinked) by lia.
  cbv zeta. rewrite Hpending. fold reqs. fold s_end.
  destruct (fuel - length pages) as [|fuel'] eqn:E; [lia|].
  cbn [get_stream_events_loop truthy].
  destruct (String.eqb_spec u "") as [|_]; [contradiction|].
  cbn [negb requests_get app]. rewrite bind_unfold, send_eq.
  cbn [w_srv advance]. rewrite Hstatus. cbn [Z.eqb Pos.eqb negb].
  rewrite bind_unfold. unfold response_json. rewrite Hbody.
  unfold ret at 1. rewrite bind_unfold. unfold lift at 1.
  assert (Hw : advance (fst (serve s_end (GET u hdrs))) [GET u hdrs] []
                 (advance s_end reqs [] w)
               = advance (fst (serve s_end (GET u hdrs)))
                   (reqs ++ [GET u hdrs]) [] w)
    by now rewrite advance_advance.
  unfold page_entries, page_next in Hbad.
  destruct Hbad as [Hentries | [[entries Hentries] Hnext]].
  - destruct (subscript data "entries") as [es| |].
    + rewrite bind_unfold. unfold lift at 1. rewrite Hentries.
      now rewrite <- Hw.
    + injection Hentries as ->. now rewrite <- Hw.
    + discriminate.
  - destruct (subscript data "entries") as [es| |]; try discriminate.
    rewrite bind_unfold. unfold lift at 1. rewrite Hentries.
    rewrite bind_unfold. unfold lift at 1.
    destruct (subscript data "links") as [links| |].
    + rewrite bind_unfold. unfold lift at 1.
      destruct (iterate links) as [link_list| |].
      * rewrite bind_unfold. unfold lift at 1.
        destruct (next_link link_list) as [[link|]| |]; try discriminate.
        -- destruct (truthy link); [|discriminate].
           rewrite bind_unfold. unfold lift at 1.
           destruct (subscript link "uri") as [uri| |]; try discriminate.
           injection Hnext as ->. now rewrite <- Hw.
        -- injection Hnext as ->. now rewrite <- Hw.
      * injection Hnext as ->. now rewrite <- Hw.
      * discriminate.
    + injection Hnext as ->. now rewrite <- Hw.
    + discriminate.
Qed.

(** *** More on the materializer *)

Lemma materialize_prefix : forall hdrs urls done rest s,
  map entry_url done = map Some urls ->
  Forall decodes (responses s (entry_requests hdrs urls)) ->
  materialize hdrs s (done ++ rest)
  = let '(o, reqs, c) :=
      materialize hdrs (state_after s (entry_requests hdrs urls)) rest in
    (o, entry_requests hdrs urls ++ reqs,
     (join (lines_of_fetched (responses s (entry_requests hdrs urls)))
      ++ c)%string).
Proof.
  intros hdrs urls; induction urls as [|u urls IH]; intros done rest s Hurls Hdec.
  - destruct done; [|discriminate]. cbn.
    now destruct (materialize hdrs s rest) as [[o reqs] c].
  - destruct done as [|entry done]; [discriminate|].
    injection Hurls as Hu Hurls.
    cbn [entry_requests map responses state_after] in Hdec |- *.
    inversion Hdec as [|r rs Hr Hrs]; subst.
    cbn [app materialize]. unfold entry_url in Hu.
    destruct (self_link entry) as [[| | | u' | |]| |]; try discriminate.
    injection Hu as ->.
    specialize (IH done rest (fst (serve s (GET u hdrs))) Hurls Hrs).
    fold (entry_requests hdrs urls) in *.
    cbn [lines_of_fetched]. unfold fetched.
    rewrite IH.
    destruct (materialize hdrs
                (state_after (fst (serve s (GET u hdrs)))
                   (entry_requests hdrs urls)) rest) as [[o reqs] c].
    destruct (Z.eqb_spec (status_code (snd (serve s (GET u hdrs)))) 200)
      as [E|_].
    + destruct (body_json (snd (serve s (GET u hdrs)))) as [event_data|] eqn:Hb.
      * unfold join. cbn [fold_right]. now rewrite string_app_assoc.
      * exfalso. now apply (Hr E).
    + reflexivity.
Qed.

(** X5.  The export stops at the first entry, oldest first, that has no
    self-link: the exception of the lookup leaves the function, and the
    newer entries are not fetched.  Written straight to its target, the
    file then holds the events before that entry; written by way of an
    archive, neither the archive nor any other file is made or
    changed. *)
Theorem export_stops_at_a_broken_entry :
  forall p events done bad rest urls e hdrs w,
    ready p w ->
    rev events = done ++ bad :: rest ->
    map entry_url done = map Some urls ->
    let reqs := entry_requests hdrs urls in
    let rs := responses (w_srv w) reqs in
    let w' := advance (state_after (w_srv w) reqs) reqs [] w in
    Forall decodes rs ->
    self_link bad = Raise e ->
    export_events_to_file p events hdrs w
    = (Raise e, put_text p (join (lines_of_fetched rs)) w')
    /\ (forall file_name k,
          archive_of_extension (extension file_name) = Some k ->
          export_events events file_name hdrs w = (Raise e, set_tmp None w')
          /\ w_files (snd (export_events events file_name hdrs w))
             = w_files w).
Proof.
  intros p events done bad rest urls e hdrs w Hready Hrev Hurls reqs rs w'
         Hdec Hbad.
  assert (Hm : materialize hdrs (w_srv w) (rev events)
               = (Raise e, reqs, join (lines_of_fetched rs))).
  { rewrite Hrev, (materialize_prefix hdrs urls done (bad :: rest) (w_srv w)
                     Hurls Hdec).
    cbn [materialize]. rewrite Hbad.
    fold reqs. fold rs. now rewrite app_nil_r, string_app_nil_r. }
  split.
  - rewrite export_events_to_file_run by exact Hready. now rewrite Hm.
  - intros file_name k Hk.
    rewrite (export_archive events file_name hdrs k w Hk), Hm.
    split; reflexivity.
Qed.

Lemma materialize_requests : forall hdrs entries s,
  Forall (is_get hdrs) (snd (fst (materialize hdrs s entries)))
  /\ length (snd (fst (materialize hdrs s entries))) <= length entries.
Proof.
  intros hdrs entries; induction entries as [|entry entries IH]; intros s.
  - cbn. split; [constructor|lia].
  - cbn [materialize length].
    destruct (self_link entry) as [[| | | u | |]| |];
      try (cbn; split; [constructor|lia]).
    specialize (IH (fst (serve s (GET u hdrs)))).
    destruct (materialize hdrs (fst (serve s (GET u hdrs))) entries)
      as [[o reqs] c].
    cbn [fst snd] in IH. destruct IH as [IH1 IH2].
    assert (Hg : is_get hdrs (GET u hdrs)) by (now exists u).
    destruct (status_code (snd (serve s (GET u hdrs))) =? 200)%Z.
    + destruct (body_json (snd (serve s (GET u hdrs)))).
      * cbn. split; [now constructor|lia].
      * cbn. split; [repeat constructor; exact Hg|lia].
    + cbn. split; [now constructor|lia].
Qed.

Lemma assoc_set_other : forall (A : Type) q k (v : A) l,
  q <> k -> assoc q (assoc_set k v l) = assoc q l.
Proof.
  intros A q k v l Hq; induction l as [|[k' v'] l IH]; cbn.
  - destruct (String.eqb_spec k q); [congruence|reflexivity].
  - destruct (String.eqb_spec k' k) as [->|Hk]; cbn.
    + destruct (String.eqb_spec k q); [congruence|reflexivity].
    + destruct (String.eqb_spec k' q); [reflexivity|exact IH].
Qed.

Lemma extension_cases : forall ext,
  (ext = ".json" \/ ext = "")
  \/ (exists k, archive_of_extension ext = Some k)
  \/ (ext <> ".json" /\ ext <> "" /\ archive_of_extension ext = None).
Proof.
  intros ext.
  destruct (String.eqb_spec ext ".json") as [|H1]; [now left; left|].
  destruct (String.eqb_spec ext "") as [|H2]; [now left; right|].
  destruct (archive_of_extension ext) as [k|] eqn:E.
  - right; left. now exists k.
  - right; right. auto.
Qed.

(** X6.  Whatever the entries, the target name and the store's answers,
    the export only reads the store: every request it sends is a [GET]
    with the headers it was given, at most one for each entry, and no
    file but the target is made or changed. *)
Theorem export_only_reads_the_store :
  forall events file_name hdrs w,
    let w' := snd (export_events events file_name hdrs w) in
    exists reqs,
      w_sent w' = w_sent w ++ reqs
      /\ Forall (is_get hdrs) reqs
      /\ length reqs <= length events
      /\ (forall q, q <> file_name ->
            assoc q (w_files w') = assoc q (w_files w)).
Proof.
  intros events file_name hdrs w w'. subst w'.
  destruct (materialize_requests hdrs (rev events) (w_srv w)) as [Hget Hlen].
  rewrite length_rev in Hlen.
  destruct (extension_cases (extension file_name))
    as [Hdirect | [[k Hk] | (H1 & H2 & Hnone)]].
  - assert (E : export_events events file_name hdrs w
                = export_events_to_file (Abs file_name) events hdrs w).
    { unfold export_events. cbv zeta.
      now rewrite (direct_extension _ Hdirect). }
    rewrite E, export_events_to_file_run by exact I.
    destruct (materialize hdrs (w_srv w) (rev events)) as [[o reqs] c].
    cbn [fst snd] in *. exists reqs. repeat split; try assumption.
    intros q Hq. cbn. now apply assoc_set_other.
  - rewrite (export_archive events file_name hdrs k w Hk).
    destruct (materialize hdrs (w_srv w) (rev events)) as [[o reqs] c].
    cbn [fst snd] in *. exists reqs.
    destruct o as [[]|e|]; cbn; repeat split; try assumption;
      intros q Hq; try reflexivity.
    now apply assoc_set_other.
  - rewrite (export_unsupported events file_name hdrs w H1 H2 Hnone).
    exists []. cbn. rewrite app_nil_r. repeat split; [constructor|lia].
Qed.

(** *** More on the replay writer *)












Lemma replay_app : forall stream_url hdrs l1 l2 s,
  Forall record_line l1 ->
  replay stream_url hdrs s (l1 ++ l2)
  = let r1 := snd (replay stream_url hdrs s l1) in
    let (o, r2) :=
      replay stream_url hdrs (state_after s (posted r1)) l2 in
    (o, r1 ++ r2).
Proof.
  intros stream_url hdrs l1 l2; induction l1 as [|line l1 IH]; intros s Hl1.
  - cbn. now destruct (replay stream_url hdrs s l2).
  - inversion Hl1 as [|x xs Hline Hrest]; subst.
    cbn [app replay]. unfold record_line, is_record in Hline.
    destruct (json_loads line) as [msg|event].
    + rewrite (IH s Hrest). cbv zeta.
      destruct (replay stream_url hdrs s l1) as [o1 r1]. cbn [snd posted].
      now destruct (replay stream_url hdrs (state_after s (posted r1)) l2).
    + destruct (record_triple event) as [triple| |]; try discriminate.
      cbv zeta. rewrite (IH _ Hrest). cbv zeta.
      destruct (replay stream_url hdrs
                  (fst (serve s (append_request stream_url hdrs triple))) l1)
        as [o1 r1].
      cbn [snd posted state_after].
      now destruct (replay stream_url hdrs _ l2).
Qed.

(** X8.  A line that decodes, but not to an event record, is not
    skipped: the exception of the failed lookup leaves [import_events].
    The records before the line have been appended by then, the lines
    after it are never read, and no count is printed. *)
Theorem replay_stops_at_a_non_record :
  forall p stream_url hdrs c before bad after event e w,
    content_at p w = Ret c ->
    file_lines c = before ++ bad :: after ->
    Forall record_line before ->
    json_loads bad = inr event ->
    record_triple event = Raise e ->
    let results := snd (replay stream_url hdrs (w_srv w) before) in
    import_events p stream_url hdrs w
    = (Raise e,
       advance (state_after (w_srv w) (posted results)) (posted results)
               (messages results) w)
    /\ posted results
       = map (append_request stream_url hdrs) (records_of before).
Proof.
  intros p stream_url hdrs c before bad after event e w Hc Hsplit Hbefore
         Hbad He results.
  split.
  - rewrite (import_events_reads p stream_url hdrs c w Hc), import_text_run.
    rewrite Hsplit, (replay_app stream_url hdrs before (bad :: after) (w_srv w)
                       Hbefore).
    cbv zeta. fold results. cbn [replay]. rewrite Hbad, He.
    now rewrite app_nil_r.
  - apply (replay_record_lines stream_url hdrs before (w_srv w) Hbefore).
Qed.

(** X9.  The import does not look at what the stream holds: run a
    second time on the same file, it sends the same appends again, so
    the store is asked to append every record twice. *)
Theorem import_twice_appends_twice :
  forall p stream_url hdrs c w,
    content_at p w = Ret c ->
    Forall record_line (file_lines c) ->
    let appends :=
      map (append_request stream_url hdrs) (records_of (file_lines c)) in
    exists w1 w2,
      import_events p stream_url hdrs w = (Ret tt, w1)
      /\ import_events p stream_url hdrs w1 = (Ret tt, w2)
      /\ w_sent w1 = w_sent w ++ appends
      /\ w_sent w2 = w_sent w ++ appends ++ appends.
Proof.
  intros p stream_url hdrs c w Hc Hlines appends.
  pose proof (import_record_stream p stream_url hdrs c w Hc Hlines) as H1.
  cbv zeta in H1.
  destruct (replay_record_lines stream_url hdrs (file_lines c) (w_srv w) Hlines)
    as (_ & Hp1 & _).
  set (w1 := advance _ _ _ w) in H1.
  assert (Hc1 : content_at p w1 = Ret c)
    by (unfold w1; now rewrite content_at_advance).
  pose proof (import_record_stream p stream_url hdrs c w1 Hc1 Hlines) as H2.
  cbv zeta in H2.
  destruct (replay_record_lines stream_url hdrs (file_lines c) (w_srv w1) Hlines)
    as (_ & Hp2 & _).
  set (w2 := advance _ _ _ w1) in H2.
  exists w1, w2. repeat split; try assumption.
  - unfold w1. cbn [w_sent advance]. now rewrite Hp1.
  - unfold w2. cbn [w_sent advance]. rewrite Hp2. unfold w1.
    cbn [w_sent advance]. now rewrite Hp1, app_assoc.
Qed.

Lemma replay_nothing_decodes : forall stream_url hdrs lines s,
  Forall (fun l => decodable l = false) lines ->
  fst (replay stream_url hdrs s lines) = Ret tt
  /\ posted (snd (replay stream_url hdrs s lines)) = []
  /\ answers (snd (replay stream_url hdrs s lines)) = []
  /\ length (messages (snd (replay stream_url hdrs s lines))) = length lines.
Proof.
  intros stream_url hdrs lines s; induction 1 as [|line lines Hline _ IH].
  - repeat split.
  - cbn [replay]. unfold decodable in Hline.
    destruct (json_loads line) as [msg|event]; [|discriminate].
    destruct (replay stream_url hdrs s lines) as [o results].
    cbn [fst snd posted answers messages length] in *.
    destruct IH as (-> & -> & -> & ->). repeat split.
Qed.

(** X10.  A file in which no line decodes, an empty file among them,
    is imported without an error: one message is printed for each
    line, nothing is sent, and the run ends with the count of zero
    uploaded events. *)
Theorem import_of_nothing_reports_zero :
  forall p stream_url hdrs c w,
    content_at p w = Ret c ->
    Forall (fun l => decodable l = false) (file_lines c) ->
    let results := snd (replay stream_url hdrs (w_srv w) (file_lines c)) in
    import_events p stream_url hdrs w
    = (Ret tt,
       advance (w_srv w) []
         (messages results ++ ["0 events successfully uploaded to EventDB"]) w)
    /\ length (messages results) = length (file_lines c).
Proof.
  intros p stream_url hdrs c w Hc Hnone results.
  destruct (replay_nothing_decodes stream_url hdrs (file_lines c) (w_srv w)
              Hnone) as (Ho & Hp & Ha & Hm).
  fold results in Hp, Ha, Hm. split; [|exact Hm].
  rewrite (import_events_reads p stream_url hdrs c w Hc), import_text_run.
  destruct (replay stream_url hdrs (w_srv w) (file_lines c)) as [o rs] eqn:E.
  cbn [fst snd] in *. subst results. rewrite Ho.
  unfold successes, failures. rewrite Hp, Ha. reflexivity.
Qed.

(** *** Projections *)

Lemma poll_run : forall fuel base_url projection_name w,
  let rq := status_request base_url projection_name in
  let r := snd (serve (w_srv w) rq) in
  let s1 := fst (serve (w_srv w) rq) in
  poll_projection (Datatypes.S fuel)
    (base_url ++ "/projection/" ++ projection_name)%string
    [("Accept", "application/json")] w
  = match poll_step r with
    | Ret true => (Ret tt, advance s1 [rq] (status_failure r) w)
    | Ret false =>
        poll_projection fuel
          (base_url ++ "/projection/" ++ projection_name)%string
          [("Accept", "application/json")] (advance s1 [rq] [] w)
    | Raise e => (Raise e, advance s1 [rq] [] w)
    | Diverge => (Diverge, advance s1 [rq] [] w)
    end.
Proof.
  intros fuel base_url projection_name w rq r s1.
  unfold status_request in rq.
  cbn [poll_projection requests_get]. rewrite bind_unfold, send_eq.
  fold rq. fold r. fold s1. unfold poll_step, status_failure.
  destruct (status_code r =? 200)%Z eqn:E; cbv beta iota.
  - rewrite bind_unfold. unfold response_json.
    destruct (body_json r) as [data|]; [|reflexivity].
    unfold ret at 1. rewrite bind_unfold. unfold lift at 1.
    destruct (dict_get data "progress" (JNum 0)) as [progress| |];
      try reflexivity.
    rewrite bind_unfold. unfold lift at 1.
    destruct (ge_100 progress) as [[|]| |]; reflexivity.
  - rewrite print_eq. cbn [w_srv advance]. rewrite advance_advance.
    reflexivity.
Qed.

Lemma poll_rounds : forall base_url projection_name n fuel w,
  let rq := status_request base_url projection_name in
  still_running rq (w_srv w) n ->
  poll_projection (n + fuel)
    (base_url ++ "/projection/" ++ projection_name)%string
    [("Accept", "application/json")] w
  = poll_projection fuel
      (base_url ++ "/projection/" ++ projection_name)%string
      [("Accept", "application/json")]
      (advance (state_after (w_srv w) (repeat rq n)) (repeat rq n) [] w).
Proof.
  intros base_url projection_name n; induction n as [|n IH];
    intros fuel w rq Hrun.
  - cbn [repeat state_after Nat.add]. now rewrite advance_nil.
  - destruct Hrun as [Hstep Hrun].
    change (Datatypes.S n + fuel) with (Datatypes.S (n + fuel)).
    rewrite poll_run. fold rq. rewrite Hstep.
    rewrite IH by exact Hrun. cbn [w_srv advance]. fold rq.
    rewrite advance_advance. reflexivity.
Qed.

Lemma run_projection_started : forall fuel base_url projection_name w,
  let rq := enable_request base_url projection_name in
  let r := snd (serve (w_srv w) rq) in
  let w1 := advance (fst (serve (w_srv w) rq)) [rq] [] w in
  status_code r = 200%Z ->
  run_projection fuel base_url projection_name w
  = bind (poll_projection fuel
            (base_url ++ "/projection/" ++ projection_name)%string
            [("Accept", "application/json")])
      (fun _ =>
         bind (send (disable_request base_url projection_name))
           (fun response =>
              if negb (status_code response =? 200)%Z then
                print ("Failed to stop projection. Status code: "
                       ++ str_Z (status_code response))
              else ret tt)) w1.
Proof.
  intros fuel base_url projection_name w rq r w1 Hr.
  unfold enable_request in rq.
  unfold run_projection. cbv zeta. unfold requests_post.
  rewrite bind_unfold, send_eq. fold rq. fold r. fold w1. rewrite Hr.
  cbn [Z.eqb Pos.eqb negb]. rewrite bind_unfold. unfold ret at 1.
  reflexivity.
Qed.

Lemma run_projection_stops : forall base_url projection_name w,
  let rq := disable_request base_url projection_name in
  let r := snd (serve (w_srv w) rq) in
  bind (send rq)
    (fun response =>
       if negb (status_code response =? 200)%Z then
         print ("Failed to stop projection. Status code: "
                ++ str_Z (status_code response))
       else ret tt) w
  = (Ret tt, advance (fst (serve (w_srv w) rq)) [rq] (stop_failure r) w).
Proof.
  intros base_url projection_name w rq r.
  rewrite bind_unfold, send_eq. fold r. unfold stop_failure.
  destruct (status_code r =? 200)%Z; cbn [negb].
  - reflexivity.
  - rewrite print_eq. cbn [w_srv advance]. now rewrite advance_advance.
Qed.

(** X11.  When the store does not answer the command that starts a
    projection with status 200, [run_projection] ends the program after
    that one request; so does [get_available_streams], which never gets
    to ask for the index of streams. *)
Theorem projection_start_failure_exits :
  forall fuel base_url projection_name hdrs w,
    let rq := enable_request base_url projection_name in
    let r := snd (serve (w_srv w) rq) in
    status_code r <> 200%Z ->
    run_projection fuel base_url projection_name w
    = (Raise SystemExit,
       advance (fst (serve (w_srv w) rq)) [rq]
         [("Failed to start projection. Status code: "
           ++ str_Z (status_code r))%string] w)
    /\ (projection_name = "$streams" ->
        get_available_streams fuel base_url hdrs w
        = (Raise SystemExit,
           advance (fst (serve (w_srv w) rq)) [rq]
             [("Failed to start projection. Status code: "
               ++ str_Z (status_code r))%string] w)).
Proof.
  intros fuel base_url projection_name hdrs w rq r Hr.
  assert (H : run_projection fuel base_url projection_name w
              = (Raise SystemExit,
                 advance (fst (serve (w_srv w) rq)) [rq]
                   [("Failed to start projection. Status code: "
                     ++ str_Z (status_code r))%string] w)).
  { unfold enable_request in rq.
    unfold run_projection. cbv zeta. unfold requests_post.
    rewrite bind_unfold, send_eq. fold rq. fold r.
    destruct (Z.eqb_spec (status_code r) 200) as [|_]; [contradiction|].
    cbn [negb]. rewrite bind_unfold, bind_unfold, print_eq.
    cbn [w_srv advance]. unfold exit, raise.
    now rewrite advance_advance. }
  split; [exact H|].
  intros ->. unfold get_available_streams. rewrite bind_unfold.
  now rewrite H.
Qed.

(** X12.  Started with status 200, the projection is polled until an
    answer ends the loop, by a progress of 100 or more or by a status
    other than 200, and is then stopped: the requests are the start,
    the status requests and the stop, in this order.  A stop that
    fails is only printed; [run_projection] returns all the same. *)
Theorem projection_is_stopped_after_polling :
  forall fuel n base_url projection_name w,
    let start := enable_request base_url projection_name in
    let poll := status_request base_url projection_name in
    let stop := disable_request base_url projection_name in
    let s1 := fst (serve (w_srv w) start) in
    let s2 := state_after s1 (repeat poll n) in
    let last_poll := snd (serve s2 poll) in
    let s3 := fst (serve s2 poll) in
    status_code (snd (serve (w_srv w) start)) = 200%Z ->
    still_running poll s1 n ->
    poll_step last_poll = Ret true ->
    n < fuel ->
    run_projection fuel base_url projection_name w
    = (Ret tt,
       advance (fst (serve s3 stop))
         (start :: repeat poll n ++ [poll; stop])
         (status_failure last_poll ++ stop_failure (snd (serve s3 stop))) w).
Proof.
  intros fuel n base_url projection_name w start poll stop s1 s2 last_poll s3
         Hstart Hrun Hlast Hfuel.
  rewrite run_projection_started by exact Hstart. fold start. fold s1.
  rewrite bind_unfold.
  replace fuel with (n + Datatypes.S (fuel - n - 1)) by lia.
  rewrite poll_rounds by exact Hrun. cbn [w_srv advance]. fold poll. fold s2.
  rewrite poll_run. cbn [w_srv advance]. fold poll. fold last_poll. fold s3.
  rewrite Hlast. rewrite run_projection_stops. cbn [w_srv advance].
  fold stop. f_equal. unfold advance. cbn [w_sent w_out w_files w_tmp].
  f_equal.
  - now rewrite <- !app_assoc.
  - now rewrite <- !app_assoc.
Qed.

(** X13.  The polling loop has no bound and no timeout: with a store
    that answers every status request with a progress below 100, it
    never ends, whatever number of rounds it is given, and the
    projection is not stopped. *)
Theorem projection_polling_is_unbounded :
  forall fuel base_url projection_name w,
    let start := enable_request base_url projection_name in
    let poll := status_request base_url projection_name in
    status_code (snd (serve (w_srv w) start)) = 200%Z ->
    (forall s, poll_step (snd (serve s poll)) = Ret false) ->
    fst (run_projection fuel base_url projection_name w) = Diverge
    /\ w_sent (snd (run_projection fuel base_url projection_name w))
       = w_sent w ++ start :: repeat poll fuel.
Proof.
  intros fuel base_url projection_name w start poll Hstart Hpoll.
  rewrite run_projection_started by exact Hstart. fold start.
  rewrite bind_unfold.
  assert (Hrun : forall n s, still_running poll s n).
  { induction n as [|n IH]; intros s; [exact I|]. split; [apply Hpoll|apply IH]. }
  assert (H : forall w1,
             poll_projection fuel
               (base_url ++ "/projection/" ++ projection_name)%string
               [("Accept", "application/json")] w1
             = (Diverge,
                advance (state_after (w_srv w1) (repeat poll fuel))
                        (repeat poll fuel) [] w1)).
  { intros w1. rewrite <- (Nat.add_0_r fuel) at 1.
    rewrite poll_rounds by apply Hrun. reflexivity. }
  rewrite H. cbn [fst snd w_sent advance].
  split; [reflexivity|]. now rewrite <- app_assoc.
Qed.

(** X14.  An exception in the polling loop, from a status answer whose
    body does not decode or whose progress is not a number, leaves
    [run_projection] at once: the projection has been started and is
    not stopped. *)
Theorem projection_is_left_running_on_an_exception :
  forall fuel n e base_url projection_name w,
    let start := enable_request base_url projection_name in
    let poll := status_request base_url projection_name in
    let s1 := fst (serve (w_srv w) start) in
    let s2 := state_after s1 (repeat poll n) in
    status_code (snd (serve (w_srv w) start)) = 200%Z ->
    still_running poll s1 n ->
    poll_step (snd (serve s2 poll)) = Raise e ->
    n < fuel ->
    run_projection fuel base_url projection_name w
    = (Raise e,
       advance (fst (serve s2 poll)) (start :: repeat poll n ++ [poll]) [] w).
Proof.
  intros fuel n e base_url projection_name w start poll s1 s2
         Hstart Hrun Hlast Hfuel.
  rewrite run_projection_started by exact Hstart. fold start. fold s1.
  rewrite bind_unfold.
  replace fuel with (n + Datatypes.S (fuel - n - 1)) by lia.
  rewrite poll_rounds by exact Hrun. cbn [w_srv advance]. fold poll. fold s2.
  rewrite poll_run. cbn [w_srv advance]. fold poll.
  rewrite Hlast. f_equal. unfold advance. cbn [w_sent w_out w_files w_tmp].
  f_equal.
  - now rewrite <- !app_assoc.
  - now rewrite !app_nil_r.
Qed.

(** *** The end of the scripts *)

Lemma reader_complete : forall hdrs fuel start pages w,
  served is_200 hdrs (w_srv w) pages ->
  linked_from start pages ->
  pending start pages = None ->
  length pages <= fuel ->
  get_stream_events fuel start hdrs w
  = (Ret (concat (map pg_entries pages)),
     advance (state_after (w_srv w) (page_requests hdrs pages))
             (page_requests hdrs pages) [] w).
Proof.
  intros hdrs fuel start pages w Hserved Hlinked Hpending Hfuel.
  unfold get_stream_events.
  rewrite (loop_pages hdrs pages fuel start [] w Hserved Hlinked Hfuel).
  cbv zeta. now rewrite Hpending.
Qed.

Lemma reader_until_failure : forall hdrs fuel start pages u w,
  served is_200 hdrs (w_srv w) pages ->
  linked_from start pages ->
  pending start pages = Some (JStr u) ->
  u <> "" ->
  let reqs := page_requests hdrs pages in
  let s_end := state_after (w_srv w) reqs in
  status_code (snd (serve s_end (GET u hdrs))) <> 200%Z ->
  length pages < fuel ->
  get_stream_events fuel start hdrs w
  = (Ret (concat (map pg_entries pages)),
     advance (fst (serve s_end (GET u hdrs))) (reqs ++ [GET u hdrs])
       [page_failure (snd (serve s_end (GET u hdrs)))] w).
Proof.
  intros hdrs fuel start pages u w Hserved Hlinked Hpending Hu reqs s_end
         Hstatus Hfuel.
  unfold get_stream_events.
  rewrite (loop_pages hdrs pages fuel start [] w Hserved Hlinked) by lia.
  cbv zeta. rewrite Hpending. fold reqs. fold s_end.
  destruct (fuel - length pages) as [|fuel'] eqn:E; [lia|].
  cbn [get_stream_events_loop truthy].
  destruct (String.eqb_spec u "") as [|_]; [contradiction|].
  cbn [negb requests_get app]. rewrite bind_unfold, send_eq.
  cbn [w_srv advance].
  destruct (Z.eqb_spec (status_code (snd (serve s_end (GET u hdrs)))) 200)
    as [|_]; [contradiction|].
  cbn [negb]. rewrite bind_unfold, print_eq. unfold ret, page_failure.
  rewrite !advance_advance. reflexivity.
Qed.

Lemma for_each_print : forall (A : Type) (f : A -> string) (l : list A) w,
  for_each l (fun x => print (f x)) w
  = (Ret tt, advance (w_srv w) [] (map f l) w).
Proof.
  intros A f l; induction l as [|x l IH]; intros w.
  - cbn. now rewrite advance_nil.
  - cbn [for_each map]. rewrite bind_unfold, print_eq, IH.
    cbn [w_srv advance]. now rewrite advance_advance.
Qed.

Lemma numbered_enumerate : forall streams index,
  map (fun index_stream : nat * string =>
         (str_nat (fst index_stream) ++ ". " ++ snd index_stream)%string)
      (enumerate index streams)
  = numbered index streams.
Proof.
  induction streams as [|stream streams IH]; intros index; [reflexivity|].
  cbn [enumerate map numbered fst snd]. now rewrite IH.
Qed.

(** X15.  [list_available_streams] returns a list only when it is not
    empty, and it has then printed the heading and the names, numbered
    from 1.  When the index could not be fetched, or lists no stream,
    it prints the error and ends the program. *)
Theorem listing_returns_no_empty_list :
  forall fuel base_url hdrs w,
    (forall stream streams w1,
       get_available_streams fuel base_url hdrs w
       = (Ret (Some (stream :: streams)), w1) ->
       list_available_streams fuel base_url hdrs w
       = (Ret (stream :: streams),
          advance (w_srv w1) []
            ("Available streams:" :: numbered 1 (stream :: streams)) w1))
    /\ (forall w1,
          get_available_streams fuel base_url hdrs w = (Ret None, w1)
          \/ get_available_streams fuel base_url hdrs w = (Ret (Some []), w1) ->
          list_available_streams fuel base_url hdrs w
          = (Raise SystemExit, advance (w_srv w1) [] [no_streams_error] w1))
    /\ (forall streams w',
          list_available_streams fuel base_url hdrs w = (Ret streams, w') ->
          streams <> []).
Proof.
  intros fuel base_url hdrs w. split; [|split].
  - intros stream streams w1 Hget. unfold list_available_streams.
    rewrite bind_unfold, Hget. cbn [length Nat.ltb Nat.leb].
    rewrite bind_unfold, print_eq, bind_unfold, for_each_print.
    rewrite numbered_enumerate. unfold ret. cbn [w_srv advance].
    now rewrite advance_advance.
  - intros w1 Hget. unfold list_available_streams. rewrite bind_unfold.
    destruct Hget as [-> | ->]; cbn [length Nat.ltb Nat.leb];
      rewrite bind_unfold, print_eq; reflexivity.
  - intros streams w' Hlist. unfold list_available_streams in Hlist.
    rewrite bind_unfold in Hlist.
    destruct (get_available_streams fuel base_url hdrs w)
      as [[[[|stream l]|]|e|] w1]; cbn [length Nat.ltb Nat.leb] in Hlist.
    + rewrite bind_unfold, print_eq in Hlist. discriminate.
    + rewrite bind_unfold, print_eq, bind_unfold, for_each_print in Hlist.
      injection Hlist as <- _. discriminate.
    + rewrite bind_unfold, print_eq in Hlist. discriminate.
    + discriminate.
    + discriminate.
Qed.

Lemma lines_of_failed : forall rs,
  (forall r, In r rs -> status_code r <> 200%Z) -> lines_of_fetched rs = [].
Proof.
  induction rs as [|r rs IH]; intros Hfail; [reflexivity|].
  cbn [lines_of_fetched]. unfold fetched.
  destruct (Z.eqb_spec (status_code r) 200) as [E|_].
  - exfalso. apply (Hfail r); [now left|exact E].
  - apply IH. intros r' Hr'. apply Hfail. now right.
Qed.

Lemma standalone_main_same : forall fuel w,
  standalone_main fuel w
  = main_transfer fuel "export" (standalone_base_url ++ standalone_stream_name)
      "exported_stream.json" standalone_headers w.
Proof.
  intros fuel w. unfold standalone_main, main_transfer.
  change (String.eqb "export" "export") with true. cbv iota zeta.
  rewrite !bind_unfold. unfold standalone_get_stream_events, get_stream_events.
  rewrite standalone_reader_same.
  destruct (get_stream_events_loop fuel _ standalone_headers [] w)
    as [[[|event events]| |] w1]; reflexivity.
Qed.

(** X16.  The total the scripts print after an export is the number of
    entries the pages listed, not the number of events written: where
    every entry has a self-link, the file gets a line for each fetch
    that is answered with status 200 and the total counts them all, so
    that a run in which every fetch fails prints the full total over an
    empty file.  [export-stream.py] is the same run with its constants. *)
Theorem export_total_counts_the_entries :
  forall fuel stream_url file_name hdrs pages urls w,
    let events := concat (map pg_entries pages) in
    let reqs1 := page_requests hdrs pages in
    let w1 := advance (state_after (w_srv w) reqs1) reqs1 [] w in
    let reqs2 := entry_requests hdrs (rev urls) in
    let rs := responses (w_srv w1) reqs2 in
    extension file_name = ".json" \/ extension file_name = "" ->
    served is_200 hdrs (w_srv w) pages ->
    linked_from (JStr stream_url) pages ->
    pending (JStr stream_url) pages = None ->
    length pages <= fuel ->
    events <> [] ->
    map entry_url events = map Some urls ->
    Forall decodes rs ->
    main_transfer fuel "export" stream_url file_name hdrs w
    = (Ret tt,
       put_text (Abs file_name) (join (lines_of_fetched rs))
         (advance (state_after (w_srv w1) reqs2) (reqs1 ++ reqs2)
            [export_completed (length events)] w))
    /\ ((forall r, In r rs -> status_code r <> 200%Z) ->
        join (lines_of_fetched rs) = "")
    /\ (stream_url = (standalone_base_url ++ standalone_stream_name)%string ->
        file_name = "exported_stream.json" -> hdrs = standalone_headers ->
        standalone_main fuel w
        = main_transfer fuel "export" stream_url file_name hdrs w).
Proof.
  intros fuel stream_url file_name hdrs pages urls w events reqs1 w1 reqs2 rs
         Hext Hserved Hlinked Hpending Hfuel Hevents Hurls Hdec.
  split; [|split].
  - unfold main_transfer. change (String.eqb "export" "export") with true.
    cbv iota. rewrite bind_unfold.
    rewrite (reader_complete hdrs fuel (JStr stream_url) pages w
               Hserved Hlinked Hpending Hfuel).
    fold events. fold reqs1. fold w1.
    destruct events as [|event events'] eqn:E; [contradiction|].
    rewrite bind_unfold.
    assert (Hd : export_events (event :: events') file_name hdrs w1
                 = export_events_to_file (Abs file_name) (event :: events')
                     hdrs w1).
    { unfold export_events. cbv zeta.
      now rewrite (direct_extension _ Hext). }
    rewrite Hd.
    rewrite (export_with_self_links (Abs file_name) (event :: events') urls
               hdrs w1 I Hurls Hdec).
    fold reqs2. fold rs. rewrite print_eq. unfold export_completed.
    rewrite srv_put, <- put_advance. f_equal. f_equal.
    unfold w1. rewrite !advance_advance. cbn [w_srv advance app].
    now rewrite app_nil_r.
  - intros Hfail. now rewrite (lines_of_failed rs Hfail).
  - intros -> -> ->. apply standalone_main_same.
Qed.

(** X17.  The last statement of the script does not learn that the
    dispatcher turned the file down.  With a file name whose joined
    suffixes are none of the supported ones, the export has read the
    whole stream, writes nothing and still prints that it completed,
    with the total; the import sends nothing and prints that the
    import process completed. *)
Theorem unsupported_type_still_completes :
  forall fuel stream_url file_name hdrs w,
    let ext := extension file_name in
    ext <> ".json" -> ext <> "" -> ext <> ".zip" -> ext <> ".tar.xz" ->
    (forall events w1,
       get_stream_events fuel (JStr stream_url) hdrs w = (Ret events, w1) ->
       events <> [] ->
       main_transfer fuel "export" stream_url file_name hdrs w
       = (Ret tt,
          advance (w_srv w1) []
            [unsupported ext; export_completed (length events)] w1))
    /\ main_transfer fuel "import" stream_url file_name hdrs w
       = (Ret tt,
          advance (w_srv w) []
            [unsupported ext; "Import process completed."] w).
Proof.
  intros fuel stream_url file_name hdrs w ext H1 H2 H3 H4.
  assert (Hnone : archive_of_extension (extension file_name) = None).
  { unfold archive_of_extension. fold ext.
    destruct (String.eqb_spec ext ".zip"); [contradiction|].
    destruct (String.eqb_spec ext ".tar.xz"); [contradiction|reflexivity]. }
  split.
  - intros events w1 Hread Hevents.
    unfold main_transfer. change (String.eqb "export" "export") with true.
    cbv iota. rewrite bind_unfold, Hread.
    destruct events as [|event events']; [contradiction|].
    rewrite bind_unfold.
    rewrite (export_unsupported (event :: events') file_name hdrs w1 H1 H2
               Hnone).
    rewrite print_eq. cbn [w_srv advance]. fold ext.
    now rewrite advance_advance.
  - unfold main_transfer. change (String.eqb "import" "export") with false.
    change (String.eqb "import" "import") with true.
    cbv iota. rewrite bind_unfold.
    rewrite (import_unsupported file_name stream_url hdrs w H1 H2 Hnone).
    rewrite print_eq. cbn [w_srv advance]. fold ext.
    now rewrite advance_advance.
Qed.

(** X18.  When the request for the first page of the stream is not
    answered with status 200, both scripts print the failure and that
    no events were exported, and leave the files alone: the target is
    neither made nor emptied. *)
Theorem nothing_exported_leaves_the_target :
  forall fuel stream_url file_name hdrs w,
    let rq := GET stream_url hdrs in
    let r := snd (serve (w_srv w) rq) in
    stream_url <> "" ->
    status_code r <> 200%Z ->
    0 < fuel ->
    main_transfer fuel "export" stream_url file_name hdrs w
    = (Ret tt,
       advance (fst (serve (w_srv w) rq)) [rq]
         [page_failure r; nothing_exported] w)
    /\ (stream_url = (standalone_base_url ++ standalone_stream_name)%string ->
        hdrs = standalone_headers ->
        standalone_main fuel w
        = (Ret tt,
           advance (fst (serve (w_srv w) rq)) [rq]
             [page_failure r; nothing_exported] w)).
Proof.
  intros fuel stream_url file_name hdrs w rq r Hurl Hstatus Hfuel.
  assert (H : forall file_name,
             main_transfer fuel "export" stream_url file_name hdrs w
             = (Ret tt,
                advance (fst (serve (w_srv w) rq)) [rq]
                  [page_failure r; nothing_exported] w)).
  { intros f. unfold main_transfer.
    change (String.eqb "export" "export") with true.
    cbv iota. rewrite bind_unfold.
    rewrite (reader_until_failure hdrs fuel (JStr stream_url) [] stream_url w
               I I eq_refl Hurl Hstatus Hfuel).
    cbn [map concat page_requests state_after app].
    rewrite print_eq. cbn [w_srv advance]. fold rq. fold r.
    now rewrite advance_advance. }
  split; [apply H|].
  intros Hs ->. rewrite standalone_main_same, <- Hs. apply H.
Qed.

(** *** The console *)

Lemma kbind_unfold : forall (A B : Type) (c : K A) (k : A -> K B) lines w,
  kbind c k lines w =
  match c lines w with
  | (Returned a, lines', w') => k a lines' w'
  | (Raised e, lines', w') => (Raised e, lines', w')
  | (EOFError, lines', w') => (EOFError, lines', w')
  | (ValueError, lines', w') => (ValueError, lines', w')
  | (Unbounded, lines', w') => (Unbounded, lines', w')
  end.
Proof. reflexivity. Qed.

Lemma input_line : forall prompt line lines w,
  input prompt (line :: lines) w
  = (Returned line, lines, advance (w_srv w) [] [prompt] w).
Proof.
  intros. unfold input, advance. now rewrite app_nil_r.
Qed.

Lemma input_end : forall prompt w,
  input prompt [] w = (EOFError, [], advance (w_srv w) [] [prompt] w).
Proof.
  intros. unfold input, advance. now rewrite app_nil_r.
Qed.

Lemma run_print : forall line lines w,
  run (print line) lines w
  = (Returned tt, lines, advance (w_srv w) [] [line] w).
Proof. intros. unfold run. now rewrite print_eq. Qed.

Lemma select_mode_loop_known : forall fuel choice m lines w,
  mode_of choice = Some m ->
  select_mode_loop (Datatypes.S fuel) choice lines w = (Returned m, lines, w).
Proof.
  intros fuel choice m lines w Hm. cbn [select_mode_loop].
  unfold mode_of in Hm.
  destruct (String.eqb choice "i" || String.eqb choice "import").
  - now injection Hm as <-.
  - destruct (String.eqb choice "e" || String.eqb choice "export").
    + now injection Hm as <-.
    + discriminate.
Qed.

Lemma select_mode_loop_unknown : forall fuel choice lines w,
  mode_of choice = None ->
  select_mode_loop (Datatypes.S fuel) choice lines w
  = kbind (input mode_retry)
      (fun line => select_mode_loop fuel (py_lower (py_strip line))) lines w.
Proof.
  intros fuel choice lines w Hm. cbn [select_mode_loop].
  unfold mode_of in Hm.
  destruct (String.eqb choice "i" || String.eqb choice "import");
    [discriminate|].
  destruct (String.eqb choice "e" || String.eqb choice "export");
    [discriminate|reflexivity].
Qed.

Lemma select_mode_answers : forall skipped fuel prompt answer rest m w,
  Forall (fun l => mode_of (py_lower (py_strip l)) = None) skipped ->
  mode_of (py_lower (py_strip answer)) = Some m ->
  length skipped < fuel ->
  kbind (input prompt)
    (fun line => select_mode_loop fuel (py_lower (py_strip line)))
    (skipped ++ answer :: rest) w
  = (Returned m, rest,
     advance (w_srv w) [] (prompt :: repeat mode_retry (length skipped)) w).
Proof.
  induction skipped as [|l skipped IH];
    intros fuel prompt answer rest m w Hskipped Hm Hfuel.
  - cbn [app length repeat]. rewrite kbind_unfold, input_line.
    destruct fuel as [|fuel]; [cbn in Hfuel; lia|].
    now rewrite (select_mode_loop_known fuel _ m _ _ Hm).
  - inversion Hskipped as [|x xs Hl Hrest]; subst.
    cbn [app length repeat] in *. rewrite kbind_unfold, input_line.
    destruct fuel as [|fuel]; [lia|].
    rewrite (select_mode_loop_unknown fuel _ _ _ Hl).
    rewrite (IH fuel mode_retry answer rest m _ Hrest Hm) by lia.
    cbn [w_srv advance]. now rewrite advance_advance.
Qed.

Lemma select_mode_no_answer : forall lines fuel prompt w,
  Forall (fun l => mode_of (py_lower (py_strip l)) = None) lines ->
  length lines < fuel ->
  kbind (input prompt)
    (fun line => select_mode_loop fuel (py_lower (py_strip line))) lines w
  = (EOFError, [],
     advance (w_srv w) [] (prompt :: repeat mode_retry (length lines)) w).
Proof.
  induction lines as [|l lines IH]; intros fuel prompt w Hlines Hfuel.
  - cbn [length repeat]. now rewrite kbind_unfold, input_end.
  - inversion Hlines as [|x xs Hl Hrest]; subst.
    cbn [length repeat] in *. rewrite kbind_unfold, input_line.
    destruct fuel as [|fuel]; [lia|].
    rewrite (select_mode_loop_unknown fuel _ _ _ Hl).
    rewrite (IH fuel mode_retry _ Hrest) by lia.
    cbn [w_srv advance]. now rewrite advance_advance.
Qed.

(** X19.  [select_mode] returns the mode of the first answer that,
    stripped and put in lower case, is one of [i], [import], [e] and
    [export], and nothing but [import] or [export]; every answer before
    it is followed by the error prompt, and no line after it is read.
    When the input ends before such an answer, the function ends with
    the [EOFError] of [input]. *)
Theorem select_mode_takes_the_first_known_answer :
  forall fuel w,
    (forall skipped answer rest m,
       Forall (fun l => mode_of (py_lower (py_strip l)) = None) skipped ->
       mode_of (py_lower (py_strip answer)) = Some m ->
       length skipped < fuel ->
       select_mode fuel (skipped ++ answer :: rest) w
       = (Returned m, rest,
          advance (w_srv w) []
            (mode_prompt :: repeat mode_retry (length skipped)) w)
       /\ (m = "import" \/ m = "export"))
    /\ (forall lines,
          Forall (fun l => mode_of (py_lower (py_strip l)) = None) lines ->
          length lines < fuel ->
          select_mode fuel lines w
          = (EOFError, [],
             advance (w_srv w) []
               (mode_prompt :: repeat mode_retry (length lines)) w)).
Proof.
  intros fuel w. split.
  - intros skipped answer rest m Hskipped Hm Hfuel. split.
    + exact (select_mode_answers skipped fuel mode_prompt answer rest m w
               Hskipped Hm Hfuel).
    + unfold mode_of in Hm.
      destruct (String.eqb _ "i" || String.eqb _ "import");
        [injection Hm as <-; now left|].
      destruct (String.eqb _ "e" || String.eqb _ "export");
        [injection Hm as <-; now right|discriminate].
  - intros lines Hlines Hfuel.
    exact (select_mode_no_answer lines fuel mode_prompt w Hlines Hfuel).
Qed.

Lemma specify_stream_loop_taken : forall fuel stream lines w,
  rejection stream = None ->
  specify_stream_loop (Datatypes.S fuel) stream lines w
  = (Returned stream, lines, w).
Proof.
  intros fuel stream lines w Hr. cbn [specify_stream_loop].
  unfold rejection in Hr.
  destruct (String.eqb stream ""); [discriminate|].
  destruct (has_char "/" stream); [discriminate|reflexivity].
Qed.

Lemma specify_stream_loop_rejected : forall fuel stream prompt lines w,
  rejection stream = Some prompt ->
  specify_stream_loop (Datatypes.S fuel) stream lines w
  = kbind (input prompt) (specify_stream_loop fuel) lines w.
Proof.
  intros fuel stream prompt lines w Hr. cbn [specify_stream_loop].
  unfold rejection in Hr.
  destruct (String.eqb stream ""); [now injection Hr as <-|].
  destruct (has_char "/" stream); [now injection Hr as <-|discriminate].
Qed.

Lemma specify_stream_answers : forall skipped fuel prompt name rest w,
  Forall (fun l => rejection l <> None) skipped ->
  rejection name = None ->
  length skipped < fuel ->
  kbind (input prompt) (specify_stream_loop fuel) (skipped ++ name :: rest) w
  = (Returned name, rest,
     advance (w_srv w) [] (prompt :: rejections skipped) w).
Proof.
  induction skipped as [|l skipped IH];
    intros fuel prompt name rest w Hskipped Hname Hfuel.
  - cbn [app rejections]. rewrite kbind_unfold, input_line.
    destruct fuel as [|fuel]; [cbn in Hfuel; lia|].
    now rewrite (specify_stream_loop_taken fuel _ _ _ Hname).
  - inversion Hskipped as [|x xs Hl Hrest]; subst.
    cbn [app length rejections] in *. rewrite kbind_unfold, input_line.
    destruct fuel as [|fuel]; [lia|].
    destruct (rejection l) as [again|] eqn:El; [|contradiction].
    rewrite (specify_stream_loop_rejected fuel _ again _ _ El).
    rewrite (IH fuel again name rest _ Hrest Hname) by lia.
    cbn [w_srv advance]. now rewrite advance_advance.
Qed.

(** X20.  [specify_stream] returns the first line typed that is not
    empty and has no [/] in it, so a name it returns is never empty and
    never holds a [/]; every line before it is followed by the prompt
    that names its fault, and no line after it is read. *)
Theorem specify_stream_takes_the_first_valid_name :
  forall fuel skipped name rest w,
    Forall (fun l => rejection l <> None) skipped ->
    rejection name = None ->
    length skipped < fuel ->
    specify_stream fuel (skipped ++ name :: rest) w
    = (Returned name, rest,
       advance (w_srv w) [] (stream_prompt :: rejections skipped) w)
    /\ name <> "" /\ has_char "/" name = false
    /\ length (rejections skipped) = length skipped.
Proof.
  intros fuel skipped name rest w Hskipped Hname Hfuel.
  split; [|split; [|split]].
  - exact (specify_stream_answers skipped fuel stream_prompt name rest w
             Hskipped Hname Hfuel).
  - intros ->. discriminate.
  - unfold rejection in Hname. destruct (String.eqb name ""); [discriminate|].
    now destruct (has_char "/" name).
  - clear Hfuel. induction Hskipped as [|l skipped Hl _ IH]; [reflexivity|].
    cbn [rejections length]. destruct (rejection l); [|contradiction].
    cbn [length]. now rewrite IH.
Qed.

Lemma select_stream_loop_again : forall fuel streams choice lines w,
  not_a_position (length streams) choice ->
  select_stream_loop (Datatypes.S fuel) streams choice lines w
  = kbind (input (select_retry (length streams)))
      (select_stream_loop fuel streams) lines w.
Proof.
  intros fuel streams choice lines w Hnot. cbn [select_stream_loop].
  unfold not_a_position in Hnot. cbv zeta.
  destruct (py_int choice) as [number|]; [|reflexivity].
  destruct (Z.leb_spec 0 (number - 1)) as [H0|H0]; [|reflexivity].
  destruct (Z.ltb_spec (number - 1) (Z.of_nat (length streams))) as [H1|H1];
    [lia|reflexivity].
Qed.

Lemma select_stream_loop_picks : forall fuel streams choice number lines w,
  py_int choice = Some number ->
  (1 <= number <= Z.of_nat (length streams))%Z ->
  select_stream_loop (Datatypes.S fuel) streams choice lines w
  = (Returned (nth (Z.to_nat (number - 1)) streams ""), lines, w)
    /\ In (nth (Z.to_nat (number - 1)) streams "") streams.
Proof.
  intros fuel streams choice number lines w Hint Hrange.
  cbn [select_stream_loop]. cbv zeta. rewrite Hint.
  destruct (Z.leb_spec 0 (number - 1)) as [H0|H0]; [|lia].
  destruct (Z.ltb_spec (number - 1) (Z.of_nat (length streams))) as [H1|H1];
    [|lia].
  cbn [andb].
  assert (Hlt : Z.to_nat (number - 1) < length streams) by lia.
  split; [|now apply nth_In].
  destruct (nth_error streams (Z.to_nat (number - 1))) as [stream|] eqn:E.
  - now rewrite (nth_error_nth _ _ _ E).
  - apply nth_error_None in E. lia.
Qed.

Lemma select_stream_answers : forall skipped fuel streams prompt answer number
  rest w,
  Forall (not_a_position (length streams)) skipped ->
  py_int answer = Some number ->
  (1 <= number <= Z.of_nat (length streams))%Z ->
  length skipped < fuel ->
  kbind (input prompt) (select_stream_loop fuel streams)
    (skipped ++ answer :: rest) w
  = (Returned (nth (Z.to_nat (number - 1)) streams ""), rest,
     advance (w_srv w) []
       (prompt :: repeat (select_retry (length streams)) (length skipped)) w).
Proof.
  induction skipped as [|l skipped IH];
    intros fuel streams prompt answer number rest w Hskipped Hint Hrange Hfuel.
  - cbn [app length repeat]. rewrite kbind_unfold, input_line.
    destruct fuel as [|fuel]; [cbn in Hfuel; lia|].
    now rewrite (proj1 (select_stream_loop_picks fuel streams answer number
                          rest _ Hint Hrange)).
  - inversion Hskipped as [|x xs Hl Hrest]; subst.
    cbn [app length repeat] in *. rewrite kbind_unfold, input_line.
    destruct fuel as [|fuel]; [lia|].
    rewrite (select_stream_loop_again fuel streams l _ _ Hl).
    rewrite (IH fuel streams _ answer number rest _ Hrest Hint Hrange) by lia.
    cbn [w_srv advance]. now rewrite advance_advance.
Qed.

(** X21.  Once the streams are listed, [select_stream] returns the
    stream at the position of the first line typed that [int] reads as
    a number between 1 and the number of streams, so it returns one of
    the listed streams; every line before it is followed by the prompt
    that gives the range, and no line after it is read. *)
Theorem select_stream_returns_a_listed_stream :
  forall fuel base_url hdrs streams skipped answer number rest w w1,
    list_available_streams fuel base_url hdrs w = (Ret streams, w1) ->
    Forall (not_a_position (length streams)) skipped ->
    py_int answer = Some number ->
    (1 <= number <= Z.of_nat (length streams))%Z ->
    length skipped < fuel ->
    select_stream fuel base_url hdrs (skipped ++ answer :: rest) w
    = (Returned (nth (Z.to_nat (number - 1)) streams ""), rest,
       advance (w_srv w1) []
         (select_prompt
          :: repeat (select_retry (length streams)) (length skipped)) w1)
    /\ In (nth (Z.to_nat (number - 1)) streams "") streams.
Proof.
  intros fuel base_url hdrs streams skipped answer number rest w w1
         Hlist Hskipped Hint Hrange Hfuel.
  split.
  - unfold select_stream. rewrite kbind_unfold. unfold run at 1.
    rewrite Hlist.
    exact (select_stream_answers skipped fuel streams select_prompt answer
             number rest w1 Hskipped Hint Hrange Hfuel).
  - exact (proj2 (select_stream_loop_picks 0 streams answer number [] w
                    Hint Hrange)).
Qed.

Lemma validate_file_loop_step : forall fuel file_name mode,
  validate_file_loop (Datatypes.S fuel) file_name mode
  = let again := fun name => validate_file_loop fuel name mode in
    if String.eqb (extension file_name) "" then
      kbind (input (no_extension_warning file_name))
        (fun line =>
           let choice := py_lower (py_strip line) in
           if String.eqb choice "n" then kbind specify_file again
           else if negb (String.eqb choice "y" || String.eqb choice "") then
             kbind (run (print unknown_response))
               (fun _ => file_checks again file_name mode)
           else file_checks again file_name mode)
    else if negb (supported_name file_name) then
      kbind (run (print (type_not_supported (extension file_name))))
        (fun _ => kbind specify_file again)
    else file_checks again file_name mode.
Proof. reflexivity. Qed.

Lemma checked_after_output : forall mode w0 w name w',
  w_files w0 = w_files w -> w_sent w0 = w_sent w -> w_srv w0 = w_srv w ->
  checked mode w0 name w' -> checked mode w name w'.
Proof.
  intros mode w0 w name w' Hf Hs Hv (H1 & H2 & H3 & H4 & H5 & H6).
  unfold checked. rewrite <- Hf, <- Hs, <- Hv. repeat split; assumption.
Qed.

Ltac output_only :=
  cbn [advance w_files w_sent w_srv]; rewrite ?app_nil_r; reflexivity.

Ltac next_line H lines :=
  let line := fresh "line" in
  destruct lines as [|line lines];
  [rewrite input_end in H; discriminate|rewrite input_line in H].

Lemma file_checks_ok : forall again mode,
  (forall f lines w name lines' w',
     again f lines w = (Returned name, lines', w') -> checked mode w name w') ->
  forall file_name lines w name lines' w',
    extension file_name = "" \/ supported_name file_name = true ->
    file_checks again file_name mode lines w = (Returned name, lines', w') ->
    checked mode w name w'.
Proof.
  intros again mode Hagain file_name lines w name lines' w' Hext H.
  unfold file_checks in H.
  destruct (String.eqb_spec file_name "") as [->|Hname].
  - rewrite kbind_unfold, run_print, kbind_unfold in H. unfold specify_file in H.
    next_line H lines. apply Hagain in H.
    revert H. apply checked_after_output; output_only.
  - destruct (String.eqb_spec mode "import") as [->|Hmode].
    + rewrite kbind_unfold in H. unfold path_exists at 1 in H.
      destruct (assoc file_name (w_files w)) as [f|] eqn:Ea; cbn [negb] in H.
      * unfold kret in H. injection H as <- <- <-.
        unfold checked. repeat split; try assumption.
        left. split; [reflexivity|]. rewrite Ea. discriminate.
      * rewrite kbind_unfold, run_print, kbind_unfold in H.
        unfold specify_file in H. next_line H lines. apply Hagain in H.
        revert H. apply checked_after_output; output_only.
    + destruct (String.eqb_spec mode "export") as [->|Hmode'].
      * rewrite kbind_unfold in H. unfold path_exists at 1 in H.
        destruct (assoc file_name (w_files w)) as [f|] eqn:Ea.
        -- rewrite kbind_unfold in H. next_line H lines. cbv zeta in H.
           destruct (String.eqb (py_lower (py_strip line)) "y"
                     || String.eqb (py_lower (py_strip line)) "").
           ++ unfold kret in H. injection H as <- <- <-.
              unfold checked. repeat split; try assumption; try output_only.
              now right.
           ++ destruct (String.eqb (py_lower (py_strip line)) "n").
              ** rewrite kbind_unfold in H. unfold specify_file in H.
                 next_line H lines. apply Hagain in H.
                 revert H. apply checked_after_output; output_only.
              ** rewrite kbind_unfold, run_print in H. apply Hagain in H.
                 revert H. apply checked_after_output; output_only.
        -- unfold kret in H. injection H as <- <- <-.
           unfold checked. repeat split; try assumption. now right.
      * discriminate.
Qed.

Lemma validate_file_loop_ok : forall fuel mode file_name lines w name lines' w',
  validate_file_loop fuel file_name mode lines w = (Returned name, lines', w') ->
  checked mode w name w'.
Proof.
  induction fuel as [|fuel IH]; intros mode file_name lines w name lines' w' H;
    [discriminate|].
  rewrite validate_file_loop_step in H. cbv zeta in H.
  assert (Hagain : forall f lines w name lines' w',
             (fun name => validate_file_loop fuel name mode) f lines w
             = (Returned name, lines', w') -> checked mode w name w')
    by (intros f l0 w0 n0 l1 w1; apply IH).
  destruct (String.eqb_spec (extension file_name) "") as [Hext|Hext].
  - rewrite kbind_unfold in H. next_line H lines.
    destruct (String.eqb (py_lower (py_strip line)) "n").
    + rewrite kbind_unfold in H. unfold specify_file in H. next_line H lines.
      apply IH in H. revert H. apply checked_after_output; output_only.
    + destruct (negb (String.eqb (py_lower (py_strip line)) "y"
                      || String.eqb (py_lower (py_strip line)) "")).
      * rewrite kbind_unfold, run_print in H.
        apply (file_checks_ok _ mode Hagain) in H; [|now left].
        revert H. apply checked_after_output; output_only.
      * apply (file_checks_ok _ mode Hagain) in H; [|now left].
        revert H. apply checked_after_output; output_only.
  - destruct (supported_name file_name) eqn:Hs; cbn [negb] in H.
    + apply (file_checks_ok _ mode Hagain) in H; [exact H|now right].
    + rewrite kbind_unfold, run_print, kbind_unfold in H.
      unfold specify_file in H. next_line H lines.
      apply IH in H. revert H. apply checked_after_output; output_only.
Qed.

Lemma file_checks_ends : forall again mode fuel,
  (forall f lines w,
     length lines < fuel -> fst (fst (again f lines w)) <> Unbounded) ->
  forall file_name lines w,
    length lines <= fuel ->
    fst (fst (file_checks again file_name mode lines w)) <> Unbounded.
Proof.
  intros again mode fuel Hagain file_name lines w Hlen H.
  unfold file_checks in H.
  destruct (String.eqb file_name "").
  - rewrite kbind_unfold, run_print, kbind_unfold in H. unfold specify_file in H.
    next_line H lines. revert H. apply Hagain. cbn in Hlen. lia.
  - destruct (String.eqb mode "import").
    + rewrite kbind_unfold in H. unfold path_exists at 1 in H.
      destruct (assoc file_name (w_files w)); cbn [negb] in H;
        [discriminate|].
      rewrite kbind_unfold, run_print, kbind_unfold in H.
      unfold specify_file in H. next_line H lines.
      revert H. apply Hagain. cbn in Hlen. lia.
    + destruct (String.eqb mode "export"); [|discriminate].
      rewrite kbind_unfold in H. unfold path_exists at 1 in H.
      destruct (assoc file_name (w_files w)); [|discriminate].
      rewrite kbind_unfold in H. next_line H lines. cbv zeta in H.
      destruct (String.eqb (py_lower (py_strip line)) "y"
                || String.eqb (py_lower (py_strip line)) "");
        [discriminate|].
      destruct (String.eqb (py_lower (py_strip line)) "n").
      * rewrite kbind_unfold in H. unfold specify_file in H.
        next_line H lines. revert H. apply Hagain. cbn in Hlen. lia.
      * rewrite kbind_unfold, run_print in H.
        revert H. apply Hagain. cbn in Hlen. lia.
Qed.

Lemma validate_file_loop_ends : forall fuel mode file_name lines w,
  length lines < fuel ->
  fst (fst (validate_file_loop fuel file_name mode lines w)) <> Unbounded.
Proof.
  induction fuel as [|fuel IH]; intros mode file_name lines w Hlen H; [lia|].
  rewrite validate_file_loop_step in H. cbv zeta in H.
  assert (Hagain : forall f lines w,
             length lines < fuel ->
             fst (fst ((fun name => validate_file_loop fuel name mode)
                         f lines w)) <> Unbounded)
    by (intros f l0 w0; apply IH).
  destruct (String.eqb (extension file_name) "").
  - rewrite kbind_unfold in H. next_line H lines. cbn in Hlen.
    destruct (String.eqb (py_lower (py_strip line)) "n").
    + rewrite kbind_unfold in H. unfold specify_file in H.
      next_line H lines. revert H. apply IH. cbn in Hlen. lia.
    + destruct (negb (String.eqb (py_lower (py_strip line)) "y"
                      || String.eqb (py_lower (py_strip line)) "")).
      * rewrite kbind_unfold, run_print in H.
        revert H. apply (file_checks_ends _ mode fuel Hagain). lia.
      * revert H. apply (file_checks_ends _ mode fuel Hagain). lia.
  - destruct (supported_name file_name); cbn [negb] in H.
    + revert H. apply (file_checks_ends _ mode fuel Hagain). lia.
    + rewrite kbind_unfold, run_print, kbind_unfold in H.
      unfold specify_file in H. next_line H lines.
      revert H. apply IH. cbn in Hlen. lia.
Qed.

(** X22.  A name [validate_file] returns has passed its checks, by
    whatever way through the prompts: it is not empty; it has no
    extension, or ends in [.json], [.tar.xz] or [.zip]; in import mode
    it names an existing file, and the mode is import or export.  The
    function changes no file and sends no request.  Every round of its
    loop that does not return reads a line, so with more rounds than
    there are lines to read the loop never runs out. *)
Theorem validate_file_returns_a_checked_name :
  forall fuel file_name mode lines w,
    (forall name lines' w',
       validate_file fuel file_name mode lines w = (Returned name, lines', w') ->
       name <> ""
       /\ (extension name = "" \/ supported_name name = true)
       /\ ((mode = "import" /\ assoc name (w_files w) <> None)
           \/ mode = "export")
       /\ w_files w' = w_files w /\ w_sent w' = w_sent w
       /\ w_srv w' = w_srv w)
    /\ (length lines < fuel ->
        fst (fst (validate_file fuel file_name mode lines w)) <> Unbounded).
Proof.
  intros fuel file_name mode lines w. split.
  - intros name lines' w' H.
    change (checked mode w name w'). unfold validate_file in H.
    rewrite kbind_unfold in H.
    destruct file_name as [given|].
    + destruct (String.eqb given "").
      * unfold specify_file in H. next_line H lines.
        apply validate_file_loop_ok in H.
        revert H. apply checked_after_output; output_only.
      * unfold kret at 1 in H. now apply validate_file_loop_ok in H.
    + unfold specify_file in H. next_line H lines.
      apply validate_file_loop_ok in H.
      revert H. apply checked_after_output; output_only.
  - intros Hlen H. unfold validate_file in H. rewrite kbind_unfold in H.
    destruct file_name as [given|].
    + destruct (String.eqb given "").
      * unfold specify_file in H. next_line H lines.
        revert H. apply validate_file_loop_ends. cbn in Hlen. lia.
      * unfold kret at 1 in H. revert H. now apply validate_file_loop_ends.
    + unfold specify_file in H. next_line H lines.
      revert H. apply validate_file_loop_ends. cbn in Hlen. lia.
Qed.

(** X23.  The two prompts of [validate_file] take an answer that is
    none of [y], [n] and the empty line differently.  To the warning
    about a missing extension it counts as a yes: the error is printed
    and the name is checked on, and returned if it passes.  To the
    warning about an existing file it does not: the error is printed
    and the question is asked again. *)
Theorem validate_file_takes_an_unknown_answer_for_yes :
  forall fuel file_name answer w,
    let choice := py_lower (py_strip answer) in
    file_name <> "" ->
    choice <> "n" -> choice <> "y" -> choice <> "" ->
    (forall rest,
       extension file_name = "" ->
       assoc file_name (w_files w) = None ->
       validate_file (Datatypes.S fuel) (Some file_name) "export"
         (answer :: rest) w
       = (Returned file_name, rest,
          advance (w_srv w) []
            [no_extension_warning file_name; unknown_response] w))
    /\ (forall confirm rest,
          extension file_name <> "" ->
          supported_name file_name = true ->
          assoc file_name (w_files w) <> None ->
          py_lower (py_strip confirm) = "y" ->
          validate_file (Datatypes.S (Datatypes.S fuel)) (Some file_name)
            "export" (answer :: confirm :: rest) w
          = (Returned file_name, rest,
             advance (w_srv w) []
               [overwrite_warning file_name; unknown_response;
                overwrite_warning file_name] w)).
Proof.
  intros fuel file_name answer w choice Hname Hn Hy He.
  assert (En : String.eqb choice "n" = false) by now apply String.eqb_neq.
  assert (Ey : String.eqb choice "y" = false) by now apply String.eqb_neq.
  assert (Ee : String.eqb choice "" = false) by now apply String.eqb_neq.
  assert (Ename : String.eqb file_name "" = false) by now apply String.eqb_neq.
  split.
  - intros rest Hext Hfree. unfold validate_file.
    rewrite kbind_unfold, Ename. unfold kret at 1.
    rewrite validate_file_loop_step. cbv zeta.
    rewrite Hext. change (String.eqb "" "") with true. cbv iota.
    rewrite kbind_unfold, input_line. fold choice. rewrite En, Ey, Ee.
    cbn [orb negb]. rewrite kbind_unfold, run_print.
    unfold file_checks. rewrite Ename.
    change (String.eqb "export" "import") with false.
    change (String.eqb "export" "export") with true. cbv iota.
    rewrite kbind_unfold. unfold path_exists at 1.
    cbn [advance w_files]. rewrite Hfree. unfold kret.
    now rewrite advance_advance.
  - intros confirm rest Hext Hs Hthere Hconfirm. unfold validate_file.
    rewrite kbind_unfold, Ename. unfold kret at 1.
    assert (Eext : String.eqb (extension file_name) "" = false)
      by now apply String.eqb_neq.
    assert (Hround : forall fuel' lines w0,
               assoc file_name (w_files w0) <> None ->
               validate_file_loop (Datatypes.S fuel') file_name "export"
                 lines w0
               = kbind (input (overwrite_warning file_name))
                   (fun line =>
                      let choice := py_lower (py_strip line) in
                      if String.eqb choice "y" || String.eqb choice "" then
                        kret file_name
                      else if String.eqb choice "n" then
                        kbind specify_file
                          (fun name => validate_file_loop fuel' name "export")
                      else
                        kbind (run (print unknown_response))
                          (fun _ =>
                             validate_file_loop fuel' file_name "export"))
                   lines w0).
    { intros fuel' lines w0 Hw0. rewrite validate_file_loop_step. cbv zeta.
      rewrite Eext, Hs. cbn [negb]. unfold file_checks. rewrite Ename.
      change (String.eqb "export" "import") with false.
      change (String.eqb "export" "export") with true. cbv iota.
      rewrite kbind_unfold. unfold path_exists at 1.
      destruct (assoc file_name (w_files w0)); [reflexivity|contradiction]. }
    rewrite Hround by exact Hthere.
    rewrite kbind_unfold, input_line. cbv zeta. fold choice.
    rewrite Ey, Ee, En. cbn [orb]. rewrite kbind_unfold, run_print.
    rewrite Hround by (cbn [advance w_files]; exact Hthere).
    rewrite kbind_unfold, input_line. cbv zeta. rewrite Hconfirm.
    change (String.eqb "y" "y") with true. cbn [orb]. unfold kret.
    now rewrite !advance_advance.
Qed.

Lemma index_not_listed : forall fuel base_url hdrs w w1,
  run_projection fuel base_url "$streams" w = (Ret tt, w1) ->
  let rq := GET (streams_url base_url) hdrs in
  let r := snd (serve (w_srv w1) rq) in
  status_code r <> 200%Z ->
  get_available_streams fuel base_url hdrs w
  = (Ret None, advance (fst (serve (w_srv w1) rq)) [rq] [list_failure r] w1).
Proof.
  intros fuel base_url hdrs w w1 Hrun rq r Hr.
  unfold get_available_streams. rewrite bind_unfold, Hrun. cbv zeta.
  unfold requests_get. rewrite bind_unfold, send_eq.
  unfold streams_url in rq. fold rq. fold r.
  destruct (Z.eqb_spec (status_code r) 200) as [|_]; [contradiction|].
  rewrite bind_unfold, print_eq. unfold ret, list_failure.
  cbn [w_srv advance]. now rewrite advance_advance.
Qed.

(** X24.  When the index of streams is not served with status 200,
    [get_available_streams] prints the failure and returns [None].
    Export mode then ends in [select_stream] with the message that no
    streams are available and an exit; import mode ends in
    [validate_stream] with the [TypeError] of [stream in None], before
    any question is asked. *)
Theorem index_failure_ends_both_modes :
  forall fuel base_url hdrs stream stream_url lines w w1,
    run_projection fuel base_url "$streams" w = (Ret tt, w1) ->
    let rq := GET (streams_url base_url) hdrs in
    let r := snd (serve (w_srv w1) rq) in
    let w2 := advance (fst (serve (w_srv w1) rq)) [rq] [list_failure r] w1 in
    status_code r <> 200%Z ->
    0 < fuel ->
    get_available_streams fuel base_url hdrs w = (Ret None, w2)
    /\ select_stream fuel base_url hdrs lines w
       = (Raised SystemExit, lines,
          advance (w_srv w2) [] [no_streams_error] w2)
    /\ validate_stream fuel stream base_url stream_url hdrs lines w
       = (Raised TypeError, lines, w2).
Proof.
  intros fuel base_url hdrs stream stream_url lines w w1 Hrun rq r w2 Hr Hfuel.
  pose proof (index_not_listed fuel base_url hdrs w w1 Hrun Hr) as Hget.
  cbv zeta in Hget. fold rq in Hget. fold r in Hget. fold w2 in Hget.
  split; [exact Hget|split].
  - unfold select_stream. rewrite kbind_unfold. unfold run at 1.
    unfold list_available_streams. rewrite bind_unfold, Hget.
    now rewrite bind_unfold, print_eq.
  - unfold validate_stream. rewrite kbind_unfold. unfold run at 1.
    rewrite Hget. destruct fuel as [|fuel]; [lia|]. reflexivity.
Qed.

(** X25.  [validate_stream] takes a name that is not in the index of
    streams without a question.  A name that is in the index is
    returned only after the answer [y]; after [n] or an empty line a
    new name is asked for, and that name is looked up in the index in
    its turn. *)
Theorem validate_stream_asks_before_appending :
  forall fuel stream base_url stream_url hdrs names w w1,
    get_available_streams fuel base_url hdrs w = (Ret (Some names), w1) ->
    (forall lines,
       existsb (String.eqb stream) names = false ->
       0 < fuel ->
       validate_stream fuel stream base_url stream_url hdrs lines w
       = (Returned stream, lines, w1))
    /\ (forall answer rest,
          existsb (String.eqb stream) names = true ->
          py_lower (py_strip answer) = "y" ->
          0 < fuel ->
          validate_stream fuel stream base_url stream_url hdrs
            (answer :: rest) w
          = (Returned stream, rest,
             advance (w_srv w1) [] [append_warning] w1))
    /\ (forall answer other rest,
          existsb (String.eqb stream) names = true ->
          py_lower (py_strip answer) = "n" \/ py_lower (py_strip answer) = "" ->
          rejection other = None ->
          existsb (String.eqb other) names = false ->
          1 < fuel ->
          validate_stream fuel stream base_url stream_url hdrs
            (answer :: other :: rest) w
          = (Returned other, rest,
             advance (w_srv w1) [] [append_warning; stream_prompt] w1)).
Proof.
  intros fuel stream base_url stream_url hdrs names w w1 Hget.
  assert (Hstart : forall lines,
             validate_stream fuel stream base_url stream_url hdrs lines w
             = validate_stream_loop fuel (Some names) stream lines w1).
  { intros lines. unfold validate_stream. rewrite kbind_unfold.
    unfold run at 1. now rewrite Hget. }
  split; [|split].
  - intros lines Hnew Hfuel. rewrite Hstart.
    destruct fuel as [|fuel]; [lia|]. cbn [validate_stream_loop].
    now rewrite Hnew.
  - intros answer rest Hold Hyes Hfuel. rewrite Hstart.
    destruct fuel as [|fuel]; [lia|]. cbn [validate_stream_loop].
    rewrite Hold, kbind_unfold. fold append_warning. rewrite input_line.
    cbv zeta. rewrite Hyes. reflexivity.
  - intros answer other rest Hold Hno Hother Hnew Hfuel. rewrite Hstart.
    destruct fuel as [|[|fuel]]; [lia|lia|]. cbn [validate_stream_loop].
    rewrite Hold, kbind_unfold. fold append_warning. rewrite input_line.
    cbv zeta.
    assert (E : String.eqb (py_lower (py_strip answer)) "n"
                || String.eqb (py_lower (py_strip answer)) "" = true)
      by (destruct Hno as [-> | ->]; reflexivity).
    rewrite E, kbind_unfold. unfold specify_stream. fold stream_prompt.
    rewrite (specify_stream_answers [] (Datatypes.S fuel) stream_prompt other
               rest _ (Forall_nil _) Hother) by (cbn; lia).
    cbn [rejections w_srv advance]. rewrite Hnew.
    unfold kret. now rewrite advance_advance.
Qed.

(** *** More on archives *)

Lemma process_import_dir_single : forall root stream_url hdrs t name w,
  w_tmp w = Some t ->
  json_files t = [name] ->
  process_import_dir root stream_url hdrs w
  = import_events (InTmp (root ++ [name])) stream_url hdrs w.
Proof.
  intros root stream_url hdrs t name w Htmp Hjson.
  unfold process_import_dir. rewrite bind_unfold.
  unfold listdir_tmp. rewrite Htmp. fold (json_files t). rewrite Hjson.
  cbn [length Nat.ltb Nat.leb Nat.eqb].
  unfold ret at 1. rewrite bind_unfold. unfold ret at 1.
  rewrite bind_unfold. cbn [for_each]. rewrite bind_unfold.
  destruct (import_events (InTmp (root ++ [name])) stream_url hdrs w)
    as [[[]| |] w2]; reflexivity.
Qed.

(** X26.  The import looks for the [.json] file of the archive's top
    level in every directory [os.walk] comes to.  With an archive that
    holds, beside its one [.json] file, a directory without a file of
    that name, the records of the file are appended and counted, and
    the import then ends with [FileNotFoundError]. *)
Theorem import_fails_in_a_sub_directory :
  forall filename stream_url hdrs k name c d sub w,
    let members := [(name, File c); (d, Dir sub)] in
    let results := snd (replay stream_url hdrs (w_srv w) (file_lines c)) in
    archive_of_extension (extension filename) = Some k ->
    assoc filename (w_files w) = Some (archive k members) ->
    endswith name ".json" = true ->
    endswith d ".json" = false ->
    assoc name sub = None ->
    Forall record_line (file_lines c) ->
    process_import_file filename stream_url hdrs w
    = (Raise FileNotFoundError,
       set_tmp None
         (advance (state_after (w_srv w) (posted results)) (posted results)
            ([extracting filename; extracted filename] ++ messages results
             ++ [report (successes results) (failures results)]) w))
    /\ posted results
       = map (append_request stream_url hdrs) (records_of (file_lines c)).
Proof.
  intros filename stream_url hdrs k name c d sub w members results
         Hk Hfile Hname Hd Hsub Hlines.
  split; [|apply (replay_record_lines stream_url hdrs _ (w_srv w) Hlines)].
  assert (Hnd : String.eqb name d = false).
  { destruct (String.eqb_spec name d) as [E|]; [|reflexivity].
    rewrite E in Hname. congruence. }
  rewrite (process_import_archive filename stream_url hdrs k w Hk).
  unfold with_temporary_directory.
  rewrite bind_unfold, print_eq, bind_unfold.
  unfold extractall at 1. cbn [w_files advance set_tmp]. rewrite Hfile.
  assert (Hwalk : exists dirs files rest,
             os_walk members = ([], [d], [name]) :: ([d], dirs, files) :: rest).
  { unfold os_walk, members. cbn. eauto. }
  destruct Hwalk as (dirs & files & rest & Hwalk).
  assert (Hjson : json_files members = [name]).
  { unfold json_files, members. cbn [listdir map fst filter].
    now rewrite Hname, Hd. }
  assert (Hbody : forall w1,
    w_tmp w1 = Some members ->
    w_srv w1 = w_srv w ->
    (dirs0 <- walk_tmp ;;
     for_each dirs0 (fun rdf =>
       process_import_dir (fst (fst rdf)) stream_url hdrs)) w1
    = (Raise FileNotFoundError,
       advance (state_after (w_srv w) (posted results)) (posted results)
         (messages results ++ [report (successes results) (failures results)])
         w1)).
  { intros w1 Htmp Hsrv. rewrite bind_unfold. unfold walk_tmp.
    rewrite Htmp, Hwalk. cbn [for_each fst]. rewrite bind_unfold.
    rewrite (process_import_dir_single [] stream_url hdrs members name w1
               Htmp Hjson).
    cbn [app].
    assert (Hc : content_at (InTmp [name]) w1 = Ret c).
    { cbn [content_at]. rewrite Htmp. unfold members. cbn [tree_get assoc].
      now rewrite String.eqb_refl. }
    rewrite (import_record_stream (InTmp [name]) stream_url hdrs c w1 Hc
               Hlines).
    rewrite Hsrv. fold results. rewrite bind_unfold.
    set (w2 := advance _ _ _ w1).
    assert (Htmp2 : w_tmp w2 = Some members) by exact Htmp.
    rewrite (process_import_dir_single [d] stream_url hdrs members name w2
               Htmp2 Hjson).
    cbn [app]. unfold import_events. rewrite bind_unfold. unfold read_lines.
    cbn [content_at]. rewrite Htmp2. unfold members. cbn [tree_get assoc].
    rewrite Hnd, String.eqb_refl, Hsub. reflexivity. }
  destruct k; cbn [archive]; rewrite bind_unfold, print_eq;
    rewrite Hbody by reflexivity;
    destruct w as [s sent fs tmp out]; unfold advance, set_tmp; cbn;
    rewrite <- !app_assoc; reflexivity.
Qed.

Lemma validate_file_at_once : forall fuel file_name mode lines w,
  file_name <> "" ->
  extension file_name <> "" ->
  supported_name file_name = true ->
  (mode = "export" /\ assoc file_name (w_files w) = None)
  \/ (mode = "import" /\ assoc file_name (w_files w) <> None) ->
  validate_file (Datatypes.S fuel) (Some file_name) mode lines w
  = (Returned file_name, lines, w).
Proof.
  intros fuel file_name mode lines w Hname Hext Hs Hmode.
  assert (Ename : String.eqb file_name "" = false) by now apply String.eqb_neq.
  assert (Eext : String.eqb (extension file_name) "" = false)
    by now apply String.eqb_neq.
  unfold validate_file. rewrite kbind_unfold, Ename. unfold kret at 1.
  rewrite validate_file_loop_step. cbv zeta. rewrite Eext, Hs. cbn [negb].
  unfold file_checks. rewrite Ename.
  destruct Hmode as [[-> Hfree] | [-> Hthere]].
  - change (String.eqb "export" "import") with false.
    change (String.eqb "export" "export") with true. cbv iota.
    rewrite kbind_unfold. unfold path_exists at 1. now rewrite Hfree.
  - change (String.eqb "import" "import") with true. cbv iota.
    rewrite kbind_unfold. unfold path_exists at 1.
    destruct (assoc file_name (w_files w)); [reflexivity|contradiction].
Qed.

(** X27.  With the mode, a stream name and a file name that passes
    [validate_file] on the command line, the script asks nothing and
    sends nothing before the transfer, and the transfer is all it
    does.  The stream name is used as it is given: unlike a name that
    is typed in, it is not looked up in the index of streams, and it
    may hold a [/]. *)
Theorem command_line_is_taken_as_given :
  forall fuel address mode stream_name file_name hdrs lines w,
    (mode = "export" /\ hdrs = export_headers
     /\ assoc file_name (w_files w) = None)
    \/ (mode = "import" /\ hdrs = import_headers
        /\ assoc file_name (w_files w) <> None) ->
    stream_name <> "" ->
    file_name <> "" ->
    extension file_name <> "" ->
    supported_name file_name = true ->
    0 < fuel ->
    main fuel
      (mkArguments (Some mode) (Some stream_name) address (Some file_name))
      lines w
    = run (main_transfer fuel mode (address ++ "/streams/" ++ stream_name)
             (expanduser file_name) hdrs) lines w.
Proof.
  intros fuel address mode stream_name file_name hdrs lines w Hmode Hstream
         Hname Hext Hs Hfuel.
  assert (Estream : String.eqb stream_name "" = false)
    by now apply String.eqb_neq.
  destruct fuel as [|fuel]; [lia|].
  unfold main. cbv zeta. cbn [arg_mode arg_stream_name arg_address arg_filename
                              given str_optional].
  rewrite Estream. cbn [negb].
  destruct Hmode as [(-> & -> & Hfree) | (-> & -> & Hthere)].
  - change (String.eqb "export" "") with false. cbn [negb].
    rewrite kbind_unfold. unfold kret at 1. rewrite kbind_unfold.
    unfold kret at 1. rewrite kbind_unfold.
    rewrite (validate_file_at_once fuel file_name "export" lines w Hname Hext
               Hs (or_introl (conj eq_refl Hfree))).
    now rewrite string_app_assoc.
  - change (String.eqb "import" "") with false. cbn [negb].
    rewrite kbind_unfold. unfold kret at 1. rewrite kbind_unfold.
    unfold kret at 1. rewrite kbind_unfold.
    rewrite (validate_file_at_once fuel file_name "import" lines w Hname Hext
               Hs (or_intror (conj eq_refl Hthere))).
    now rewrite string_app_assoc.
Qed.

End Pipeline.


(** ** The properties at work on the small stream *)

(** C2 at work: the two pages of the small stream are read in full, and
    behind the lossy store the reader stops with the entries of the
    first page. *)
Lemma pagination_witness :
  let w := mkWorld unit tt [] [] None [] in
  let page1 := mkPage "/streams/s" [entry_b] (Some (JStr "/streams/s/page2")) in
  let page2 := mkPage "/streams/s/page2" [entry_a] None in
  (served unit (routes demo_table) is_200 [] tt [page1; page2]
   /\ linked_from (JStr "/streams/s") [page1; page2]
   /\ get_stream_events unit (routes demo_table) 2 (JStr "/streams/s") [] w
      = (Ret [entry_b; entry_a],
         mkWorld unit tt [GET "/streams/s" []; GET "/streams/s/page2" []]
                 [] None []))
  /\
  (served unit (routes lossy_table) is_200 [] tt [page1]
   /\ linked_from (JStr "/streams/s") [page1]
   /\ get_stream_events unit (routes lossy_table) 2 (JStr "/streams/s") [] w
      = (Ret [entry_b],
         mkWorld unit tt [GET "/streams/s" []; GET "/streams/s/page2" []]
                 [] None ["Failed to fetch stream page. Status code: 503"])).
Proof.
  intros w page1 page2.
  assert (Hs : served unit (routes demo_table) is_200 [] tt [page1; page2])
    by (cbn; repeat split; discriminate).
  assert (Hl : linked_from (JStr "/streams/s") [page1; page2])
    by (cbn; auto).
  assert (Hs' : served unit (routes lossy_table) is_200 [] tt [page1])
    by (cbn; repeat split; discriminate).
  assert (Hl' : linked_from (JStr "/streams/s") [page1]) by (cbn; auto).
  split; (split; [assumption|split; [assumption|]]).
  - exact (proj1 (pagination_returns_the_pages unit (routes demo_table) []
                    2 (JStr "/streams/s") [page1; page2] w Hs Hl)
                 eq_refl (le_n 2)).
  - refine (proj1 (proj2 (pagination_returns_the_pages unit
                            (routes lossy_table) [] 2 (JStr "/streams/s")
                            [page1] w Hs' Hl'))
                  "/streams/s/page2" eq_refl _ _ (le_n 2)).
    + discriminate.
    + vm_compute. discriminate.
Defined.

(** The claim C2 makes for every 2xx status fails at 203: the page is
    served with a 2xx status, it is the whole chain, and the reader
    returns no entry of it. *)
Lemma pagination_2xx_counterexample :
  let w := mkWorld unit tt [] [] None [] in
  let page1 := mkPage "/streams/s" [entry_a] None in
  served unit (routes proxy_table) is_2xx [] tt [page1]
  /\ linked_from (JStr "/streams/s") [page1]
  /\ pending (JStr "/streams/s") [page1] = None
  /\ fst (get_stream_events unit (routes proxy_table) 5 (JStr "/streams/s") [] w)
     = Ret []
  /\ concat (map pg_entries [page1]) <> [].
Proof.
  cbn. repeat split; discriminate.
Qed.


(** C7 at work: behind the lossy store the fetch of [b] is answered
    with 410; the export asks for both events, writes the line of [a]
    alone, and returns normally. *)
Lemma export_drop_witness :
  let w := mkWorld unit tt [] [] None [] in
  let events := [entry_b; entry_a] in
  let urls := ["/streams/s/1"; "/streams/s/0"] in
  ready unit (Abs "out.json") w
  /\ map entry_url events = map Some urls
  /\ Forall decodes
       (responses unit (routes lossy_table) tt (entry_requests [] (rev urls)))
  /\ export_events_to_file unit (routes lossy_table) demo_dumps
       (Abs "out.json") events [] w
     = (Ret tt,
        mkWorld unit tt [GET "/streams/s/0" []; GET "/streams/s/1" []]
          [("out.json", Text (line_of demo_dumps event_a))] None []).
Proof.
  intros w events urls.
  assert (Hd : Forall decodes
                 (responses unit (routes lossy_table) tt
                    (entry_requests [] (rev urls))))
    by (repeat constructor; vm_compute; discriminate).
  split; [exact I|split; [reflexivity|split; [exact Hd|]]].
  exact (proj1 (export_drops_failed_fetches unit (routes lossy_table)
                  demo_dumps (Abs "out.json") events urls [] w
                  I eq_refl Hd)).
Defined.

(** C3 at work: the store lists [b] before [a]; the file holds the line
    of [a], then the line of [b], and they are read back in that
    order. *)
Lemma export_order_witness :
  let w := mkWorld unit tt [] [] None [] in
  let events := [entry_b; entry_a] in
  let urls := ["/streams/s/1"; "/streams/s/0"] in
  let bodies := [event_b; event_a] in
  let content := (line_of demo_dumps event_a ++ line_of demo_dumps event_b)%string in
  map entry_url events = map Some urls
  /\ map fetched (responses unit (routes demo_table) tt
                    (entry_requests [] (rev urls)))
     = map Some (rev bodies)
  /\ Forall (fun b => one_line (demo_dumps b) = true) bodies
  /\ Forall (fun b => demo_codec (line_of demo_dumps b) = inr b) bodies
  /\ export_events_to_file unit (routes demo_table) demo_dumps
       (Abs "out.json") events [] w
     = (Ret tt,
        mkWorld unit tt [GET "/streams/s/0" []; GET "/streams/s/1" []]
          [("out.json", Text content)] None [])
  /\ map demo_codec (file_lines content) = [inr event_a; inr event_b].
Proof.
  intros w events urls bodies content.
  assert (Hone : Forall (fun b => one_line (demo_dumps b) = true) bodies)
    by (repeat constructor).
  assert (Hcodec : Forall (fun b => demo_codec (line_of demo_dumps b) = inr b)
                     bodies)
    by (repeat constructor).
  pose proof (export_writes_oldest_first unit (routes demo_table) demo_dumps
                demo_codec (Abs "out.json") events urls bodies [] w
                I eq_refl eq_refl) as H.
  split; [reflexivity|split; [reflexivity|]].
  split; [exact Hone|split; [exact Hcodec|split]].
  - exact (proj1 H).
  - exact (proj2 (proj2 (proj2 H) Hone) Hcodec).
Defined.






(** C9 at work: an index of two streams, behind a projection that
    takes two polls. *)
Lemma stream_names_witness :
  let titles := ["0@orders"; "0@users"] in
  let w := mkWorld (list response) (index_script titles) [] [] None [] in
  fst (run_projection (list response) scripted 2 "http://es" "$streams" w)
  = Ret tt
  /\ fst (get_available_streams (list response) scripted 2 "http://es" [] w)
     = Ret (Some ["orders"; "users"]).
Proof.
  intros titles w. split; [reflexivity|].
  pose proof (stream_names_drop_the_token (list response) scripted 2
                "http://es" []
                (JObj [("entries",
                        JArr (map (fun t => demo_entry t "/streams/x") titles))])
                (map (fun t => demo_entry t "/streams/x") titles) titles w
                (snd (run_projection (list response) scripted 2 "http://es"
                        "$streams" w))
                eq_refl eq_refl eq_refl eq_refl eq_refl) as H.
  now rewrite (proj1 H).
Defined.

(** ** Where the specification says more than the code does *)




(** The claim C9 makes for every entry fails for a title that has the
    token after its first character: the name is [ab], which is not
    what is left of [a0@b] once a prefix is taken away. *)
Lemma token_inside_counterexample :
  let w := mkWorld (list response) (index_script ["a0@b"]) [] [] None [] in
  fst (get_available_streams (list response) scripted 2 "http://es" [] w)
  = Ret (Some ["ab"])
  /\ (forall prefix : string, (prefix ++ "ab")%string <> "a0@b").
Proof.
  split; [reflexivity|].
  intros [|a [|b [|c p]]] H; cbn in H; try discriminate H.
  destruct p as [|d [|e p]]; cbn in H; discriminate H.
Qed.

(** ** Further properties at work *)

(** X2 at work: a page that names itself as the next one. *)
Lemma reader_cycle_witness :
  let table := [("/streams/s", ok_json (demo_page [entry_a] (Some "/streams/s")))] in
  let w := mkWorld unit tt [] [] None [] in
  (forall s : unit,
     status_code (snd (routes table s (GET "/streams/s" []))) = 200%Z
     /\ body_json (snd (routes table s (GET "/streams/s" [])))
        = Some (demo_page [entry_a] (Some "/streams/s")))
  /\ fst (get_stream_events unit (routes table) 25 (JStr "/streams/s") [] w)
     = Diverge.
Proof.
  intros table w.
  assert (Hserve : forall s : unit,
             status_code (snd (routes table s (GET "/streams/s" []))) = 200%Z
             /\ body_json (snd (routes table s (GET "/streams/s" [])))
                = Some (demo_page [entry_a] (Some "/streams/s")))
    by (intros []; split; reflexivity).
  split; [exact Hserve|].
  refine (proj1 (reader_never_leaves_a_cycle unit (routes table) []
                   "/streams/s" (demo_page [entry_a] (Some "/streams/s"))
                   [entry_a] 25 w _ Hserve eq_refl eq_refl)).
  discriminate.
Defined.

(** X3 at work: the [next] link of the page has an empty [uri]. *)
Lemma reader_empty_uri_witness :
  let table := [("/streams/s", ok_json (demo_page [entry_a] (Some "")))] in
  let w := mkWorld unit tt [] [] None [] in
  let page1 := mkPage "/streams/s" [entry_a] (Some (JStr "")) in
  served unit (routes table) is_200 [] tt [page1]
  /\ linked_from (JStr "/streams/s") [page1]
  /\ get_stream_events unit (routes table) 2 (JStr "/streams/s") [] w
     = (Ret [entry_a], mkWorld unit tt [GET "/streams/s" []] [] None []).
Proof.
  intros table w page1.
  assert (Hs : served unit (routes table) is_200 [] tt [page1])
    by (cbn; repeat split; discriminate).
  assert (Hl : linked_from (JStr "/streams/s") [page1]) by (cbn; auto).
  split; [exact Hs|split; [exact Hl|]].
  exact (reader_stops_at_an_empty_uri unit (routes table) [] 2
           (JStr "/streams/s") [page1] (JStr "") w Hs Hl eq_refl eq_refl
           (le_n 2)).
Defined.

(** X4 at work: the second page is served with status 200 and has no
    links; the entry of the first page is lost with the exception. *)
Lemma reader_malformed_page_witness :
  let table :=
    [("/streams/s", ok_json (demo_page [entry_b] (Some "/streams/s/page2")));
     ("/streams/s/page2", ok_json (JObj [("entries", JArr [entry_a])]))] in
  let w := mkWorld unit tt [] [] None [] in
  let page1 := mkPage "/streams/s" [entry_b] (Some (JStr "/streams/s/page2")) in
  served unit (routes table) is_200 [] tt [page1]
  /\ linked_from (JStr "/streams/s") [page1]
  /\ get_stream_events unit (routes table) 2 (JStr "/streams/s") [] w
     = (Raise (KeyError "links"),
        mkWorld unit tt [GET "/streams/s" []; GET "/streams/s/page2" []]
                [] None []).
Proof.
  intros table w page1.
  assert (Hs : served unit (routes table) is_200 [] tt [page1])
    by (cbn; repeat split; discriminate).
  assert (Hl : linked_from (JStr "/streams/s") [page1]) by (cbn; auto).
  split; [exact Hs|split; [exact Hl|]].
  refine (reader_raises_on_a_malformed_page unit (routes table) [] 2
            (JStr "/streams/s") [page1] "/streams/s/page2"
            (JObj [("entries", JArr [entry_a])]) (KeyError "links") w
            Hs Hl eq_refl _ eq_refl eq_refl _ (le_n 2)).
  - discriminate.
  - right. split; [exists [entry_a]|]; reflexivity.
Defined.

(** X5 at work: between the entries of [a] and [b] the list has one
    without links.  The direct export leaves the line of [a] behind;
    the export to an archive leaves nothing. *)
Lemma export_broken_entry_witness :
  let w := mkWorld unit tt [] [] None [] in
  let events := [entry_b; JObj [("title", JStr "2@s")]; entry_a] in
  let sent := [GET "/streams/s/0" []] in
  ready unit (Abs "out.json") w
  /\ Forall decodes
       (responses unit (routes demo_table) tt
          (entry_requests [] ["/streams/s/0"]))
  /\ export_events_to_file unit (routes demo_table) demo_dumps
       (Abs "out.json") events [] w
     = (Raise (KeyError "links"),
        mkWorld unit tt sent [("out.json", Text (line_of demo_dumps event_a))]
                None [])
  /\ export_events unit (routes demo_table) demo_dumps events "out.zip" [] w
     = (Raise (KeyError "links"), mkWorld unit tt sent [] None []).
Proof.
  intros w events sent.
  assert (Hd : Forall decodes
                 (responses unit (routes demo_table) tt
                    (entry_requests [] ["/streams/s/0"])))
    by (repeat constructor; vm_compute; discriminate).
  pose proof (export_stops_at_a_broken_entry unit (routes demo_table)
                demo_dumps (Abs "out.json") events [entry_a]
                (JObj [("title", JStr "2@s")]) [entry_b] ["/streams/s/0"]
                (KeyError "links") [] w I eq_refl eq_refl Hd eq_refl) as H.
  split; [exact I|split; [exact Hd|split]].
  - exact (proj1 H).
  - exact (proj1 (proj2 H "out.zip" KZip eq_refl)).
Defined.

(** X8 at work: the second line is the empty object; the record of the
    first line is appended, that of the third is not. *)
Lemma replay_non_record_witness :
  let content :=
    (line_of demo_dumps event_a ++ line_of demo_dumps (JObj [])
     ++ line_of demo_dumps event_b)%string in
  let w := mkWorld unit tt [] [("in.json", Text content)] None [] in
  file_lines content
  = [line_of demo_dumps event_a] ++ line_of demo_dumps (JObj [])
    :: [line_of demo_dumps event_b]
  /\ Forall (record_line demo_codec) [line_of demo_dumps event_a]
  /\ import_events unit (routes demo_table) demo_dumps demo_codec
       (Abs "in.json") "/streams/t" [] w
     = (Raise (KeyError "content"),
        mkWorld unit tt
          [POST "/streams/t" []
             (Some (demo_dumps (event_payload (JStr "a") (JStr "T1") (JObj []))))]
          [("in.json", Text content)] None []).
Proof.
  intros content w.
  assert (Hb : Forall (record_line demo_codec) [line_of demo_dumps event_a])
    by (repeat constructor).
  split; [reflexivity|split; [exact Hb|]].
  exact (proj1 (replay_stops_at_a_non_record unit (routes demo_table)
                  demo_dumps demo_codec (Abs "in.json") "/streams/t" []
                  content [line_of demo_dumps event_a]
                  (line_of demo_dumps (JObj [])) [line_of demo_dumps event_b]
                  (JObj []) (KeyError "content") w
                  eq_refl eq_refl Hb eq_refl eq_refl)).
Defined.

(** X9 at work: the file of the one event [a], imported twice. *)
Lemma import_twice_witness :
  let content := line_of demo_dumps event_a in
  let w := mkWorld unit tt [] [("in.json", Text content)] None [] in
  let post :=
    POST "/streams/t" []
      (Some (demo_dumps (event_payload (JStr "a") (JStr "T1") (JObj [])))) in
  Forall (record_line demo_codec) (file_lines content)
  /\ exists w1 w2,
       import_events unit (routes demo_table) demo_dumps demo_codec
         (Abs "in.json") "/streams/t" [] w = (Ret tt, w1)
       /\ import_events unit (routes demo_table) demo_dumps demo_codec
            (Abs "in.json") "/streams/t" [] w1 = (Ret tt, w2)
       /\ w_sent unit w2 = [post; post].
Proof.
  intros content w post.
  assert (Hlines : Forall (record_line demo_codec) (file_lines content))
    by (repeat constructor).
  split; [exact Hlines|].
  destruct (import_twice_appends_twice unit (routes demo_table) demo_dumps
              demo_codec (Abs "in.json") "/streams/t" [] content w
              eq_refl Hlines) as (w1 & w2 & H1 & H2 & _ & Hsent).
  exists w1, w2. split; [exact H1|split; [exact H2|exact Hsent]].
Defined.

(** X10 at work: a file of one line that is no JSON. *)
Lemma import_nothing_witness :
  let content := ("oops" ++ nl)%string in
  let w := mkWorld unit tt [] [("in.json", Text content)] None [] in
  Forall (fun l => decodable demo_codec l = false) (file_lines content)
  /\ import_events unit (routes demo_table) demo_dumps demo_codec
       (Abs "in.json") "/streams/t" [] w
     = (Ret tt,
        mkWorld unit tt [] [("in.json", Text content)] None
          ["Error decoding JSON: Expecting value: line 1 column 1 (char 0)";
           "0 events successfully uploaded to EventDB"]).
Proof.
  intros content w.
  assert (Hnone : Forall (fun l => decodable demo_codec l = false)
                         (file_lines content))
    by (repeat constructor).
  split; [exact Hnone|].
  exact (proj1 (import_of_nothing_reports_zero unit (routes demo_table)
                  demo_dumps demo_codec (Abs "in.json") "/streams/t" []
                  content w eq_refl Hnone)).
Defined.

(** X11 at work: the store answers the start of the projection with
    500. *)
Lemma projection_start_failure_witness :
  let w := mkWorld (list response) [mkResponse 500 "" None] [] [] None [] in
  let start :=
    POST "http://es/projection/$streams/command/enable"
         [("Content-Length", "0")] None in
  run_projection (list response) scripted 5 "http://es" "$streams" w
  = (Raise SystemExit,
     mkWorld (list response) [] [start] [] None
             ["Failed to start projection. Status code: 500"])
  /\ get_available_streams (list response) scripted 5 "http://es" [] w
     = (Raise SystemExit,
        mkWorld (list response) [] [start] [] None
                ["Failed to start projection. Status code: 500"]).
Proof.
  intros w start.
  assert (Hr : status_code
                 (snd (scripted (w_srv (list response) w)
                         (enable_request "http://es" "$streams"))) <> 200%Z)
    by (vm_compute; discriminate).
  pose proof (projection_start_failure_exits (list response) scripted 5
                "http://es" "$streams" [] w Hr) as H.
  split; [exact (proj1 H)|exact (proj2 H eq_refl)].
Defined.

(** X12 at work: a projection at 50 percent, then at 100; the stop is
    answered with 500, and [run_projection] returns. *)
Lemma projection_stop_witness :
  let script :=
    [mkResponse 200 "" None; progress 50; progress 100; mkResponse 500 "" None] in
  let w := mkWorld (list response) script [] [] None [] in
  let poll := GET "http://es/projection/p" [("Accept", "application/json")] in
  still_running (list response) scripted (status_request "http://es" "p")
    (fst (scripted script (enable_request "http://es" "p"))) 1
  /\ run_projection (list response) scripted 2 "http://es" "p" w
     = (Ret tt,
        mkWorld (list response) []
          [POST "http://es/projection/p/command/enable"
                [("Content-Length", "0")] None;
           poll; poll;
           POST "http://es/projection/p/command/disable"
                [("Content-Length", "0")] None]
          [] None ["Failed to stop projection. Status code: 500"]).
Proof.
  intros script w poll.
  assert (Hrun : still_running (list response) scripted
                   (status_request "http://es" "p")
                   (fst (scripted script (enable_request "http://es" "p"))) 1)
    by (split; [reflexivity|exact I]).
  split; [exact Hrun|].
  exact (projection_is_stopped_after_polling (list response) scripted 2 1
           "http://es" "p" w eq_refl Hrun eq_refl (le_n 2)).
Defined.

(** X13 at work: a projection that stays at 50 percent. *)
Lemma projection_unbounded_witness :
  let table :=
    [("http://es/projection/p/command/enable", mkResponse 200 "" None);
     ("http://es/projection/p", progress 50)] in
  let w := mkWorld unit tt [] [] None [] in
  (forall s : unit,
     poll_step (snd (routes table s (status_request "http://es" "p")))
     = Ret false)
  /\ fst (run_projection unit (routes table) 7 "http://es" "p" w) = Diverge
  /\ w_sent unit (snd (run_projection unit (routes table) 7 "http://es" "p" w))
     = enable_request "http://es" "p"
       :: repeat (status_request "http://es" "p") 7.
Proof.
  intros table w.
  assert (Hpoll : forall s : unit,
             poll_step (snd (routes table s (status_request "http://es" "p")))
             = Ret false)
    by (intros []; reflexivity).
  split; [exact Hpoll|].
  exact (projection_polling_is_unbounded unit (routes table) 7 "http://es" "p"
           w eq_refl Hpoll).
Defined.

(** X14 at work: the second status answer gives the progress as a
    string. *)
Lemma projection_exception_witness :
  let script :=
    [mkResponse 200 "" None; progress 50;
     ok_json (JObj [("progress", JStr "done")])] in
  let w := mkWorld (list response) script [] [] None [] in
  let poll := GET "http://es/projection/p" [("Accept", "application/json")] in
  still_running (list response) scripted (status_request "http://es" "p")
    (fst (scripted script (enable_request "http://es" "p"))) 1
  /\ run_projection (list response) scripted 9 "http://es" "p" w
     = (Raise TypeError,
        mkWorld (list response) []
          [POST "http://es/projection/p/command/enable"
                [("Content-Length", "0")] None;
           poll; poll]
          [] None []).
Proof.
  intros script w poll.
  assert (Hrun : still_running (list response) scripted
                   (status_request "http://es" "p")
                   (fst (scripted script (enable_request "http://es" "p"))) 1)
    by (split; [reflexivity|exact I]).
  split; [exact Hrun|].
  refine (projection_is_left_running_on_an_exception (list response) scripted
            9 1 TypeError "http://es" "p" w eq_refl Hrun eq_refl _).
  lia.
Defined.

(** X16 at work: the two pages list two entries, the fetch of [b] is
    answered with 410; the file gets the line of [a] and the total is
    two. *)
Lemma export_total_witness :
  let table :=
    [("/streams/s", ok_json (demo_page [entry_b] (Some "/streams/s/page2")));
     ("/streams/s/page2", ok_json (demo_page [entry_a] None));
     ("/streams/s/0", ok_json event_a);
     ("/streams/s/1", mkResponse 410 "Gone" None)] in
  let w := mkWorld unit tt [] [] None [] in
  let page1 := mkPage "/streams/s" [entry_b] (Some (JStr "/streams/s/page2")) in
  let page2 := mkPage "/streams/s/page2" [entry_a] None in
  served unit (routes table) is_200 [] tt [page1; page2]
  /\ linked_from (JStr "/streams/s") [page1; page2]
  /\ main_transfer unit (routes table) demo_dumps demo_codec 2 "export"
       "/streams/s" "out.json" [] w
     = (Ret tt,
        mkWorld unit tt
          [GET "/streams/s" []; GET "/streams/s/page2" [];
           GET "/streams/s/0" []; GET "/streams/s/1" []]
          [("out.json", Text (line_of demo_dumps event_a))] None
          ["Export completed successfully. Total events exported: 2"]).
Proof.
  intros table w page1 page2.
  assert (Hs : served unit (routes table) is_200 [] tt [page1; page2])
    by (cbn; repeat split; discriminate).
  assert (Hl : linked_from (JStr "/streams/s") [page1; page2])
    by (cbn; auto).
  split; [exact Hs|split; [exact Hl|]].
  refine (proj1 (export_total_counts_the_entries unit (routes table)
                   demo_dumps demo_codec 2 "/streams/s" "out.json" []
                   [page1; page2] ["/streams/s/1"; "/streams/s/0"] w
                   (or_introl eq_refl) Hs Hl eq_refl (le_n 2) _ eq_refl _)).
  - discriminate.
  - repeat constructor; vm_compute; discriminate.
Defined.

(** X17 at work: a name that ends in [.json] and has a dot more. *)
Lemma unsupported_type_witness :
  let w := mkWorld unit tt [] [] None [] in
  let pages := [GET "/streams/s" []; GET "/streams/s/page2" []] in
  extension "dump.2024.json" = ".2024.json"
  /\ main_transfer unit (routes demo_table) demo_dumps demo_codec 2 "export"
       "/streams/s" "dump.2024.json" [] w
     = (Ret tt,
        mkWorld unit tt pages [] None
          ["Unsupported file type: .2024.json";
           "Export completed successfully. Total events exported: 2"])
  /\ main_transfer unit (routes demo_table) demo_dumps demo_codec 2 "import"
       "/streams/s" "dump.2024.json" [] w
     = (Ret tt,
        mkWorld unit tt [] [] None
          ["Unsupported file type: .2024.json"; "Import process completed."]).
Proof.
  intros w pages. split; [reflexivity|].
  assert (Hne : [entry_b; entry_a] <> []) by discriminate.
  assert (H : extension "dump.2024.json" <> ".json"
              /\ extension "dump.2024.json" <> ""
              /\ extension "dump.2024.json" <> ".zip"
              /\ extension "dump.2024.json" <> ".tar.xz")
    by (repeat split; discriminate).
  destruct H as (H1 & H2 & H3 & H4).
  pose proof (unsupported_type_still_completes unit (routes demo_table)
                demo_dumps demo_codec 2 "/streams/s" "dump.2024.json" [] w
                H1 H2 H3 H4) as [Hexport Himport].
  split; [|exact Himport].
  exact (Hexport [entry_b; entry_a] (mkWorld unit tt pages [] None [])
           eq_refl Hne).
Defined.

(** X18 at work: the store does not know the stream; the file that was
    to be written over is as it was. *)
Lemma nothing_exported_witness :
  let w := mkWorld unit tt [] [("out.json", Text "kept")] None [] in
  main_transfer unit (routes []) demo_dumps demo_codec 1 "export"
    "/streams/s" "out.json" [] w
  = (Ret tt,
     mkWorld unit tt [GET "/streams/s" []] [("out.json", Text "kept")] None
       ["Failed to fetch stream page. Status code: 404";
        "No events were exported."]).
Proof.
  intros w.
  refine (proj1 (nothing_exported_leaves_the_target unit (routes [])
                   demo_dumps demo_codec 1 "/streams/s" "out.json" [] w
                   _ _ (le_n 1))).
  - discriminate.
  - vm_compute. discriminate.
Defined.

(** ** The console at work *)

Arguments Returned {A} a.
Arguments Raised {A} e.
Arguments EOFError {A}.
Arguments ValueError {A}.
Arguments Unbounded {A}.

(** X19 at work: an unknown answer, then [E] with a blank. *)
Lemma select_mode_witness :
  let w := mkWorld unit tt [] [] None [] in
  Forall (fun l => mode_of (demo_lower (demo_strip l)) = None) [" x"]
  /\ select_mode unit demo_strip demo_lower 2 [" x"; "E "; "later"] w
     = (Returned "export", ["later"],
        mkWorld unit tt [] [] None [mode_prompt; mode_retry])
  /\ select_mode unit demo_strip demo_lower 2 [" x"] w
     = (EOFError, [], mkWorld unit tt [] [] None [mode_prompt; mode_retry]).
Proof.
  intros w.
  assert (Hskipped : Forall (fun l => mode_of (demo_lower (demo_strip l)) = None)
                            [" x"])
    by (repeat constructor).
  pose proof (select_mode_takes_the_first_known_answer unit demo_strip
                demo_lower 2 w) as [Hknown Hend].
  split; [exact Hskipped|split].
  - exact (proj1 (Hknown [" x"] "E " ["later"] "export" Hskipped eq_refl
                    (le_n 2))).
  - exact (Hend [" x"] Hskipped (le_n 2)).
Defined.

(** X20 at work: an empty line and a name with a [/], then a name. *)
Lemma specify_stream_witness :
  let w := mkWorld unit tt [] [] None [] in
  Forall (fun l => rejection l <> None) [""; "a/b"]
  /\ specify_stream unit 3 [""; "a/b"; "orders"; "later"] w
     = (Returned "orders", ["later"],
        mkWorld unit tt [] [] None
          ["Enter the name of the stream to import to: ";
           "Error: No stream specified. Enter the name of the stream to import to: ";
           "Error: '/' is a forbidden character. Enter a valid stream name to import to: "]).
Proof.
  intros w.
  assert (Hskipped : Forall (fun l => rejection l <> None) [""; "a/b"])
    by (repeat constructor; discriminate).
  split; [exact Hskipped|].
  exact (proj1 (specify_stream_takes_the_first_valid_name unit 3 [""; "a/b"]
                  "orders" ["later"] w Hskipped eq_refl (le_n 3))).
Defined.

(** X21 at work: two streams are listed; a word and a number out of
    range are asked again, and [2] selects the second stream. *)
Lemma select_stream_witness :
  let titles := ["0@orders"; "0@users"] in
  let w := mkWorld (list response) (index_script titles) [] [] None [] in
  let w1 := snd (list_available_streams (list response) scripted 2 "http://es"
                   [] w) in
  list_available_streams (list response) scripted 2 "http://es" [] w
  = (Ret ["orders"; "users"], w1)
  /\ Forall (not_a_position demo_int 2) ["two"; "7"]
  /\ fst (select_stream (list response) scripted demo_int 3 "http://es" []
            ["two"; "7"; "2"; "later"] w)
     = (Returned "users", ["later"]).
Proof.
  intros titles w w1.
  assert (Hskipped : Forall (not_a_position demo_int 2) ["two"; "7"]).
  { constructor; [exact I|]. constructor; [|constructor].
    right. reflexivity. }
  assert (Hlist : list_available_streams (list response) scripted 3 "http://es"
                    [] w
                  = (Ret ["orders"; "users"], w1)) by reflexivity.
  split; [reflexivity|split; [exact Hskipped|]].
  assert (Hrange : (1 <= 2 <= Z.of_nat (length ["orders"; "users"]))%Z)
    by (cbn; lia).
  exact (f_equal fst
           (proj1 (select_stream_returns_a_listed_stream (list response)
                     scripted demo_int 3 "http://es" [] ["orders"; "users"]
                     ["two"; "7"] "2" 2%Z ["later"] w w1
                     Hlist Hskipped eq_refl Hrange (le_n 3)))).
Defined.

(** X22 at work: in import mode a name with an extension that is not
    supported and a name of no file are turned down, and the name of a
    file is returned. *)
Lemma validate_file_witness :
  let w := mkWorld unit tt [] [("in.json", Text "")] None [] in
  let run := validate_file unit demo_strip demo_lower 4 None "import"
               ["data.txt"; "missing.json"; "in.json"] w in
  fst run = (Returned "in.json", [])
  /\ supported_name "in.json" = true
  /\ assoc "in.json" (w_files unit w) <> None
  /\ w_files unit (snd run) = w_files unit w
  /\ w_sent unit (snd run) = w_sent unit w.
Proof.
  intros w run.
  destruct (proj1 (validate_file_returns_a_checked_name unit demo_strip
                     demo_lower 4 None "import"
                     ["data.txt"; "missing.json"; "in.json"] w)
              "in.json" [] (snd run) eq_refl)
    as (_ & _ & _ & Hfiles & Hsent & _).
  split; [reflexivity|split; [reflexivity|split; [discriminate|]]].
  split; [exact Hfiles|exact Hsent].
Defined.

(** X23 at work: [maybe] is the answer to both warnings. *)
Lemma validate_file_unknown_answer_witness :
  let w := mkWorld unit tt [] [("out.json", Text "old")] None [] in
  validate_file unit demo_strip demo_lower 1 (Some "dump") "export"
    ["maybe"; "later"] w
  = (Returned "dump", ["later"],
     mkWorld unit tt [] [("out.json", Text "old")] None
       [no_extension_warning "dump"; unknown_response])
  /\ validate_file unit demo_strip demo_lower 2 (Some "out.json") "export"
       ["maybe"; "Y"; "later"] w
     = (Returned "out.json", ["later"],
        mkWorld unit tt [] [("out.json", Text "old")] None
          [overwrite_warning "out.json"; unknown_response;
           overwrite_warning "out.json"]).
Proof.
  intros w. split.
  - refine (proj1 (validate_file_takes_an_unknown_answer_for_yes unit
                     demo_strip demo_lower 0 "dump" "maybe" w _ _ _ _)
                  ["later"] eq_refl eq_refl); discriminate.
  - refine (proj2 (validate_file_takes_an_unknown_answer_for_yes unit
                     demo_strip demo_lower 0 "out.json" "maybe" w _ _ _ _)
                  "Y" ["later"] _ eq_refl _ eq_refl); discriminate.
Defined.

(** X24 at work: the projection runs, and the index of streams is
    answered with 503. *)
Lemma index_failure_witness :
  let script :=
    [mkResponse 200 "" None; progress 100; mkResponse 200 "" None;
     mkResponse 503 "" None] in
  let w := mkWorld (list response) script [] [] None [] in
  let w1 := snd (run_projection (list response) scripted 1 "http://es"
                   "$streams" w) in
  run_projection (list response) scripted 1 "http://es" "$streams" w
  = (Ret tt, w1)
  /\ fst (select_stream (list response) scripted demo_int 1 "http://es" []
            ["1"] w)
     = (Raised SystemExit, ["1"])
  /\ w_out (list response)
       (snd (select_stream (list response) scripted demo_int 1 "http://es" []
               ["1"] w))
     = ["Failed to list streams. Status code: 503"; no_streams_error]
  /\ fst (validate_stream (list response) scripted demo_strip demo_lower 1
            "orders" "http://es" "http://es/streams/" [] ["y"] w)
     = (Raised TypeError, ["y"]).
Proof.
  intros script w w1.
  assert (Hr : status_code
                 (snd (scripted (w_srv (list response) w1)
                         (GET (streams_url "http://es") []))) <> 200%Z)
    by (vm_compute; discriminate).
  pose proof (index_failure_ends_both_modes (list response) scripted
                demo_strip demo_lower demo_int 1 "http://es" [] "orders"
                "http://es/streams/") as H.
  split; [reflexivity|split; [|split]].
  - exact (f_equal fst (proj1 (proj2 (H ["1"] w w1 eq_refl Hr (le_n 1))))).
  - exact (f_equal (fun r => w_out (list response) (snd r))
             (proj1 (proj2 (H ["1"] w w1 eq_refl Hr (le_n 1))))).
  - exact (f_equal fst (proj2 (proj2 (H ["y"] w w1 eq_refl Hr (le_n 1))))).
Defined.

(** X25 at work: the index lists [orders] and [users]. *)
Lemma validate_stream_witness :
  let titles := ["0@orders"; "0@users"] in
  let w := mkWorld (list response) (index_script titles) [] [] None [] in
  let w1 := snd (get_available_streams (list response) scripted 2 "http://es"
                   [] w) in
  let validate stream lines :=
    fst (validate_stream (list response) scripted demo_strip demo_lower 2
           stream "http://es" "http://es/streams/" [] lines w) in
  get_available_streams (list response) scripted 2 "http://es" [] w
  = (Ret (Some ["orders"; "users"]), w1)
  /\ validate "invoices" ["later"] = (Returned "invoices", ["later"])
  /\ validate "orders" ["Y"; "later"] = (Returned "orders", ["later"])
  /\ validate "orders" [""; "invoices"; "later"]
     = (Returned "invoices", ["later"]).
Proof.
  intros titles w w1 validate.
  pose proof (validate_stream_asks_before_appending (list response) scripted
                demo_strip demo_lower 2 "invoices" "http://es"
                "http://es/streams/" [] ["orders"; "users"] w w1 eq_refl)
    as (Hnew & _ & _).
  pose proof (validate_stream_asks_before_appending (list response) scripted
                demo_strip demo_lower 2 "orders" "http://es"
                "http://es/streams/" [] ["orders"; "users"] w w1 eq_refl)
    as (_ & Hyes & Hno).
  split; [reflexivity|split; [|split]].
  - exact (f_equal fst (Hnew ["later"] eq_refl (le_S _ _ (le_n 1)))).
  - exact (f_equal fst (Hyes "Y" ["later"] eq_refl eq_refl
                          (le_S _ _ (le_n 1)))).
  - exact (f_equal fst (Hno "" "invoices" ["later"] eq_refl
                          (or_intror eq_refl) eq_refl eq_refl (le_n 2))).
Defined.

(** X26 at work: an archive with one record stream and an empty
    directory. *)
Lemma import_sub_directory_witness :
  let members :=
    [("a.json", File (line_of demo_dumps event_a)); ("notes", Dir [])] in
  let w := mkWorld unit tt [] [("in.zip", Zip members)] None [] in
  Forall (record_line demo_codec) (file_lines (line_of demo_dumps event_a))
  /\ process_import_file unit (routes demo_table) demo_dumps demo_codec
       "in.zip" "/streams/t" [] w
     = (Raise FileNotFoundError,
        mkWorld unit tt
          [POST "/streams/t" []
             (Some (demo_dumps (event_payload (JStr "a") (JStr "T1") (JObj []))))]
          [("in.zip", Zip members)] None
          [extracting "in.zip"; extracted "in.zip";
           "1 events successfully uploaded to EventDB"]).
Proof.
  intros members w.
  assert (Hlines : Forall (record_line demo_codec)
                          (file_lines (line_of demo_dumps event_a)))
    by (repeat constructor).
  split; [exact Hlines|].
  exact (proj1 (import_fails_in_a_sub_directory unit (routes demo_table)
                  demo_dumps demo_codec "in.zip" "/streams/t" [] KZip
                  "a.json" (line_of demo_dumps event_a) "notes" [] w
                  eq_refl eq_refl eq_refl eq_refl eq_refl Hlines)).
Defined.

(** X15 at work: two streams are listed, and an index without entries
    ends the program. *)
Lemma listing_witness :
  let w titles := mkWorld (list response) (index_script titles) [] [] None [] in
  let run titles :=
    list_available_streams (list response) scripted 2 "http://es" []
      (w titles) in
  fst (run ["0@orders"; "0@users"]) = Ret ["orders"; "users"]
  /\ w_out (list response) (snd (run ["0@orders"; "0@users"]))
     = ["Available streams:"; "1. orders"; "2. users"]
  /\ fst (run []) = Raise SystemExit
  /\ w_out (list response) (snd (run [])) = [no_streams_error].
Proof.
  intros w run.
  pose proof (proj1 (listing_returns_no_empty_list (list response) scripted 2
                       "http://es" [] (w ["0@orders"; "0@users"]))
                "orders" ["users"]
                (snd (get_available_streams (list response) scripted 2
                        "http://es" [] (w ["0@orders"; "0@users"])))
                eq_refl) as Hsome.
  pose proof (proj1 (proj2 (listing_returns_no_empty_list (list response)
                              scripted 2 "http://es" [] (w [])))
                (snd (get_available_streams (list response) scripted 2
                        "http://es" [] (w [])))
                (or_intror eq_refl)) as Hnone.
  split; [exact (f_equal fst Hsome)|split; [|split]].
  - exact (f_equal (fun r => w_out (list response) (snd r)) Hsome).
  - exact (f_equal fst Hnone).
  - exact (f_equal (fun r => w_out (list response) (snd r)) Hnone).
Defined.

(** X27 at work: an import into the stream [a/b], a name
    [specify_stream] would not take; the line that is typed is not
    read. *)
Lemma command_line_witness :
  let content := line_of demo_dumps event_a in
  let w := mkWorld unit tt [] [("in.json", Text content)] None [] in
  let result :=
    main unit (routes demo_table) demo_dumps demo_codec demo_strip demo_lower
      demo_int (fun path => path) 1
      (mkArguments (Some "import") (Some "a/b") "http://es" (Some "in.json"))
      ["unread"] w in
  rejection "a/b" <> None
  /\ fst result = (Returned tt, ["unread"])
  /\ w_sent unit (snd result)
     = [POST "http://es/streams/a/b" import_headers
          (Some (demo_dumps (event_payload (JStr "a") (JStr "T1") (JObj []))))]
  /\ w_out unit (snd result)
     = ["Failed to upload event. Status code: 404, Reason: Not Found";
        "0 events successfully uploaded to EventDB, 1 events failed to upload.";
        "Import process completed."].
Proof.
  intros content w result.
  assert (H : result
              = run unit
                  (main_transfer unit (routes demo_table) demo_dumps demo_codec
                     1 "import" ("http://es" ++ "/streams/" ++ "a/b")
                     "in.json" import_headers) ["unread"] w).
  { refine (command_line_is_taken_as_given unit (routes demo_table) demo_dumps
              demo_codec demo_strip demo_lower demo_int (fun path => path) 1
              "http://es" "import" "a/b" "in.json" import_headers ["unread"] w
              (or_intror (conj eq_refl (conj eq_refl _))) _ _ _ eq_refl
              (le_n 1)); discriminate. }
  split; [discriminate|]. rewrite H. repeat split.
Defined.
